(** * LawScanner: the OCR and summarize routes, embedded and verified

    A shallow embedding of [src/app/api/summarize/route.ts] and
    [src/app/api/ocr/route.ts].

    - JavaScript numbers are IEEE-754 binary64 values ([spec_float] with
      precision 53 and maximal exponent 1024), so rounding, NaN and the two
      zeros behave as they do at run time.
    - Untyped data (a parsed request body, the candidate summary returned by
      the language model) is a [value]: the JSON fragment of JavaScript.
    - The provider responses, which the routes read through optional
      chaining, are records whose optional members are [option]s.
    - Strings hold the UTF-8 bytes of a text; [substring], [trim] and
      [slice] act on its UTF-16 code units, as they do at run time
      ([JsString]).
    - Exceptions are a sum type; [console] output and calls to the language
      model are events of a per-request log. *)

From Stdlib Require Import ZArith NArith List String Ascii Bool Lia
  DecimalString DecimalNat.
From Stdlib Require Import Floats.SpecFloat.
Import ListNotations.

Set Implicit Arguments.
Set Warnings "-register-all,-notation-for-abbreviation".
Local Open Scope string_scope.

(** ** JavaScript numbers *)

Module Num.

Definition prec : Z := 53.
Definition emax : Z := 1024.

Definition number := spec_float.

Definition of_Z (z : Z) : number := binary_normalize prec emax z 0 false.
Definition add : number -> number -> number := SFadd prec emax.
Definition sub : number -> number -> number := SFsub prec emax.
Definition div : number -> number -> number := SFdiv prec emax.

(** A decimal literal [m / 10^k] of the source denotes the double nearest to
    it, which the correctly rounded quotient of the two integers gives. *)
Definition decimal (m : Z) (k : nat) : number :=
  div (of_Z m) (of_Z (10 ^ Z.of_nat k)).

Definition zero : number := S754_zero false.
Definition neg_zero : number := S754_zero true.
Definition one : number := Eval vm_compute in of_Z 1.
Definition pos_infinity : number := S754_infinity false.
Definition neg_infinity : number := S754_infinity true.

Definition is_nan (x : number) : bool :=
  match x with S754_nan => true | _ => false end.

Definition is_zero (x : number) : bool :=
  match x with S754_zero _ => true | _ => false end.

Definition ltb : number -> number -> bool := SFltb.
Definition leb : number -> number -> bool := SFleb.
Definition eqb : number -> number -> bool := SFeqb.

(** [x] lies in the closed interval [[0,1]]. *)
Definition in_unit (x : number) : bool := leb zero x && leb x one.

(** ToBoolean on a number: [0], [-0] and [NaN] are falsy. *)
Definition truthy (x : number) : bool := negb (is_nan x || is_zero x).

(** [Math.max(...args)] (ECMA-262 21.3.2.24): NaN is contagious, [+0] is
    larger than [-0], the start value is [-Infinity]. *)
Definition max_step (highest : number) (x : number) : number :=
  if is_nan highest || is_nan x then S754_nan
  else match x, highest with
       | S754_zero false, S754_zero true => x
       | _, _ => if ltb highest x then x else highest
       end.

Definition Math_max (args : list number) : number :=
  fold_left max_step args neg_infinity.

(** [Math.min(...args)] (ECMA-262 21.3.2.25), the mirror image. *)
Definition min_step (lowest : number) (x : number) : number :=
  if is_nan lowest || is_nan x then S754_nan
  else match x, lowest with
       | S754_zero true, S754_zero false => x
       | _, _ => if ltb x lowest then x else lowest
       end.

Definition Math_min (args : list number) : number :=
  fold_left min_step args pos_infinity.

End Num.

(** ** JavaScript values (the JSON fragment) *)

Inductive value : Type :=
| VUndefined
| VNull
| VBool (b : bool)
| VNumber (x : Num.number)
| VString (s : string)
| VArray (elems : list value)
| VObject (props : list (string * value)).

(** An object is its list of own properties, in insertion order. *)
Definition obj := list (string * value).

(** ToBoolean. *)
Definition truthy (v : value) : bool :=
  match v with
  | VUndefined | VNull => false
  | VBool b => b
  | VNumber x => Num.truthy x
  | VString s => negb (String.eqb s EmptyString)
  | VArray _ | VObject _ => true
  end.

(** [a || b]. *)
Definition or_else (a b : value) : value := if truthy a then a else b.

Definition Array_isArray (v : value) : bool :=
  match v with VArray _ => true | _ => false end.

Definition typeof_number (v : value) : bool :=
  match v with VNumber _ => true | _ => false end.

(** [o.k] on an object: the own property, [undefined] when there is none. *)
Fixpoint prop (o : obj) (k : string) : value :=
  match o with
  | [] => VUndefined
  | (k', v) :: rest => if String.eqb k' k then v else prop rest k
  end.

(** ** Exceptions and results *)

Inductive exn : Type :=
| JsError (message : string)   (* an instance of Error *)
| Thrown (v : value).          (* any other thrown value *)

Inductive result (A : Type) : Type :=
| Ok (a : A)
| Throw (e : exn).

Arguments Ok {A} a.
Arguments Throw {A} e.

Definition bind {A B} (r : result A) (k : A -> result B) : result B :=
  match r with Ok a => k a | Throw e => Throw e end.

Notation "x <- r ;; k" := (bind r (fun x => k))
  (at level 61, r at next level, right associativity).

Fixpoint mapM {A B} (f : A -> result B) (l : list A) : result (list B) :=
  match l with
  | [] => Ok []
  | a :: rest => b <- f a ;; bs <- mapM f rest ;; Ok (b :: bs)
  end.

(** [error instanceof Error ? error.message : 'Unknown error']. *)
Definition details_of (e : exn) : string :=
  match e with JsError m => m | Thrown _ => "Unknown error" end.

(** [v.k] for the property names the routes read ([meta], [ocr], [page],
    [text], [blocks], [entities], [ocr_result], ...): none of them lives on
    a built-in prototype, so only an object can have one; reading from
    [null] or [undefined] throws a TypeError (an Error whose message is
    worded by the engine; the wording here is a stand-in, as it is for the
    other TypeErrors below). *)
Definition get (v : value) (k : string) : result value :=
  match v with
  | VUndefined | VNull =>
      Throw (JsError ("Cannot read properties of null or undefined: " ++ k))
  | VObject o => Ok (prop o k)
  | _ => Ok VUndefined
  end.

(** ** The request environment and the per-request log *)

(** [process.env]. *)
Definition env := string -> option string.

(** ToBoolean on an optional string (an environment entry, an optional
    member of a response): absent and empty are falsy. *)
Definition str_truthy (o : option string) : bool :=
  match o with
  | Some s => negb (String.eqb s EmptyString)
  | None => false
  end.

Inductive event : Type :=
| ConsoleWarn (message : string)
| ConsoleErrorText (label text : string)
| ConsoleErrorExn (label : string) (e : exn)
| GenerateContent (apiKey prompt : string).   (* a call to the language model *)

Definition is_backend_call (ev : event) : bool :=
  match ev with GenerateContent _ _ => true | _ => false end.

(** What [NextResponse.json(body, { status })] answers. *)
Record response : Type := { status : nat; body : value }.

Definition json (b : value) : response := {| status := 200; body := b |}.
Definition json_with (b : value) (st : nat) : response :=
  {| status := st; body := b |}.

Definition nl : string := String (ascii_of_nat 10) EmptyString.

(** ** Strings

    A JavaScript string is a sequence of 16-bit code units.  A string of
    this development holds the UTF-8 bytes of the text, as a literal of
    this file does; [units] reads the code units off the bytes and
    [of_units] writes code units back as bytes.  A character outside the
    Basic Multilingual Plane is four bytes and two code units (a surrogate
    pair), a lone surrogate is three bytes, and a byte that starts no
    well-formed sequence counts as the code unit of its own value.
    Concatenation and comparison work on the bytes; what counts or
    inspects characters ([substring], [trim], [slice]) works on the code
    units. *)

Module JsString.

(** A continuation byte, [10xxxxxx]. *)
Definition is_cont (b : N) : bool := ((128 <=? b) && (b <? 192))%N.

(** The shortest form only: a two-byte sequence holds a unit from 128 on
    (lead byte from 194 on), a three-byte one a unit from 2048 on. *)
Definition two (b0 b1 : N) : bool :=
  ((194 <=? b0) && (b0 <? 224))%N && is_cont b1.

Definition three (b0 b1 b2 : N) : bool :=
  ((224 <=? b0) && (b0 <? 240))%N && is_cont b1 && is_cont b2
  && (2048 <=? (b0 - 224) * 4096 + (b1 - 128) * 64 + (b2 - 128))%N.

(** The code point of a four-byte sequence. *)
Definition code_point (b0 b1 b2 b3 : N) : N :=
  ((b0 - 240) * 262144 + (b1 - 128) * 4096 + (b2 - 128) * 64 + (b3 - 128))%N.

Definition four (b0 b1 b2 b3 : N) : bool :=
  ((240 <=? b0) && (b0 <? 248))%N && is_cont b1 && is_cont b2 && is_cont b3
  && ((65536 <=? code_point b0 b1 b2 b3)
      && (code_point b0 b1 b2 b3 <? 1114112))%N.

(** The code units of a string. *)
Fixpoint units (s : string) : list N :=
  match s with
  | EmptyString => []
  | String c0 r0 =>
      let b0 := N_of_ascii c0 in
      let alone := b0 :: units r0 in
      match r0 with
      | EmptyString => alone
      | String c1 r1 =>
          let b1 := N_of_ascii c1 in
          if two b0 b1 then ((b0 - 192) * 64 + (b1 - 128))%N :: units r1
          else
            match r1 with
            | EmptyString => alone
            | String c2 r2 =>
                let b2 := N_of_ascii c2 in
                if three b0 b1 b2 then
                  ((b0 - 224) * 4096 + (b1 - 128) * 64 + (b2 - 128))%N
                    :: units r2
                else
                  match r2 with
                  | EmptyString => alone
                  | String c3 r3 =>
                      let b3 := N_of_ascii c3 in
                      if four b0 b1 b2 b3 then
                        let cp := code_point b0 b1 b2 b3 in
                        (55296 + (cp - 65536) / 1024)%N
                          :: (56320 + (cp - 65536) mod 1024)%N :: units r3
                      else alone
                  end
            end
      end
  end.

Definition is_high (u : N) : bool := ((55296 <=? u) && (u <? 56320))%N.
Definition is_low (u : N) : bool := ((56320 <=? u) && (u <? 57344))%N.

Definition byte (n : N) : ascii := ascii_of_N n.

(** The string of a sequence of code units: a high surrogate followed by a
    low one is written as the four bytes of their character. *)
Fixpoint of_units (l : list N) : string :=
  match l with
  | [] => EmptyString
  | u :: r =>
      if (u <? 128)%N then String (byte u) (of_units r)
      else if (u <? 2048)%N then
        String (byte (192 + u / 64)) (String (byte (128 + u mod 64))
          (of_units r))
      else
        let alone :=
          String (byte (224 + u / 4096))
            (String (byte (128 + (u / 64) mod 64))
               (String (byte (128 + u mod 64)) (of_units r))) in
        match r with
        | [] => alone
        | v :: r' =>
            if is_high u && is_low v then
              let cp := (65536 + (u - 55296) * 1024 + (v - 56320))%N in
              String (byte (240 + cp / 262144))
                (String (byte (128 + (cp / 4096) mod 64))
                   (String (byte (128 + (cp / 64) mod 64))
                      (String (byte (128 + cp mod 64)) (of_units r'))))
            else alone
        end
  end.

(** WhiteSpace and LineTerminator of ECMA-262, which [trim] removes: TAB,
    LF, VT, FF, CR, SP, NBSP, U+1680, U+2000 to U+200A, LS, PS, U+202F,
    U+205F, U+3000 and the byte order mark. *)
Definition is_space (u : N) : bool :=
  ((9 <=? u) && (u <=? 13) || (u =? 32) || (u =? 160) || (u =? 5760)
   || (8192 <=? u) && (u <=? 8202) || (u =? 8232) || (u =? 8233)
   || (u =? 8239) || (u =? 8287) || (u =? 12288) || (u =? 65279))%N.

Fixpoint trimStart (l : list N) : list N :=
  match l with
  | [] => []
  | u :: rest => if is_space u then trimStart rest else l
  end.

Fixpoint trimEnd (l : list N) : list N :=
  match l with
  | [] => []
  | u :: rest =>
      match trimEnd rest with
      | [] => if is_space u then [] else [u]
      | kept => u :: kept
      end
  end.

(** [s.trim()]. *)
Definition trim (s : string) : string :=
  of_units (trimEnd (trimStart (units s))).

(** [s.substring(start, end)]: both ends are clamped to the length of the
    string and swapped when out of order. *)
Definition substring (s : string) (start stop : Z) : string :=
  let us := units s in
  let len := Z.of_nat (List.length us) in
  let a := Z.max 0 (Z.min start len) in
  let b := Z.max 0 (Z.min stop len) in
  of_units (firstn (Z.to_nat (Z.max a b - Z.min a b))
              (skipn (Z.to_nat (Z.min a b)) us)).

(** [s.slice(0, n)] for a natural [n]. *)
Definition slice_0 (n : nat) (s : string) : string :=
  of_units (firstn n (units s)).

End JsString.

(** ** [src/app/api/summarize/route.ts] *)

Module Summarize.

Definition default_summary : string :=
  "Unable to generate summary - document analysis incomplete".

(** [validateAndNormalizeSummary]: the candidate is the object that
    [JSON.parse] returned. *)
Definition validateAndNormalizeSummary (summary : obj) : obj :=
  [ ("short_summary",
       or_else (prop summary "short_summary") (VString default_summary));
    ("parties",
       if Array_isArray (prop summary "parties")
       then prop summary "parties" else VArray []);
    ("important_dates",
       if Array_isArray (prop summary "important_dates")
       then prop summary "important_dates" else VArray []);
    ("obligations",
       if Array_isArray (prop summary "obligations")
       then prop summary "obligations" else VArray []);
    ("payment_terms", or_else (prop summary "payment_terms") VNull);
    ("termination_clauses",
       or_else (prop summary "termination_clauses") VNull);
    ("governing_law", or_else (prop summary "governing_law") VNull);
    ("risk_flags",
       if Array_isArray (prop summary "risk_flags")
       then prop summary "risk_flags" else VArray []);
    ("suggested_redactions",
       if Array_isArray (prop summary "suggested_redactions")
       then prop summary "suggested_redactions" else VArray []);
    ("confidence_score",
       match prop summary "confidence_score" with
       | VNumber x =>                           (* typeof ... === 'number' *)
           VNumber (Num.Math_min [Num.one; Num.Math_max [Num.zero; x]])
       | _ => VNumber (Num.decimal 5 1)
       end) ].

Definition party (role name excerpt : string) : value :=
  VObject [("role", VString role); ("name", VString name);
           ("excerpt", VString excerpt)].

Definition important_date (type date excerpt : string) : value :=
  VObject [("type", VString type); ("date", VString date);
           ("excerpt", VString excerpt)].

Definition obligation (who action excerpt : string) : value :=
  VObject [("who", VString who); ("action", VString action);
           ("excerpt", VString excerpt)].

Definition risk_flag (score : Z) (reason : string) : value :=
  VObject [("score", VNumber (Num.of_Z score)); ("reason", VString reason)].

(** [getMockSummary]. *)
Definition getMockSummary : obj :=
  [ ("short_summary", VString
       "This is a service agreement between two companies establishing terms for consulting services.");
    ("parties", VArray
       [ party "Service Provider" "Example Consulting LLC"
           "Example Consulting LLC, a Delaware limited liability company";
         party "Client" "Business Corp"
           "Business Corp, a California corporation" ]);
    ("important_dates", VArray
       [ important_date "Effective Date" "2024-01-15"
           "This Agreement is effective as of January 15, 2024";
         important_date "Initial Term End" "2025-01-15"
           "The initial term shall end on January 15, 2025" ]);
    ("obligations", VArray
       [ obligation "Service Provider"
           "Provide monthly consulting services as outlined in Exhibit A"
           "Provider shall deliver consulting services according to the scope in Exhibit A";
         obligation "Client" "Pay invoices within 30 days of receipt"
           "Client agrees to pay all invoices within thirty (30) days" ]);
    ("payment_terms", VString
       "Monthly invoicing with Net 30 payment terms. Late payments subject to 1.5% monthly interest.");
    ("termination_clauses", VString
       "Either party may terminate with 30 days written notice. Immediate termination allowed for material breach.");
    ("governing_law", VString "State of Delaware");
    ("risk_flags", VArray
       [ risk_flag 4
           "Broad indemnification clause may expose client to significant liability";
         risk_flag 2
           "Standard limitation of liability clause limits provider exposure" ]);
    ("suggested_redactions", VArray []);
    ("confidence_score", VNumber (Num.decimal 95 2)) ].

(** [page.blocks.slice(0, 50)]: arrays and strings have [slice]; on
    anything else the call throws a TypeError. *)
Definition slice_0_50 (blocks : value) : result value :=
  match blocks with
  | VArray l => Ok (VArray (firstn 50 l))
  | VString s => Ok (VString (JsString.slice_0 50 s))
  | VUndefined | VNull =>
      Throw (JsError "Cannot read properties of null or undefined: slice")
  | _ => Throw (JsError "page.blocks.slice is not a function")
  end.

(** The callback of [ocrData.ocr.map]. *)
Definition page_input (page : value) : result value :=
  p <- get page "page" ;;
  t <- get page "text" ;;
  b <- get page "blocks" ;;
  bs <- slice_0_50 b ;;
  e <- get page "entities" ;;
  Ok (VObject [("page", p); ("text", t); ("blocks", bs); ("entities", e)]).

Definition default_instructions : string :=
  "Analyze this legal document thoroughly".

(** The object [input] that [POST] prepares for the language model. *)
Definition build_input (ocrData user_instructions : value) : result value :=
  meta <- get ocrData "meta" ;;
  ocr <- get ocrData "ocr" ;;
  match ocr with
  | VArray pages =>
      ps <- mapM page_input pages ;;
      Ok (VObject
            [ ("meta", meta);
              ("ocr", VArray ps);
              ("user_instructions",
                 or_else user_instructions (VString default_instructions)) ])
  | _ => Throw (JsError "ocrData.ocr.map is not a function")
  end.

(** [text.match(/\{[\s\S]*\}/)]: from the first opening brace to the last
    closing brace after it. *)
Fixpoint from_first_open (s : string) : option string :=
  match s with
  | EmptyString => None
  | String c rest =>
      if Ascii.eqb c "{" then Some s else from_first_open rest
  end.

Fixpoint upto_last_close (s : string) : option string :=
  match s with
  | EmptyString => None
  | String c rest =>
      match upto_last_close rest with
      | Some p => Some (String c p)
      | None => if Ascii.eqb c "}" then Some (String c EmptyString) else None
      end
  end.

Definition jsonMatch (text : string) : option string :=
  match from_first_open text with
  | Some s => upto_last_close s
  | None => None
  end.

Section Route.

(** The prompt preamble, a constant of the module whose wording no property
    below depends on. *)
Variable SYSTEM_PROMPT : string.
(** [JSON.stringify(_, null, 2)]. *)
Variable JSON_stringify : value -> string.
(** [JSON.parse] on a text that starts with an opening brace: an object, or
    [None] when it throws a SyntaxError. *)
Variable JSON_parse : string -> option obj.
(** [model.generateContent(prompt)] followed by [response.text()], for the
    client built from the API key. *)
Variable generateContent : string -> string -> result string.

Definition prompt_of (input : value) : string :=
  SYSTEM_PROMPT ++ nl ++ nl ++ "Document Data:" ++ nl
    ++ JSON_stringify input ++ nl ++ nl
    ++ "Analyze this document and respond with ONLY valid JSON matching the specified format.".

(** The inner [try] block: find and parse the JSON object of the answer. *)
Definition parse_summary (text : string) : option obj :=
  match jsonMatch text with
  | Some j => JSON_parse j
  | None => None
  end.

Definition skip_llm (e : env) : bool :=
  match e "SKIP_LLM" with
  | Some s => String.eqb s "true"
  | None => false
  end.

Definition missing_warning : string :=
  "GEMINI_API_KEY not set - using mock response".

(** The body of the outer [try] of [POST]: the events logged, and the
    response returned or the exception thrown. *)
Definition POST_try (e : env) (request_json : result value)
  : list event * result response :=
  match request_json with
  | Throw x => ([], Throw x)
  | Ok body =>
  match get body "ocr_result" with
  | Throw x => ([], Throw x)
  | Ok ocr_result =>
  match get body "user_instructions" with
  | Throw x => ([], Throw x)
  | Ok user_instructions =>
  if negb (truthy ocr_result) then
    ([], Ok (json_with (VObject [("error", VString "No OCR result provided")]) 400))
  else if skip_llm e then
    ([], Ok (json (VObject getMockSummary)))
  else
  match (meta <- get ocr_result "meta" ;;
         if negb (truthy meta) then Ok false
         else ocr <- get ocr_result "ocr" ;; Ok (truthy ocr)) with
  | Throw x => ([], Throw x)
  | Ok false =>
    ([], Ok (json_with (VObject [("error", VString "Invalid OCR result structure")]) 400))
  | Ok true =>
  match e "GEMINI_API_KEY" with
  | None => ([ConsoleWarn missing_warning], Ok (json (VObject getMockSummary)))
  | Some apiKey =>
  if String.eqb apiKey EmptyString then
    ([ConsoleWarn missing_warning], Ok (json (VObject getMockSummary)))
  else
  match build_input ocr_result user_instructions with
  | Throw x => ([], Throw x)
  | Ok input =>
  let prompt := prompt_of input in
  match generateContent apiKey prompt with
  | Throw x => ([GenerateContent apiKey prompt], Throw x)
  | Ok text =>
  match parse_summary text with
  | None =>
    ([GenerateContent apiKey prompt;
      ConsoleErrorText "Failed to parse Gemini response:" text],
     Throw (JsError "Failed to parse summary response"))
  | Some summary =>
    ([GenerateContent apiKey prompt],
     Ok (json (VObject (validateAndNormalizeSummary summary))))
  end end end end end end end end.

(** [POST]: the [catch] turns every exception into a 500 answer. *)
Definition POST (e : env) (request_json : result value)
  : list event * response :=
  match POST_try e request_json with
  | (log, Ok r) => (log, r)
  | (log, Throw x) =>
      ((log ++ [ConsoleErrorExn "Summarization error:" x])%list,
       json_with (VObject [("error", VString "Summarization failed");
                           ("details", VString (details_of x))]) 500)
  end.

End Route.

End Summarize.

(** ** [src/app/api/ocr/route.ts] *)

Module Ocr.

(** *** The OCR response types *)

Module BoundingBox.
Record t : Type :=
  { x : Num.number; y : Num.number; width : Num.number; height : Num.number }.
End BoundingBox.

Inductive BlockType : Type := LINE | WORD | PARAGRAPH.

Module OCRBlock.
Record t : Type :=
  { id : string;
    text : string;
    confidence : Num.number;
    boundingBox : BoundingBox.t;
    blockType : BlockType }.
End OCRBlock.

(** A member that is copied as it is found, so that a missing one and
    [null] must be told apart: JSON drops the first and keeps the second. *)
Inductive maybe_string : Type :=
| Undefined
| Null
| Str (s : string).

(** [v || d]. *)
Definition maybe_or (v : maybe_string) (d : string) : string :=
  match v with
  | Str s => if String.eqb s EmptyString then d else s
  | _ => d
  end.

Module OCREntity.
Record t : Type :=
  { type : string;
    text : string;
    page : nat;
    confidence : Num.number;
    mentionText : maybe_string }.   (* [mentionText: entity.mentionText] *)
End OCREntity.

Module OCRPageResult.
Record t : Type :=
  { page : nat;
    text : string;
    blocks : list OCRBlock.t;
    entities : list OCREntity.t;
    confidence : Num.number }.
End OCRPageResult.

Module Meta.
Record t : Type :=
  { filename : value;        (* [filename || 'document.pdf'], unvalidated *)
    pages : nat;
    provider : string;
    processedAt : string }.
End Meta.

Module OCRResult.
Record t : Type := { meta : Meta.t; ocr : list OCRPageResult.t }.
End OCRResult.

(** *** Small helpers *)

(** A counter inside a template literal. *)
Definition show_nat (n : nat) : string :=
  NilEmpty.string_of_uint (Nat.to_uint n).

(** [v || 0] on an optional number. *)
Definition num_or_zero (v : option Num.number) : Num.number :=
  match v with
  | Some n => if Num.truthy n then n else Num.zero
  | None => Num.zero
  end.

(** [s || d] on an optional string. *)
Definition str_or (v : option string) (d : string) : string :=
  match v with
  | Some s => if String.eqb s EmptyString then d else s
  | None => d
  end.

(** The running state of a page loop.  [confidenceCount] only ever counts
    blocks, so it is kept as a natural number and converted where the mean
    is taken (a counter below 2^53 is an exact double). *)
Record acc : Type :=
  { blocks : list OCRBlock.t;
    pageText : string;
    totalConfidence : Num.number;
    confidenceCount : nat }.

Definition acc0 : acc :=
  {| blocks := []; pageText := EmptyString;
     totalConfidence := Num.zero; confidenceCount := 0 |}.

(** [blocks.push(b); pageText += b.text + '\n'; totalConfidence +=
    confidence; confidenceCount++]. *)
Definition push (a : acc) (b : OCRBlock.t) : acc :=
  {| blocks := (blocks a ++ [b])%list;
     pageText := pageText a ++ OCRBlock.text b ++ nl;
     totalConfidence := Num.add (totalConfidence a) (OCRBlock.confidence b);
     confidenceCount := S (confidenceCount a) |}.

(** [confidenceCount > 0 ? totalConfidence / confidenceCount : 0]. *)
Definition mean_confidence (a : acc) : Num.number :=
  if Nat.ltb 0 (confidenceCount a)
  then Num.div (totalConfidence a) (Num.of_Z (Z.of_nat (confidenceCount a)))
  else Num.zero.

(** *** Google Document AI *)

Module Google.

Record TextSegment : Type :=
  { startIndex : option Z; endIndex : option Z }.

Record TextAnchor : Type :=
  { textSegments : option (list TextSegment) }.

Record NormalizedVertex : Type :=
  { x : option Num.number; y : option Num.number }.

Record BoundingPoly : Type :=
  { normalizedVertices : option (list (option NormalizedVertex)) }.

Record Layout : Type :=
  { textAnchor : option TextAnchor;
    confidence : option Num.number;
    boundingPoly : option BoundingPoly }.

(** A block or a line of a page: both carry only their layout here. *)
Record Block : Type := { layout : option Layout }.

Record Page : Type :=
  { blocks : option (list Block); lines : option (list Block) }.

(** [entity.pageAnchor?.pageRefs?.[0]?.page]. *)
Inductive PageIndex : Type :=
| PageUndefined
| PageNull
| PageNumber (n : Z).

Record PageRef : Type := { page : PageIndex }.

Record PageAnchor : Type := { pageRefs : option (list (option PageRef)) }.

Record Entity : Type :=
  { type : option string;
    mentionText : maybe_string;
    normalizedValue_text : option string;   (* [normalizedValue?.text] *)
    entity_confidence : option Num.number;
    pageAnchor : option PageAnchor }.

Record Document : Type :=
  { text : option string;
    pages : option (list Page);
    entities : option (list Entity) }.

Record Response : Type := { document : option Document }.

Record Request (Buffer : Type) : Type :=
  { name : string;
    content : Buffer;
    mimeType : value;
    client_email : string;
    private_key : string }.

End Google.

(** [extractTextFromLayout]. *)
Definition extractTextFromLayout (layout : option Google.Layout)
    (fullText : string) : string :=
  match layout with
  | Some {| Google.textAnchor :=
              Some {| Google.textSegments := Some segments |} |} =>
      JsString.trim
        (fold_left
           (fun text segment =>
              let startIndex := match Google.startIndex segment with
                                | Some n => n | None => 0%Z end in
              let endIndex := match Google.endIndex segment with
                              | Some n => n | None => 0%Z end in
              text ++ JsString.substring fullText startIndex endIndex)
           segments EmptyString)
  | _ => EmptyString
  end.

Definition zero_box : BoundingBox.t :=
  {| BoundingBox.x := Num.zero; BoundingBox.y := Num.zero;
     BoundingBox.width := Num.zero; BoundingBox.height := Num.zero |}.

(** [vertices[i]?.x] and [vertices[i]?.y]. *)
Definition vertex_x (vs : list (option Google.NormalizedVertex)) (i : nat)
  : option Num.number :=
  match nth_error vs i with
  | Some (Some v) => Google.x v
  | _ => None
  end.

Definition vertex_y (vs : list (option Google.NormalizedVertex)) (i : nat)
  : option Num.number :=
  match nth_error vs i with
  | Some (Some v) => Google.y v
  | _ => None
  end.

(** [extractBoundingBox]. *)
Definition extractBoundingBox (boundingPoly : option Google.BoundingPoly)
  : BoundingBox.t :=
  match boundingPoly with
  | Some {| Google.normalizedVertices := Some vertices |} =>
      if Nat.ltb (List.length vertices) 4 then zero_box
      else
        let x := num_or_zero (vertex_x vertices 0) in
        let y := num_or_zero (vertex_y vertices 0) in
        let width := Num.sub (num_or_zero (vertex_x vertices 1)) x in
        let height := Num.sub (num_or_zero (vertex_y vertices 2)) y in
        {| BoundingBox.x := x; BoundingBox.y := y;
           BoundingBox.width := width; BoundingBox.height := height |}
  | _ => zero_box
  end.

(** One iteration of the loop over [page.blocks] (prefix [block],
    type PARAGRAPH) or [page.lines] (prefix [line], type LINE) of page
    index [i]: an item without layout is skipped. *)
Definition google_push (prefix : string) (bt : BlockType) (i : nat)
    (fullText : string) (a : acc) (block : Google.Block) : acc :=
  match Google.layout block with
  | None => a
  | Some layout =>
      let blockText := extractTextFromLayout (Some layout) fullText in
      let confidence := num_or_zero (Google.confidence layout) in
      push a
        {| OCRBlock.id :=
             prefix ++ "-" ++ show_nat i ++ "-"
               ++ show_nat (List.length (blocks a));
           OCRBlock.text := blockText;
           OCRBlock.confidence := confidence;
           OCRBlock.boundingBox :=
             extractBoundingBox (Google.boundingPoly layout);
           OCRBlock.blockType := bt |}
  end.

(** [entity.pageAnchor?.pageRefs?.[0]?.page]. *)
Definition entityPage (entity : Google.Entity) : Google.PageIndex :=
  match Google.pageAnchor entity with
  | Some {| Google.pageRefs := Some (Some ref :: _) |} => Google.page ref
  | _ => Google.PageUndefined
  end.

(** [entityPage === undefined || Number(entityPage) === i]. *)
Definition on_page (p : Google.PageIndex) (i : nat) : bool :=
  match p with
  | Google.PageUndefined => true
  | Google.PageNull => Z.eqb 0 (Z.of_nat i)
  | Google.PageNumber n => Z.eqb n (Z.of_nat i)
  end.

Definition google_entities (doc : Google.Document) (i : nat)
  : list OCREntity.t :=
  match Google.entities doc with
  | None => []
  | Some es =>
      flat_map
        (fun entity =>
           if on_page (entityPage entity) i then
             [ {| OCREntity.type := str_or (Google.type entity) "UNKNOWN";
                  OCREntity.text :=
                    maybe_or (Google.mentionText entity)
                      (str_or (Google.normalizedValue_text entity) EmptyString);
                  OCREntity.page := i + 1;
                  OCREntity.confidence :=
                    num_or_zero (Google.entity_confidence entity);
                  OCREntity.mentionText := Google.mentionText entity |} ]
           else [])
        es
  end.

(** [document.pages?.[i]]. *)
Definition google_nth_page (doc : Google.Document) (i : nat)
  : option Google.Page :=
  match Google.pages doc with
  | Some ps => nth_error ps i
  | None => None
  end.

(** The state after the two block loops of page [i]. *)
Definition google_collect (doc : Google.Document) (i : nat) : acc :=
  let page := google_nth_page doc i in
  let fullText := str_or (Google.text doc) EmptyString in
  let a1 :=
    match page with
    | Some {| Google.blocks := Some bs |} =>
        fold_left (google_push "block" PARAGRAPH i fullText) bs acc0
    | _ => acc0
    end in
  if Nat.eqb (List.length (blocks a1)) 0 then
    match page with
    | Some {| Google.lines := Some ls |} =>
        fold_left (google_push "line" LINE i fullText) ls a1
    | _ => a1
    end
  else a1.

(** The body of the loop over pages: the Page Result pushed for index [i]. *)
Definition google_page (doc : Google.Document) (i : nat) : OCRPageResult.t :=
  let a := google_collect doc i in
  {| OCRPageResult.page := i + 1;
     OCRPageResult.text := JsString.trim (pageText a);
     OCRPageResult.blocks := blocks a;
     OCRPageResult.entities := google_entities doc i;
     OCRPageResult.confidence := mean_confidence a |}.

(** [document.pages?.length || 1]. *)
Definition google_pageCount (doc : Google.Document) : nat :=
  match Google.pages doc with
  | Some ps => if Nat.eqb (List.length ps) 0 then 1 else List.length ps
  | None => 1
  end.

(** [key.replace(/\\n/g, '\n')]: every backslash followed by [n] becomes a
    line feed. *)
Fixpoint unescape_newlines (s : string) : string :=
  match s with
  | EmptyString => EmptyString
  | String c rest =>
      match rest with
      | String d rest' =>
          if (Ascii.eqb c (ascii_of_nat 92) && Ascii.eqb d "n")%bool
          then String (ascii_of_nat 10) (unescape_newlines rest')
          else String c (unescape_newlines rest)
      | EmptyString => s
      end
  end.

Definition missing_configuration : string :=
  "Missing Google Cloud configuration. Please set GOOGLE_CLOUD_PROJECT_ID, GOOGLE_CLOUD_LOCATION, and GOOGLE_DOCUMENT_AI_PROCESSOR_ID in your environment variables.".

Definition missing_credentials : string :=
  "Missing Google Cloud credentials. Please set GOOGLE_SERVICE_ACCOUNT_EMAIL and GOOGLE_PRIVATE_KEY in your environment variables.".

Definition no_document : string := "No document returned from Document AI".

(** The string behind an optional string known to be truthy. *)
Definition str_or_empty (o : option string) : string :=
  match o with Some s => s | None => EmptyString end.

(** *** AWS Textract *)

Module Aws.

Record Relationship : Type :=
  { Type_ : option string; Ids : option (list string) }.

Record BoundingBox : Type :=
  { Left : option Num.number; Top : option Num.number;
    Width : option Num.number; Height : option Num.number }.

Record Geometry : Type := { BoundingBox_ : option BoundingBox }.

Record Block : Type :=
  { Id : option string;
    BlockType_ : option string;
    Text : option string;
    Confidence : option Num.number;
    Geometry_ : option Geometry;
    EntityTypes : option (list string);
    Relationships : option (list Relationship) }.

Record Response : Type := { Blocks : option (list Block) }.

End Aws.

(** [new Map<string, Block>()]: the latest [set] of a key wins. *)
Definition BlockMap := list (string * Aws.Block).

Fixpoint Map_get (m : BlockMap) (k : string) : option Aws.Block :=
  match m with
  | [] => None
  | (k', b) :: rest => if String.eqb k' k then Some b else Map_get rest k
  end.

Definition Map_set (m : BlockMap) (k : string) (b : Aws.Block) : BlockMap :=
  (k, b) :: m.

Definition opt_is (o : option string) (s : string) : bool :=
  match o with Some t => String.eqb t s | None => false end.

Definition includes (o : option (list string)) (s : string) : bool :=
  match o with Some l => existsb (String.eqb s) l | None => false end.

(** [getTextFromRelationships]. *)
Definition getTextFromRelationships (block : Aws.Block) (blockMap : BlockMap)
    (relationshipType : string) : string :=
  let relationships :=
    match Aws.Relationships block with Some rs => rs | None => [] end in
  JsString.trim
    (fold_left
       (fun text relationship =>
          match Aws.Ids relationship with
          | Some ids =>
              if opt_is (Aws.Type_ relationship) relationshipType then
                fold_left
                  (fun text id =>
                     match Map_get blockMap id with
                     | Some relatedBlock =>
                         if (opt_is (Aws.BlockType_ relatedBlock) "WORD"
                             && str_truthy (Aws.Text relatedBlock))%bool
                         then text ++ str_or_empty (Aws.Text relatedBlock) ++ " "
                         else text
                     | None => text
                     end)
                  ids text
              else text
          | None => text
          end)
       relationships EmptyString).

(** [getValueBlock]: the first VALUE block reached, if any. *)
Definition getValueBlock (keyBlock : Aws.Block) (blockMap : BlockMap)
  : option Aws.Block :=
  let relationships :=
    match Aws.Relationships keyBlock with Some rs => rs | None => [] end in
  let candidates :=
    flat_map
      (fun relationship =>
         match Aws.Ids relationship with
         | Some ids =>
             if opt_is (Aws.Type_ relationship) "VALUE" then
               flat_map
                 (fun id =>
                    match Map_get blockMap id with
                    | Some valueBlock =>
                        if (opt_is (Aws.BlockType_ valueBlock) "KEY_VALUE_SET"
                            && includes (Aws.EntityTypes valueBlock) "VALUE")%bool
                        then [valueBlock] else []
                    | None => []
                    end)
                 ids
             else []
         | None => []
         end)
      relationships in
  hd_error candidates.

(** [block.Confidence ? block.Confidence / 100 : 0]. *)
Definition percent (c : option Num.number) : Num.number :=
  match c with
  | Some n => if Num.truthy n then Num.div n (Num.of_Z 100) else Num.zero
  | None => Num.zero
  end.

(** [block.Geometry?.BoundingBox?.F || 0]. *)
Definition aws_coord (block : Aws.Block)
    (field : Aws.BoundingBox -> option Num.number) : Num.number :=
  match Aws.Geometry_ block with
  | Some {| Aws.BoundingBox_ := Some bb |} => num_or_zero (field bb)
  | _ => Num.zero
  end.

(** The LINE branch of the loop over [response.Blocks]. *)
Definition aws_push_line (a : acc) (block : Aws.Block) : acc :=
  if (opt_is (Aws.BlockType_ block) "LINE" && str_truthy (Aws.Text block))%bool
  then
    push a
      {| OCRBlock.id :=
           str_or (Aws.Id block)
             ("block-" ++ show_nat (List.length (blocks a)));
         OCRBlock.text := str_or_empty (Aws.Text block);
         OCRBlock.confidence := percent (Aws.Confidence block);
         OCRBlock.boundingBox :=
           {| BoundingBox.x := aws_coord block Aws.Left;
              BoundingBox.y := aws_coord block Aws.Top;
              BoundingBox.width := aws_coord block Aws.Width;
              BoundingBox.height := aws_coord block Aws.Height |};
         OCRBlock.blockType := LINE |}
  else a.

(** The KEY_VALUE_SET branch of the same loop. *)
Definition aws_entity (blockMap : BlockMap) (block : Aws.Block)
  : list OCREntity.t :=
  if (opt_is (Aws.BlockType_ block) "KEY_VALUE_SET"
      && includes (Aws.EntityTypes block) "KEY")%bool
  then
    let keyText := getTextFromRelationships block blockMap "CHILD" in
    let valueText :=
      match getValueBlock block blockMap with
      | Some valueBlock => getTextFromRelationships valueBlock blockMap "CHILD"
      | None => EmptyString
      end in
    if String.eqb keyText EmptyString then []
    else
      [ {| OCREntity.type := "KEY_VALUE";
           OCREntity.text := keyText ++ ": " ++ valueText;
           OCREntity.page := 1;
           OCREntity.confidence := percent (Aws.Confidence block);
           OCREntity.mentionText := Undefined |} ]
  else [].

Definition aws_blockMap (bs : list Aws.Block) : BlockMap :=
  fold_left
    (fun m block =>
       match Aws.Id block with
       | Some i => if String.eqb i EmptyString then m else Map_set m i block
       | None => m
       end)
    bs [].

Definition aws_collect (bs : list Aws.Block) : acc :=
  fold_left aws_push_line bs acc0.

Definition no_blocks : string := "No blocks returned from Textract".

(** *** The two adapters and the route *)

Inductive reply : Type :=
| Result (r : OCRResult.t)
| Failure (error : string) (details : option string).

Record ocr_response : Type := { ocr_status : nat; ocr_body : reply }.

Section Route.

(** The bytes of a document. *)
Variable Buffer : Type.
(** [Buffer.from(document, 'base64')]; [None] when it throws. *)
Variable Buffer_from : value -> option Buffer.
(** [client.processDocument(request)] of Document AI. *)
Variable processDocument : Google.Request Buffer -> result Google.Response.
(** [client.send(new AnalyzeDocumentCommand(...))] of Textract, for the
    client of a region. *)
Variable send : string -> Buffer -> result Aws.Response.
(** [new Date().toISOString()] at the end of processing. *)
Variable now : string.

(** The [request] of [processWithGoogleDocumentAI], with the credentials
    of the client that sends it. *)
Definition google_request (e : env) (documentBuffer : Buffer)
    (mimeType : value) : Google.Request Buffer :=
  {| Google.name :=
       "projects/" ++ str_or_empty (e "GOOGLE_CLOUD_PROJECT_ID")
         ++ "/locations/" ++ str_or_empty (e "GOOGLE_CLOUD_LOCATION")
         ++ "/processors/"
         ++ str_or_empty (e "GOOGLE_DOCUMENT_AI_PROCESSOR_ID");
     Google.content := documentBuffer;
     Google.mimeType := mimeType;
     Google.client_email := str_or_empty (e "GOOGLE_SERVICE_ACCOUNT_EMAIL");
     Google.private_key :=
       unescape_newlines (str_or_empty (e "GOOGLE_PRIVATE_KEY")) |}.

(** [processWithGoogleDocumentAI]. *)
Definition processWithGoogleDocumentAI (e : env) (documentBuffer : Buffer)
    (filename mimeType : value) : result OCRResult.t :=
  let projectId := e "GOOGLE_CLOUD_PROJECT_ID" in
  let location := e "GOOGLE_CLOUD_LOCATION" in
  let processorId := e "GOOGLE_DOCUMENT_AI_PROCESSOR_ID" in
  if (negb (str_truthy projectId) || negb (str_truthy location)
      || negb (str_truthy processorId))%bool
  then Throw (JsError missing_configuration)
  else if (negb (str_truthy (e "GOOGLE_SERVICE_ACCOUNT_EMAIL"))
           || negb (str_truthy (e "GOOGLE_PRIVATE_KEY")))%bool
  then Throw (JsError missing_credentials)
  else
    response <- processDocument (google_request e documentBuffer mimeType) ;;
    match Google.document response with
    | None => Throw (JsError no_document)
    | Some document =>
        let pageCount := google_pageCount document in
        Ok {| OCRResult.meta :=
                {| Meta.filename := filename;
                   Meta.pages := pageCount;
                   Meta.provider := "google-document-ai";
                   Meta.processedAt := now |};
              OCRResult.ocr := map (google_page document) (seq 0 pageCount) |}
    end.

(** [processWithAWSTextract].  The one loop of the source fills [blocks]
    and [entities] side by side; they are collected here by two passes over
    the same list. *)
Definition processWithAWSTextract (e : env) (documentBuffer : Buffer)
    (filename _mimeType : value) : result OCRResult.t :=
  response <- send (str_or (e "AWS_REGION") "us-east-1") documentBuffer ;;
  match Aws.Blocks response with
  | None => Throw (JsError no_blocks)
  | Some bs =>
      let blockMap := aws_blockMap bs in
      let a := aws_collect bs in
      let pageResult :=
        {| OCRPageResult.page := 1;
           OCRPageResult.text := JsString.trim (pageText a);
           OCRPageResult.blocks := blocks a;
           OCRPageResult.entities := flat_map (aws_entity blockMap) bs;
           OCRPageResult.confidence := mean_confidence a |} in
      Ok {| OCRResult.meta :=
              {| Meta.filename := filename;
                 Meta.pages := 1;
                 Meta.provider := "aws-textract";
                 Meta.processedAt := now |};
            OCRResult.ocr := [pageResult] |}
  end.

(** [process.env.OCR_PROVIDER || 'google']. *)
Definition OCR_PROVIDER (e : env) : string := str_or (e "OCR_PROVIDER") "google".

(** The adapter the configuration selects. *)
Definition adapter (e : env) (documentBuffer : Buffer)
    (filename mimeType : value) : result OCRResult.t :=
  if String.eqb (OCR_PROVIDER e) "aws"
  then processWithAWSTextract e documentBuffer filename mimeType
  else processWithGoogleDocumentAI e documentBuffer filename mimeType.

(** The body of the [try] of [POST]. *)
Definition POST_try (e : env) (request_json : result value)
  : result ocr_response :=
  body <- request_json ;;
  document <- get body "document" ;;
  filename <- get body "filename" ;;
  mimeType <- get body "mimeType" ;;
  if negb (truthy document) then
    Ok {| ocr_status := 400; ocr_body := Failure "No document provided" None |}
  else
    match Buffer_from document with
    | None =>
        Ok {| ocr_status := 400;
              ocr_body := Failure "Invalid base64 document" None |}
    | Some documentBuffer =>
        r <- adapter e documentBuffer
               (or_else filename (VString "document.pdf"))
               (or_else mimeType (VString "application/pdf")) ;;
        Ok {| ocr_status := 200; ocr_body := Result r |}
    end.

(** [POST]: an exception becomes the 500 answer [OCR processing failed]. *)
Definition POST (e : env) (request_json : result value)
  : list event * ocr_response :=
  match POST_try e request_json with
  | Ok r => ([], r)
  | Throw x =>
      ([ConsoleErrorExn "OCR processing error:" x],
       {| ocr_status := 500;
          ocr_body := Failure "OCR processing failed" (Some (details_of x)) |})
  end.

End Route.

(** *** An OCR Result as the JSON value the summarize route receives *)

(** [JSON.stringify] writes NaN and the infinities as [null], and both
    zeros as [0]. *)
Definition number_value (x : Num.number) : value :=
  match x with
  | S754_nan | S754_infinity _ => VNull
  | S754_zero _ => VNumber Num.zero
  | _ => VNumber x
  end.

Definition nat_value (n : nat) : value := VNumber (Num.of_Z (Z.of_nat n)).

Definition BlockType_value (bt : BlockType) : value :=
  VString match bt with
          | LINE => "LINE" | WORD => "WORD" | PARAGRAPH => "PARAGRAPH"
          end.

Definition BoundingBox_value (b : BoundingBox.t) : value :=
  VObject [ ("x", number_value (BoundingBox.x b));
            ("y", number_value (BoundingBox.y b));
            ("width", number_value (BoundingBox.width b));
            ("height", number_value (BoundingBox.height b)) ].

Definition OCRBlock_value (b : OCRBlock.t) : value :=
  VObject [ ("id", VString (OCRBlock.id b));
            ("text", VString (OCRBlock.text b));
            ("confidence", number_value (OCRBlock.confidence b));
            ("boundingBox", BoundingBox_value (OCRBlock.boundingBox b));
            ("blockType", BlockType_value (OCRBlock.blockType b)) ].

Definition OCREntity_value (en : OCREntity.t) : value :=
  VObject ([ ("type", VString (OCREntity.type en));
             ("text", VString (OCREntity.text en));
             ("page", nat_value (OCREntity.page en));
             ("confidence", number_value (OCREntity.confidence en)) ]
           ++ match OCREntity.mentionText en with
              | Str s => [("mentionText", VString s)]
              | Null => [("mentionText", VNull)]
              | Undefined => []
              end)%list.

Definition OCRPageResult_value (p : OCRPageResult.t) : value :=
  VObject [ ("page", nat_value (OCRPageResult.page p));
            ("text", VString (OCRPageResult.text p));
            ("blocks", VArray (map OCRBlock_value (OCRPageResult.blocks p)));
            ("entities",
               VArray (map OCREntity_value (OCRPageResult.entities p)));
            ("confidence", number_value (OCRPageResult.confidence p)) ].

Definition OCRResult_value (r : OCRResult.t) : value :=
  VObject [ ("meta",
               VObject [ ("filename", Meta.filename (OCRResult.meta r));
                         ("pages", nat_value (Meta.pages (OCRResult.meta r)));
                         ("provider",
                            VString (Meta.provider (OCRResult.meta r)));
                         ("processedAt",
                            VString (Meta.processedAt (OCRResult.meta r))) ]);
            ("ocr", VArray (map OCRPageResult_value (OCRResult.ocr r))) ].

End Ocr.

(** ** [src/app/page.tsx] *)

Module Client.

Module ProcessingState.
Inductive t : Type := idle | uploading | ocr | summarizing | complete | error.
End ProcessingState.

(** What the handler reads of a [File]. *)
Record File : Type := { name : string; type : string; size : N }.

Record ProcessingResult : Type :=
  { ocrResult : option value; summaryResult : option value }.

(** The state of the [Home] component. *)
Record state : Type :=
  { processingState : ProcessingState.t;
    progress : nat;
    error : option string;
    results : ProcessingResult;
    showReview : bool }.

Definition initial : state :=
  {| processingState := ProcessingState.idle;
     progress := 0;
     error := None;
     results := {| ocrResult := None; summaryResult := None |};
     showReview := false |}.

Definition setProcessingState (st : state) (p : ProcessingState.t) : state :=
  {| processingState := p; progress := progress st; error := error st;
     results := results st; showReview := showReview st |}.

Definition setProgress (st : state) (n : nat) : state :=
  {| processingState := processingState st; progress := n; error := error st;
     results := results st; showReview := showReview st |}.

Definition setError (st : state) (m : option string) : state :=
  {| processingState := processingState st; progress := progress st;
     error := m; results := results st; showReview := showReview st |}.

Definition setResults (st : state) (r : ProcessingResult) : state :=
  {| processingState := processingState st; progress := progress st;
     error := error st; results := r; showReview := showReview st |}.

Definition setShowReview (st : state) (b : bool) : state :=
  {| processingState := processingState st; progress := progress st;
     error := error st; results := results st; showReview := b |}.

(** A response of [fetch]: its status and what [response.json()] gives. *)
Record http : Type := { status : nat; json : result value }.

(** [response.ok]. *)
Definition ok (r : http) : bool :=
  (Nat.leb 200 (status r) && Nat.leb (status r) 299)%bool.

(** What the handler does that can be observed from outside. *)
Inductive event : Type :=
| Fetch (url : string) (body : value)   (* [body] is what is stringified *)
| ConsoleError (label : string) (e : exn).

Definition is_fetch (ev : event) : bool :=
  match ev with Fetch _ _ => true | _ => false end.

Definition validTypes : list string :=
  ["application/pdf"; "image/png"; "image/jpeg"; "image/tiff"].

(** [result.split(',')[1]]: the text between the first comma and the next,
    [undefined] without a comma. *)
Fixpoint after_comma (s : string) : option string :=
  match s with
  | EmptyString => None
  | String c rest => if Ascii.eqb c "," then Some rest else after_comma rest
  end.

Fixpoint before_comma (s : string) : string :=
  match s with
  | EmptyString => EmptyString
  | String c rest =>
      if Ascii.eqb c "," then EmptyString else String c (before_comma rest)
  end.

Definition split_comma_1 (s : string) : value :=
  match after_comma s with
  | Some rest => VString (before_comma rest)
  | None => VUndefined
  end.

Fixpoint join_comma (l : list string) : string :=
  match l with
  | [] => EmptyString
  | [s] => s
  | s :: rest => s ++ "," ++ join_comma rest
  end.

Section Home.

(** [Number.prototype.toString]. *)
Variable Number_toString : Num.number -> string.
(** [FileReader.readAsDataURL]: the data URL, or [None] when the reader
    fires [onerror]. *)
Variable readAsDataURL : File -> option string.
(** [fetch(url, { method: 'POST', body: JSON.stringify(body) })]. *)
Variable fetch : string -> value -> result http.

(** ToString, as [new Error(message)] applies it. *)
Fixpoint ToString (v : value) : string :=
  match v with
  | VUndefined => "undefined"
  | VNull => "null"
  | VBool true => "true"
  | VBool false => "false"
  | VNumber x => Number_toString x
  | VString s => s
  | VArray l =>
      join_comma
        (map (fun x => match x with
                       | VUndefined | VNull => EmptyString
                       | _ => ToString x
                       end) l)
  | VObject _ => "[object Object]"
  end.

(** [fileToBase64]: a reader error rejects with the event, which is not an
    Error. *)
Definition fileToBase64 (file : File) : result value :=
  match readAsDataURL file with
  | Some result => Ok (split_comma_1 result)
  | None => Throw (Thrown (VObject [("type", VString "error")]))
  end.

(** [const errorData = await response.json();
    throw new Error(errorData.error || fallback)]. *)
Definition api_error (response : http) (fallback : string) : exn :=
  match json response with
  | Throw x => x
  | Ok errorData =>
      match get errorData "error" with
      | Throw x => x
      | Ok err => JsError (ToString (or_else err (VString fallback)))
      end
  end.

Definition ocr_request (file : File) (base64 : value) : value :=
  VObject [ ("document", base64);
            ("filename", VString (name file));
            ("mimeType", VString (type file)) ].

Definition summarize_request (ocrResult : value) : value :=
  VObject [ ("ocr_result", ocrResult);
            ("user_instructions",
               VString "Analyze this legal document and make it easy to understand for business owners") ].

(** The [try] block of [handleFileSelect]: the events, the state reached
    and whether it ended by an exception. *)
Definition try_block (st : state) (file : File)
  : list event * state * result unit :=
  match fileToBase64 file with
  | Throw x => ([], st, Throw x)
  | Ok base64 =>
  let st := setProgress st 30 in
  let st := setProcessingState st ProcessingState.ocr in
  let st := setProgress st 40 in
  let log := [Fetch "/api/ocr" (ocr_request file base64)] in
  match fetch "/api/ocr" (ocr_request file base64) with
  | Throw x => (log, st, Throw x)
  | Ok ocrResponse =>
  if negb (ok ocrResponse) then
    (log, st, Throw (api_error ocrResponse "OCR processing failed"))
  else
  match json ocrResponse with
  | Throw x => (log, st, Throw x)
  | Ok ocrResult =>
  let st := setProgress st 70 in
  let st := setProcessingState st ProcessingState.summarizing in
  let log := (log ++ [Fetch "/api/summarize" (summarize_request ocrResult)])%list in
  match fetch "/api/summarize" (summarize_request ocrResult) with
  | Throw x => (log, st, Throw x)
  | Ok summaryResponse =>
  if negb (ok summaryResponse) then
    (log, st, Throw (api_error summaryResponse "AI analysis failed"))
  else
  match json summaryResponse with
  | Throw x => (log, st, Throw x)
  | Ok summaryResult =>
  let st := setProgress st 100 in
  let st := setResults st {| ocrResult := Some ocrResult;
                             summaryResult := Some summaryResult |} in
  let st := setProcessingState st ProcessingState.complete in
  let st := setShowReview st true in
  (log, st, Ok tt)
  end end end end end.

(** [handleFileSelect]. *)
Definition handleFileSelect (st : state) (file : option File)
  : list event * state :=
  match file with
  | None => ([], st)
  | Some file =>
  if negb (existsb (String.eqb (type file)) validTypes) then
    ([], setError st
           (Some "Invalid file type. Please upload a PDF or image file."))
  else if N.ltb (10 * 1024 * 1024) (size file) then
    ([], setError st (Some "File too large. Maximum size is 10MB."))
  else
  let st := setError st None in
  let st := setProcessingState st ProcessingState.uploading in
  let st := setProgress st 10 in
  match try_block st file with
  | (log, st, Ok _) => (log, st)
  | (log, st, Throw err) =>
      let st :=
        setError st
          (Some match err with
                | JsError message => message
                | Thrown _ => "Processing failed"
                end) in
      ((log ++ [ConsoleError "Processing error:" err])%list,
       setProcessingState st ProcessingState.error)
  end
  end.

End Home.

(** [handleReset]. *)
Definition handleReset (st : state) : state :=
  let st := setProcessingState st ProcessingState.idle in
  let st := setProgress st 0 in
  let st := setError st None in
  let st := setResults st {| ocrResult := None; summaryResult := None |} in
  setShowReview st false.

(** [showReview && results.ocrResult && results.summaryResult]: whether
    the review is rendered. *)
Definition shows_review (st : state) : bool :=
  (showReview st
   && match ocrResult (results st) with Some v => truthy v | None => false end
   && match summaryResult (results st) with
      | Some v => truthy v
      | None => false
      end)%bool.

End Client.

(** ** The review component: the name of the exported file *)

Module Review.

(** The rest of a name after a dot is an extension when it is not empty
    and holds neither a dot nor a slash. *)
Fixpoint is_extension_body (s : string) : bool :=
  match s with
  | EmptyString => true
  | String c rest =>
      (negb (Ascii.eqb c "." || Ascii.eqb c "/") && is_extension_body rest)%bool
  end.

Definition is_extension (s : string) : bool :=
  match s with
  | EmptyString => false
  | _ => is_extension_body s
  end.

(** [filename.replace(/\.[^/.]+$/, '')]. *)
Fixpoint strip_extension (s : string) : string :=
  match s with
  | EmptyString => EmptyString
  | String c rest =>
      if (Ascii.eqb c "." && is_extension rest)%bool then EmptyString
      else String c (strip_extension rest)
  end.

(** The [download] attribute set by [handleExport]. *)
Definition export_name (filename : string) : string :=
  strip_extension filename ++ "-analysis.json".

End Review.

(** ** The helper of the summary tests *)

Module SummaryTests.

(** [validateSummary], the function that the tests of the summary
    validation call. *)
Definition validateSummary (summary : obj) : obj :=
  [ ("short_summary",
       or_else (prop summary "short_summary")
         (VString "Unable to generate summary"));
    ("parties",
       if Array_isArray (prop summary "parties")
       then prop summary "parties" else VArray []);
    ("important_dates",
       if Array_isArray (prop summary "important_dates")
       then prop summary "important_dates" else VArray []);
    ("obligations",
       if Array_isArray (prop summary "obligations")
       then prop summary "obligations" else VArray []);
    ("payment_terms", or_else (prop summary "payment_terms") VNull);
    ("termination_clauses",
       or_else (prop summary "termination_clauses") VNull);
    ("governing_law", or_else (prop summary "governing_law") VNull);
    ("risk_flags",
       if Array_isArray (prop summary "risk_flags")
       then prop summary "risk_flags" else VArray []);
    ("suggested_redactions",
       if Array_isArray (prop summary "suggested_redactions")
       then prop summary "suggested_redactions" else VArray []);
    ("confidence_score",
       match prop summary "confidence_score" with
       | VNumber x =>
           VNumber (Num.Math_min [Num.one; Num.Math_max [Num.zero; x]])
       | _ => VNumber (Num.decimal 5 1)
       end) ].

End SummaryTests.

(** ** Specification vocabulary *)

(** [Math.min(1, Math.max(0, x))]. *)
Definition clamp (x : Num.number) : Num.number :=
  Num.Math_min [Num.one; Num.Math_max [Num.zero; x]].

Definition is_nonempty_string (v : value) : bool :=
  match v with
  | VString s => negb (String.eqb s EmptyString)
  | _ => false
  end.

Definition is_string_or_null (v : value) : bool :=
  match v with
  | VNull => true
  | VString s => negb (String.eqb s EmptyString)
  | _ => false
  end.

Definition is_unit_number (v : value) : bool :=
  match v with VNumber x => Num.in_unit x | _ => false end.

Definition array_fields : list string :=
  ["parties"; "important_dates"; "obligations"; "risk_flags";
   "suggested_redactions"].

Definition nullable_fields : list string :=
  ["payment_terms"; "termination_clauses"; "governing_law"].

(** The invariants of a Summary Result. *)
Definition summary_invariant (r : obj) : bool :=
  is_nonempty_string (prop r "short_summary")
  && forallb (fun k => Array_isArray (prop r k)) array_fields
  && forallb (fun k => is_string_or_null (prop r k)) nullable_fields
  && is_unit_number (prop r "confidence_score").

(** A candidate field that is a string, or else falsy (absent, [null],
    [false], [0], [NaN]). *)
Definition string_or_falsy (v : value) : bool :=
  match v with VString _ => true | _ => negb (truthy v) end.

Definition not_nan (v : value) : bool :=
  match v with VNumber x => negb (Num.is_nan x) | _ => true end.

(** Mock mode: the skip flag is set or the credential is absent. *)
Definition mock_mode (e : env) : bool :=
  Summarize.skip_llm e || negb (str_truthy (e "GEMINI_API_KEY")).

(** What the summarize route checks of an OCR result: an object whose
    [meta] and [ocr] are truthy. *)
Definition has_meta_and_ocr (v : value) : bool :=
  match v with
  | VObject o => truthy (prop o "meta") && truthy (prop o "ocr")
  | _ => false
  end.

(** A total property read, for stating results. *)
Definition field (v : value) (k : string) : value :=
  match v with VObject o => prop o k | _ => VUndefined end.

Definition blocks_of (page : value) : list value :=
  match field page "blocks" with VArray bs => bs | _ => [] end.

Definition has_block_array (page : value) : bool :=
  match page with
  | VObject o => Array_isArray (prop o "blocks")
  | _ => false
  end.

(** The page as the request builder sends it. *)
Definition capped_page (page : value) : value :=
  VObject [ ("page", field page "page");
            ("text", field page "text");
            ("blocks", VArray (firstn 50 (blocks_of page)));
            ("entities", field page "entities") ].

(** [payload] occurs in [prompt]. *)
Definition carries (prompt payload : string) : Prop :=
  exists before after, prompt = before ++ payload ++ after.

(** The running sum of the block confidences, in block order. *)
Definition confidence_sum (bs : list Ocr.OCRBlock.t) : Num.number :=
  fold_left Num.add (map Ocr.OCRBlock.confidence bs) Num.zero.

(** The mean as the adapters compute it: one double-precision division of
    the running sum by the number of blocks, and [0] for no blocks. *)
Definition float_mean (bs : list Ocr.OCRBlock.t) : Num.number :=
  match bs with
  | [] => Num.zero
  | _ => Num.div (confidence_sum bs) (Num.of_Z (Z.of_nat (List.length bs)))
  end.

Definition page_confidence_is_mean (p : Ocr.OCRPageResult.t) : Prop :=
  Ocr.OCRPageResult.confidence p = float_mean (Ocr.OCRPageResult.blocks p).

(** The state of a page loop agrees with the blocks it has pushed. *)
Definition coherent (a : Ocr.acc) : Prop :=
  Ocr.totalConfidence a = confidence_sum (Ocr.blocks a)
  /\ Ocr.confidenceCount a = List.length (Ocr.blocks a).

Definition empty_page (p : Ocr.OCRPageResult.t) : Prop :=
  Ocr.OCRPageResult.blocks p = []
  /\ Ocr.OCRPageResult.text p = EmptyString
  /\ Ocr.OCRPageResult.confidence p = Num.zero.

(** A Document AI page without any block or line. *)
Definition google_page_blank (p : Ocr.Google.Page) : bool :=
  match Ocr.Google.blocks p, Ocr.Google.lines p with
  | (None | Some []), (None | Some []) => true
  | _, _ => false
  end.

Definition google_document_blank (d : Ocr.Google.Document) : bool :=
  match Ocr.Google.pages d with
  | Some ps => forallb google_page_blank ps
  | None => true
  end.

(** The five settings the Document AI adapter requires. *)
Definition google_configured (e : env) : bool :=
  str_truthy (e "GOOGLE_CLOUD_PROJECT_ID")
  && str_truthy (e "GOOGLE_CLOUD_LOCATION")
  && str_truthy (e "GOOGLE_DOCUMENT_AI_PROCESSOR_ID")
  && str_truthy (e "GOOGLE_SERVICE_ACCOUNT_EMAIL")
  && str_truthy (e "GOOGLE_PRIVATE_KEY").




(** What the OCR route answers for an outcome of the adapter. *)
Definition ocr_answer (r : result Ocr.OCRResult.t)
  : list event * Ocr.ocr_response :=
  match r with
  | Ok res => ([], {| Ocr.ocr_status := 200; Ocr.ocr_body := Ocr.Result res |})
  | Throw x =>
      ([ConsoleErrorExn "OCR processing error:" x],
       {| Ocr.ocr_status := 500;
          Ocr.ocr_body :=
            Ocr.Failure "OCR processing failed" (Some (details_of x)) |})
  end.

(** Concrete environments and data for the examples. *)
Definition env_of (l : list (string * string)) : env :=
  fun k =>
    match find (fun kv => String.eqb (fst kv) k) l with
    | Some kv => Some (snd kv)
    | None => None
    end.

Definition google_env : env :=
  env_of [ ("GOOGLE_CLOUD_PROJECT_ID", "p"); ("GOOGLE_CLOUD_LOCATION", "us");
           ("GOOGLE_DOCUMENT_AI_PROCESSOR_ID", "x");
           ("GOOGLE_SERVICE_ACCOUNT_EMAIL", "a@b"); ("GOOGLE_PRIVATE_KEY", "k") ].

Definition aws_env : env := env_of [("OCR_PROVIDER", "aws")].

Definition layout_with (c : Num.number) : Ocr.Google.Block :=
  {| Ocr.Google.layout :=
       Some {| Ocr.Google.textAnchor := None;
               Ocr.Google.confidence := Some c;
               Ocr.Google.boundingPoly := None |} |}.

(** A one-page document whose three blocks have confidences 0.9, 0.8, 0.7. *)
Definition three_blocks : Ocr.Google.Document :=
  {| Ocr.Google.text := None;
     Ocr.Google.pages :=
       Some [ {| Ocr.Google.blocks :=
                   Some [ layout_with (Num.decimal 9 1);
                          layout_with (Num.decimal 8 1);
                          layout_with (Num.decimal 7 1) ];
                 Ocr.Google.lines := None |} ];
     Ocr.Google.entities := None |}.

(** A document that is present but has no page at all. *)
Definition blank_document : Ocr.Google.Document :=
  {| Ocr.Google.text := Some EmptyString;
     Ocr.Google.pages := Some [];
     Ocr.Google.entities := None |}.

Definition base64_body : value :=
  VObject [("document", VString "JVBERi0="); ("filename", VString "a.pdf")].

Definition sample_block : Ocr.OCRBlock.t :=
  {| Ocr.OCRBlock.id := "block-0-0";
     Ocr.OCRBlock.text := "Sample text";
     Ocr.OCRBlock.confidence := Num.decimal 95 2;
     Ocr.OCRBlock.boundingBox := Ocr.zero_box;
     Ocr.OCRBlock.blockType := Ocr.LINE |}.

(** An OCR Result of one page with 51 blocks and one entity. *)
Definition sample_result : Ocr.OCRResult.t :=
  {| Ocr.OCRResult.meta :=
       {| Ocr.Meta.filename := VString "test.pdf";
          Ocr.Meta.pages := 1;
          Ocr.Meta.provider := "google-document-ai";
          Ocr.Meta.processedAt := "2024-01-01T00:00:00.000Z" |};
     Ocr.OCRResult.ocr :=
       [ {| Ocr.OCRPageResult.page := 1;
            Ocr.OCRPageResult.text := "Sample text";
            Ocr.OCRPageResult.blocks := repeat sample_block 51;
            Ocr.OCRPageResult.entities :=
              [ {| Ocr.OCREntity.type := "DATE";
                   Ocr.OCREntity.text := "January 1, 2024";
                   Ocr.OCREntity.page := 1;
                   Ocr.OCREntity.confidence := Num.decimal 95 2;
                   Ocr.OCREntity.mentionText := Ocr.Undefined |} ];
            Ocr.OCRPageResult.confidence := Num.decimal 95 2 |} ] |}.

Definition sample_body : value :=
  VObject [("ocr_result", Ocr.OCRResult_value sample_result)].

(** Stand-ins for the run-time services in closed examples. *)
Definition no_stringify : value -> string := fun _ => EmptyString.
(** A serializer that writes only the number of blocks of each page. *)
Definition count_blocks (input : value) : string :=
  match field input "ocr" with
  | VArray pages =>
      String.concat ","
        (map (fun page => Ocr.show_nat (List.length (blocks_of page))) pages)
  | _ => EmptyString
  end.
Definition no_parse : string -> option obj := fun _ => None.
Definition no_backend : string -> string -> result string :=
  fun _ _ => Throw (JsError "backend unavailable").
Definition string_buffer (v : value) : option string :=
  match v with VString s => Some s | _ => None end.
Definition google_answers (d : option Ocr.Google.Document)
  : Ocr.Google.Request string -> result Ocr.Google.Response :=
  fun _ => Ok {| Ocr.Google.document := d |}.
Definition aws_answers (bs : option (list Ocr.Aws.Block))
  : string -> string -> result Ocr.Aws.Response :=
  fun _ _ => Ok {| Ocr.Aws.Blocks := bs |}.
Definition some_time : string := "2024-01-01T00:00:00.000Z".

Definition word (i t : string) : Ocr.Aws.Block :=
  {| Ocr.Aws.Id := Some i; Ocr.Aws.BlockType_ := Some "WORD";
     Ocr.Aws.Text := Some t; Ocr.Aws.Confidence := Some (Num.of_Z 99);
     Ocr.Aws.Geometry_ := None; Ocr.Aws.EntityTypes := None;
     Ocr.Aws.Relationships := None |}.

Definition key_value_set (i kind : string)
    (rels : list Ocr.Aws.Relationship) : Ocr.Aws.Block :=
  {| Ocr.Aws.Id := Some i; Ocr.Aws.BlockType_ := Some "KEY_VALUE_SET";
     Ocr.Aws.Text := None; Ocr.Aws.Confidence := Some (Num.of_Z 90);
     Ocr.Aws.Geometry_ := None; Ocr.Aws.EntityTypes := Some [kind];
     Ocr.Aws.Relationships := Some rels |}.

Definition relationship (t : string) (ids : list string)
  : Ocr.Aws.Relationship :=
  {| Ocr.Aws.Type_ := Some t; Ocr.Aws.Ids := Some ids |}.

(** A Textract form with one line and the pair [Name: Ada]. *)
Definition textract_form : list Ocr.Aws.Block :=
  [ {| Ocr.Aws.Id := Some "l1"; Ocr.Aws.BlockType_ := Some "LINE";
       Ocr.Aws.Text := Some "Name Ada";
       Ocr.Aws.Confidence := Some (Num.of_Z 90);
       Ocr.Aws.Geometry_ := None; Ocr.Aws.EntityTypes := None;
       Ocr.Aws.Relationships := None |};
    word "w1" "Name"; word "w2" "Ada";
    key_value_set "k1" "KEY"
      [relationship "CHILD" ["w1"]; relationship "VALUE" ["v1"]];
    key_value_set "v1" "VALUE" [relationship "CHILD" ["w2"]] ].

(** A Document AI page with no block but one line, [Hello], and an entity
    without page reference. *)
Definition one_line : Ocr.Google.Document :=
  {| Ocr.Google.text := Some "Hello World";
     Ocr.Google.pages :=
       Some [ {| Ocr.Google.blocks := Some [];
                 Ocr.Google.lines :=
                   Some [ {| Ocr.Google.layout :=
                               Some {| Ocr.Google.textAnchor :=
                                         Some {| Ocr.Google.textSegments :=
                                                   Some [ {| Ocr.Google.startIndex := None;
                                                             Ocr.Google.endIndex := Some 5%Z |} ] |};
                                       Ocr.Google.confidence := None;
                                       Ocr.Google.boundingPoly := None |} |} ] |} ];
     Ocr.Google.entities :=
       Some [ {| Ocr.Google.type := None;
                 Ocr.Google.mentionText := Ocr.Str "World";
                 Ocr.Google.normalizedValue_text := None;
                 Ocr.Google.entity_confidence := None;
                 Ocr.Google.pageAnchor := None |} ] |}.


(** ** Further vocabulary *)

(** The ten fields of a Summary Result, in the order the normalizer writes
    them. *)
Definition summary_fields : list string :=
  ["short_summary"; "parties"; "important_dates"; "obligations";
   "payment_terms"; "termination_clauses"; "governing_law"; "risk_flags";
   "suggested_redactions"; "confidence_score"].


(** The number of calls to the language model in a log. *)
Definition backend_calls (log : list event) : nat :=
  List.length (filter is_backend_call log).

Definition error_body (message : string) : value :=
  VObject [("error", VString message)].

Definition failure_body (message details : string) : value :=
  VObject [("error", VString message); ("details", VString details)].


(** The outcomes of the [try] block of the summarize route. *)
Inductive summarize_outcome : list event * result response -> Prop :=
| outcome_unreadable x :
    summarize_outcome ([], Throw x)
| outcome_refused message :
    message = "No OCR result provided"
    \/ message = "Invalid OCR result structure" ->
    summarize_outcome ([], Ok (json_with (error_body message) 400))
| outcome_mock log :
    log = [] \/ log = [ConsoleWarn Summarize.missing_warning] ->
    summarize_outcome (log, Ok (json (VObject Summarize.getMockSummary)))
| outcome_backend_failed apiKey prompt x :
    summarize_outcome ([GenerateContent apiKey prompt], Throw x)
| outcome_unparsable apiKey prompt text :
    summarize_outcome
      ([GenerateContent apiKey prompt;
        ConsoleErrorText "Failed to parse Gemini response:" text],
       Throw (JsError "Failed to parse summary response"))
| outcome_summary apiKey prompt C :
    summarize_outcome
      ([GenerateContent apiKey prompt],
       Ok (json (VObject (Summarize.validateAndNormalizeSummary C)))).

(** A block or line of Document AI that carries a layout. *)
Definition has_layout (b : Ocr.Google.Block) : bool :=
  match Ocr.Google.layout b with Some _ => true | None => false end.

(** The items of an optional list that the page loop does not skip. *)
Definition google_items (o : option (list Ocr.Google.Block))
  : list Ocr.Google.Block :=
  filter has_layout (match o with Some l => l | None => [] end).

Definition google_page_blocks (d : Ocr.Google.Document) (i : nat)
  : list Ocr.Google.Block :=
  google_items (match Ocr.google_nth_page d i with
                | Some p => Ocr.Google.blocks p
                | None => None
                end).

Definition google_page_lines (d : Ocr.Google.Document) (i : nat)
  : list Ocr.Google.Block :=
  google_items (match Ocr.google_nth_page d i with
                | Some p => Ocr.Google.lines p
                | None => None
                end).

(** The identifier of the [k]-th block of page index [i]. *)
Definition block_id (prefix : string) (i k : nat) : string :=
  prefix ++ "-" ++ Ocr.show_nat i ++ "-" ++ Ocr.show_nat k.

(** What the Document AI adapter reads of an item. *)
Definition item_text (fullText : string) (b : Ocr.Google.Block) : string :=
  Ocr.extractTextFromLayout (Ocr.Google.layout b) fullText.

Definition item_confidence (b : Ocr.Google.Block) : Num.number :=
  Ocr.num_or_zero
    (match Ocr.Google.layout b with
     | Some l => Ocr.Google.confidence l
     | None => None
     end).

(** The texts of the blocks, each followed by a line feed. *)
Fixpoint lines_of (bs : list Ocr.OCRBlock.t) : string :=
  match bs with
  | [] => EmptyString
  | b :: rest => Ocr.OCRBlock.text b ++ nl ++ lines_of rest
  end.

(** A Textract block that becomes a line of the page. *)
Definition is_text_line (b : Ocr.Aws.Block) : bool :=
  Ocr.opt_is (Ocr.Aws.BlockType_ b) "LINE" && str_truthy (Ocr.Aws.Text b).

(** On how many of [n] pages an entity with page reference [p] lands. *)
Definition entity_page_count (p : Ocr.Google.PageIndex) (n : nat) : nat :=
  match p with
  | Ocr.Google.PageUndefined => n
  | Ocr.Google.PageNull => if Nat.ltb 0 n then 1 else 0
  | Ocr.Google.PageNumber z =>
      if (Z.leb 0 z && Z.ltb z (Z.of_nat n))%bool then 1 else 0
  end.

(** White space at the ends of a sequence of code units. *)
Definition first_is_space (l : list N) : bool :=
  match l with
  | [] => false
  | u :: _ => JsString.is_space u
  end.

Fixpoint last_is_space (l : list N) : bool :=
  match l with
  | [] => false
  | [u] => JsString.is_space u
  | _ :: rest => last_is_space rest
  end.

(** Code units are 16-bit numbers. *)
Definition well_formed (l : list N) : Prop :=
  Forall (fun u => (u < 65536)%N) l.

(** A backslash followed by [n] occurs in [s]. *)
Fixpoint has_escape (s : string) : bool :=
  match s with
  | EmptyString => false
  | String c rest =>
      match rest with
      | String d _ =>
          (Ascii.eqb c (ascii_of_nat 92) && Ascii.eqb d "n")
          || has_escape rest
      | EmptyString => false
      end
  end.

(** The units a Document AI page is built from: its blocks with a layout,
    as paragraphs, or for want of any its lines with a layout. *)
Definition google_units (d : Ocr.Google.Document) (i : nat)
  : list Ocr.Google.Block * Ocr.BlockType * string :=
  match google_page_blocks d i with
  | [] => (google_page_lines d i, Ocr.LINE, "line")
  | bs => (bs, Ocr.PARAGRAPH, "block")
  end.

Definition line_text (b : Ocr.Aws.Block) : string :=
  Ocr.str_or_empty (Ocr.Aws.Text b).

Definition line_confidence (b : Ocr.Aws.Block) : Num.number :=
  Ocr.percent (Ocr.Aws.Confidence b).

(** The text gathered by a page loop is that of the blocks pushed. *)
Definition text_coherent (a : Ocr.acc) : Prop :=
  Ocr.pageText a = lines_of (Ocr.blocks a).

Definition head_is_n (s : string) : bool :=
  match s with
  | String c _ => Ascii.eqb c "n"
  | EmptyString => false
  end.

(** What [JSON.parse(JSON.stringify(v))] gives: properties whose value is
    [undefined] are dropped, [undefined] in an array becomes [null], NaN
    and the infinities become [null]. *)
Fixpoint wire (v : value) : value :=
  match v with
  | VNumber x => Ocr.number_value x
  | VArray l =>
      VArray (map (fun x => match x with
                            | VUndefined => VNull
                            | _ => wire x
                            end) l)
  | VObject o =>
      VObject (flat_map (fun kv => match kv with
                                   | (k, w) =>
                                       match w with
                                       | VUndefined => []
                                       | _ => [(k, wire w)]
                                       end
                                   end) o)
  | _ => v
  end.

(** The JSON body of an answer of the OCR route. *)
Definition reply_value (r : Ocr.reply) : value :=
  match r with
  | Ocr.Result res => Ocr.OCRResult_value res
  | Ocr.Failure message None => error_body message
  | Ocr.Failure message (Some details) => failure_body message details
  end.

(** The two routes as the client reaches them: each [route.ts] serves the
    path of its directory, and a body travels as JSON in both directions. *)
Definition routes_fetch
    (SYSTEM_PROMPT : string) (JSON_stringify : value -> string)
    (JSON_parse : string -> option obj)
    (generateContent : string -> string -> result string)
    (Buffer : Type) (Buffer_from : value -> option Buffer)
    (processDocument : Ocr.Google.Request Buffer -> result Ocr.Google.Response)
    (send : string -> Buffer -> result Ocr.Aws.Response)
    (now : string) (e : env) (url : string) (payload : value)
  : result Client.http :=
  if String.eqb url "/api/ocr" then
    let r := snd (Ocr.POST Buffer_from processDocument send now e
                    (Ok (wire payload))) in
    Ok {| Client.status := Ocr.ocr_status r;
          Client.json := Ok (reply_value (Ocr.ocr_body r)) |}
  else if String.eqb url "/api/summarize" then
    let r := snd (Summarize.POST SYSTEM_PROMPT JSON_stringify JSON_parse
                    generateContent e (Ok (wire payload))) in
    Ok {| Client.status := status r; Client.json := Ok (wire (body r)) |}
  else Throw (JsError "Failed to fetch").

(** The states in which a run of [handleFileSelect] can end. *)
Definition failed_at (st0 st : Client.state) (n : nat) : Prop :=
  Client.processingState st = Client.ProcessingState.error
  /\ Client.progress st = n
  /\ Client.error st <> None
  /\ Client.results st = Client.results st0
  /\ Client.showReview st = Client.showReview st0.

Definition stand_in_toString : Num.number -> string := fun _ => EmptyString.

Definition pdf_file : Client.File :=
  {| Client.name := "contract.pdf"; Client.type := "application/pdf";
     Client.size := 2048 |}.

Definition data_url (_ : Client.File) : option string :=
  Some "data:application/pdf;base64,JVBERi0=".

(** ** Running the embedding *)

Example jsonMatch_outermost :
  Summarize.jsonMatch "Sure: {a: {b}} and } done" = Some "{a: {b}} and }"
  /\ Summarize.jsonMatch "} no object {" = None.
Proof. split; reflexivity. Qed.

Example trim_both_ends :
  JsString.trim (nl ++ "  a b " ++ nl) = "a b".
Proof. reflexivity. Qed.

(** No-break space (160), the byte order mark (65279), the ideographic
    space (12288) and the paragraph separator (8233) are white space; the
    euro sign (8364), whose last byte is that of the no-break space, is
    not. *)
Example trim_beyond_ascii :
  JsString.units
    (JsString.trim
       (JsString.of_units [160; 65279; 84; 8364; 12288; 8233]%N))
  = [84; 8364]%N
  /\ JsString.trim (JsString.of_units [160; 65279]%N) = EmptyString
  /\ JsString.of_units [84; 8364]%N = "T€".
Proof. repeat split; vm_compute; reflexivity. Qed.

Example substring_clamps_and_swaps :
  JsString.substring "hello world" 6 11 = "world"
  /\ JsString.substring "hello" 3 1 = "el"
  /\ JsString.substring "hello" (-2) 99 = "hello".
Proof. repeat split; reflexivity. Qed.

(** Indices count code units: a dash is one, a character outside the
    Basic Multilingual Plane two. *)
Example substring_counts_code_units :
  JsString.substring "—Total" 1 6 = "Total"
  /\ JsString.units "a😀b" = [97; 55357; 56832; 98]%N
  /\ JsString.units (JsString.substring "a😀b" 0 2) = [97; 55357]%N
  /\ JsString.substring "a😀b" 0 2 ++ JsString.substring "a😀b" 2 4 <> "a😀b"
  /\ JsString.trim (JsString.substring "a😀b" 0 2
                    ++ JsString.substring "a😀b" 2 4) = "a😀b".
Proof. repeat split; try (vm_compute; reflexivity). vm_compute. discriminate. Qed.

Example unescape_private_key :
  Ocr.unescape_newlines "a\nb\n" = "a" ++ nl ++ "b" ++ nl.
Proof. reflexivity. Qed.

Example max_of_zeros :
  Num.Math_max [Num.zero; Num.neg_zero] = Num.zero
  /\ Num.Math_max [Num.neg_zero; Num.zero] = Num.zero
  /\ Num.Math_min [Num.zero; Num.neg_zero] = Num.neg_zero.
Proof. repeat split; reflexivity. Qed.

(** The line-level fallback, the identifier of a line and the entity
    attached to the page for want of a page reference. *)
Example google_line_fallback :
  Ocr.google_page one_line 0
  = {| Ocr.OCRPageResult.page := 1;
       Ocr.OCRPageResult.text := "Hello";
       Ocr.OCRPageResult.blocks :=
         [ {| Ocr.OCRBlock.id := "line-0-0";
              Ocr.OCRBlock.text := "Hello";
              Ocr.OCRBlock.confidence := Num.zero;
              Ocr.OCRBlock.boundingBox := Ocr.zero_box;
              Ocr.OCRBlock.blockType := Ocr.LINE |} ];
       Ocr.OCRPageResult.entities :=
         [ {| Ocr.OCREntity.type := "UNKNOWN";
              Ocr.OCREntity.text := "World";
              Ocr.OCREntity.page := 1;
              Ocr.OCREntity.confidence := Num.zero;
              Ocr.OCREntity.mentionText := Ocr.Str "World" |} ];
       Ocr.OCRPageResult.confidence := Num.zero |}.
Proof. vm_compute. reflexivity. Qed.

(** The indices of a text segment count code units, and the text of a
    layout is trimmed of every kind of white space: the dash before
    [Total] is one unit, the no-break space after it is removed. *)
Example layout_text_by_code_units :
  Ocr.extractTextFromLayout
    (Some {| Ocr.Google.textAnchor :=
               Some {| Ocr.Google.textSegments :=
                         Some [ {| Ocr.Google.startIndex := Some 1%Z;
                                   Ocr.Google.endIndex := Some 7%Z |} ] |};
             Ocr.Google.confidence := None;
             Ocr.Google.boundingPoly := None |})
    ("—Total" ++ JsString.of_units [160]%N ++ "due")
  = "Total".
Proof. vm_compute. reflexivity. Qed.

(** A key made of a no-break space alone is empty once trimmed, so no
    entity is pushed for it. *)
Example blank_key_gives_no_entity :
  let form :=
    [ word "w1" (JsString.of_units [160]%N); word "w2" "Ada";
      key_value_set "k1" "KEY"
        [relationship "CHILD" ["w1"]; relationship "VALUE" ["v1"]];
      key_value_set "v1" "VALUE" [relationship "CHILD" ["w2"]] ] in
  flat_map (Ocr.aws_entity (Ocr.aws_blockMap form)) form = [].
Proof. vm_compute. reflexivity. Qed.

(** A [mentionText] that is [null] stays in the JSON of the entity; one
    that is missing leaves no member. *)
Example null_mentionText_is_kept :
  let entity m :=
    {| Ocr.OCREntity.type := "DATE"; Ocr.OCREntity.text := "1 May";
       Ocr.OCREntity.page := 1; Ocr.OCREntity.confidence := Num.zero;
       Ocr.OCREntity.mentionText := m |} in
  get (Ocr.OCREntity_value (entity Ocr.Null)) "mentionText" = Ok VNull
  /\ get (Ocr.OCREntity_value (entity Ocr.Undefined)) "mentionText"
     = Ok VUndefined
  /\ wire (Ocr.OCREntity_value (entity Ocr.Null))
     = Ocr.OCREntity_value (entity Ocr.Null).
Proof. repeat split; vm_compute; reflexivity. Qed.

(** Key and value of a Textract form, resolved through the block map. *)
Example textract_key_value :
  flat_map (Ocr.aws_entity (Ocr.aws_blockMap textract_form)) textract_form
  = [ {| Ocr.OCREntity.type := "KEY_VALUE";
         Ocr.OCREntity.text := "Name: Ada";
         Ocr.OCREntity.page := 1;
         Ocr.OCREntity.confidence := Num.decimal 9 1;
         Ocr.OCREntity.mentionText := Ocr.Undefined |} ]
  /\ map Ocr.OCRBlock.id (Ocr.blocks (Ocr.aws_collect textract_form)) = ["l1"]
  /\ Ocr.mean_confidence (Ocr.aws_collect textract_form) = Num.decimal 9 1.
Proof. repeat split; vm_compute; reflexivity. Qed.

(** A NaN score, which no JSON text denotes, would pass the clamp. *)
Example nan_score_passes :
  prop (Summarize.validateAndNormalizeSummary
          [("confidence_score", VNumber S754_nan)]) "confidence_score"
  = VNumber S754_nan.
Proof. reflexivity. Qed.

(** ** Facts about numbers *)

Unset Implicit Arguments.

Lemma max_zero x :
  Num.Math_max [Num.zero; x] =
  if Num.is_nan x then S754_nan
  else if Num.ltb Num.zero x then x else Num.zero.
Proof.
  unfold Num.Math_max. cbn [fold_left].
  change (Num.max_step Num.neg_infinity Num.zero) with Num.zero.
  unfold Num.max_step, Num.zero.
  destruct x as [s|s| |s m e]; try destruct s; reflexivity.
Qed.

Lemma min_one m :
  Num.Math_min [Num.one; m] =
  if Num.is_nan m then S754_nan
  else if Num.ltb m Num.one then m else Num.one.
Proof.
  unfold Num.Math_min. cbn [fold_left].
  change (Num.min_step Num.pos_infinity Num.one) with Num.one.
  unfold Num.min_step, Num.one.
  destruct m as [s|s| |s m e]; try destruct s; reflexivity.
Qed.

(** The clamp by cases: NaN stays NaN, a positive number below one is kept,
    anything larger becomes one, anything else becomes [+0]. *)
Lemma clamp_cases x :
  clamp x =
  if Num.is_nan x then S754_nan
  else if Num.ltb Num.zero x then (if Num.ltb x Num.one then x else Num.one)
  else Num.zero.
Proof.
  unfold clamp. rewrite min_one, max_zero.
  destruct (Num.is_nan x) eqn:En; [reflexivity|].
  destruct (Num.ltb Num.zero x) eqn:E0; [rewrite En|]; reflexivity.
Qed.

Lemma ltb_leb a b : Num.ltb a b = true -> Num.leb a b = true.
Proof.
  unfold Num.ltb, Num.leb, SFltb, SFleb.
  destruct (SFcompare a b) as [[ | | ]|]; congruence.
Qed.

Lemma in_unit_one : Num.in_unit Num.one = true.
Proof. vm_compute. reflexivity. Qed.

Lemma in_unit_zero : Num.in_unit Num.zero = true.
Proof. vm_compute. reflexivity. Qed.

Lemma clamp_in_unit x : Num.is_nan x = false -> Num.in_unit (clamp x) = true.
Proof.
  intros Hn. rewrite clamp_cases, Hn.
  destruct (Num.ltb Num.zero x) eqn:E0; [|apply in_unit_zero].
  destruct (Num.ltb x Num.one) eqn:E1; [|apply in_unit_one].
  unfold Num.in_unit. rewrite (ltb_leb _ _ E0), (ltb_leb _ _ E1). reflexivity.
Qed.

Lemma clamp_idempotent x : clamp (clamp x) = clamp x.
Proof.
  rewrite (clamp_cases x).
  destruct (Num.is_nan x) eqn:En; [reflexivity|].
  destruct (Num.ltb Num.zero x) eqn:E0; [|vm_compute; reflexivity].
  destruct (Num.ltb x Num.one) eqn:E1; [|vm_compute; reflexivity].
  rewrite clamp_cases, En, E0, E1. reflexivity.
Qed.

(** NaN is the one number the clamp leaves outside the unit interval;
    [JSON.parse] never produces it. *)
Lemma clamp_nan : clamp S754_nan = S754_nan /\ Num.in_unit S754_nan = false.
Proof. split; reflexivity. Qed.

Lemma compare_zero_eq x :
  SFcompare Num.zero x = Some Eq -> Num.is_zero x = true.
Proof.
  unfold SFcompare, Num.zero.
  destruct x as [s|s| |s m e]; try destruct s; (discriminate || reflexivity).
Qed.

Lemma compare_one_eq x : SFcompare x Num.one = Some Eq -> x = Num.one.
Proof.
  unfold Num.one, SFcompare.
  destruct x as [s|s| |s m e].
  - destruct s; discriminate.
  - destruct s; discriminate.
  - discriminate.
  - destruct s; [discriminate|].
    destruct (Z.compare_spec e (-52)) as [He|He|He]; try discriminate.
    intros H.
    assert (H' : Pos.compare_cont Eq m 4503599627370496 = Eq).
    { exact (f_equal (fun o => match o with Some c => c | None => Eq end) H). }
    apply Pos.compare_eq in H'. subst. reflexivity.
Qed.

Lemma compare_antisym x y :
  SFcompare y x = option_map CompOpp (SFcompare x y).
Proof.
  unfold SFcompare.
  destruct x as [sx|sx| |sx mx ex], y as [sy|sy| |sy my ey];
    try reflexivity; try (destruct sx; reflexivity);
    try (destruct sy; reflexivity);
    try (destruct sx, sy; reflexivity).
  destruct sx, sy; try reflexivity; cbn [option_map]; f_equal;
    rewrite (Z.compare_antisym ex ey);
    destruct (Z.compare ex ey); cbn [CompOpp]; try reflexivity;
    rewrite (Pos.compare_cont_antisym mx my Eq); reflexivity.
Qed.

Lemma ltb_asym a b : Num.ltb a b = true -> Num.ltb b a = false.
Proof.
  unfold Num.ltb, SFltb. rewrite (compare_antisym a b).
  destruct (SFcompare a b) as [[ | | ]|]; cbn; congruence.
Qed.

Lemma above_one_positive x :
  Num.ltb Num.one x = true -> Num.ltb Num.zero x = true.
Proof.
  unfold Num.ltb, SFltb, Num.one, Num.zero, SFcompare.
  destruct x as [s|s| |s m e]; try (destruct s; (discriminate || reflexivity)).
  discriminate.
Qed.

Lemma leb_zero_cases x :
  Num.leb Num.zero x = true -> Num.ltb Num.zero x = false ->
  Num.is_zero x = true.
Proof.
  unfold Num.leb, Num.ltb, SFleb, SFltb.
  destruct (SFcompare Num.zero x) as [[ | | ]|] eqn:E; try discriminate.
  intros _ _. apply compare_zero_eq. exact E.
Qed.

Lemma leb_one_cases x :
  Num.leb x Num.one = true -> Num.ltb x Num.one = false -> x = Num.one.
Proof.
  unfold Num.leb, Num.ltb, SFleb, SFltb.
  destruct (SFcompare x Num.one) as [[ | | ]|] eqn:E; try discriminate.
  intros _ _. apply compare_one_eq. exact E.
Qed.

Lemma clamp_spec x : Num.is_nan x = false ->
  Num.in_unit (clamp x) = true
  /\ (Num.ltb x Num.zero = true -> clamp x = Num.zero)
  /\ (Num.ltb Num.one x = true -> clamp x = Num.one)
  /\ (Num.in_unit x = true ->
      clamp x = x \/ (x = Num.neg_zero /\ clamp x = Num.zero)).
Proof.
  intros Hn. split; [apply clamp_in_unit; exact Hn|].
  rewrite clamp_cases, Hn. repeat split.
  - intros H. rewrite (ltb_asym _ _ H). reflexivity.
  - intros H. rewrite (above_one_positive _ H), (ltb_asym _ _ H). reflexivity.
  - unfold Num.in_unit. intros H. apply andb_prop in H. destruct H as [H0 H1].
    destruct (Num.ltb Num.zero x) eqn:E0.
    + destruct (Num.ltb x Num.one) eqn:E1; [left; reflexivity|].
      left. symmetry. apply leb_one_cases; assumption.
    + pose proof (leb_zero_cases _ H0 E0) as Hz.
      destruct x as [s|s| |s m e]; try discriminate.
      destruct s; [right; split; reflexivity | left; reflexivity].
Qed.

(** ** The Summary Response Normalizer *)

Section Normalizer.

Import Summarize.

Lemma prop_N_short_summary C :
  prop (validateAndNormalizeSummary C) "short_summary"
  = or_else (prop C "short_summary") (VString default_summary).
Proof. reflexivity. Qed.

Lemma prop_N_array C k : In k array_fields ->
  prop (validateAndNormalizeSummary C) k = if Array_isArray (prop C k) then prop C k else VArray [].
Proof.
  intros H. repeat (destruct H as [H|H]; [subst k; reflexivity|]). destruct H.
Qed.

Lemma prop_N_nullable C k : In k nullable_fields ->
  prop (validateAndNormalizeSummary C) k = or_else (prop C k) VNull.
Proof.
  intros H. repeat (destruct H as [H|H]; [subst k; reflexivity|]). destruct H.
Qed.

Lemma prop_N_confidence C :
  prop (validateAndNormalizeSummary C) "confidence_score" =
  match prop C "confidence_score" with
  | VNumber x => VNumber (clamp x)
  | _ => VNumber (Num.decimal 5 1)
  end.
Proof. reflexivity. Qed.

Lemma or_else_idem a d : or_else (or_else a d) d = or_else a d.
Proof.
  unfold or_else. destruct (truthy a) eqn:E; [rewrite E; reflexivity|].
  destruct (truthy d); reflexivity.
Qed.

Lemma array_or_empty_idem v :
  (if Array_isArray (if Array_isArray v then v else VArray [])
   then (if Array_isArray v then v else VArray []) else VArray [])
  = (if Array_isArray v then v else VArray []).
Proof. destruct (Array_isArray v) eqn:E; [rewrite E|]; reflexivity. Qed.

Lemma or_null_shape v :
  string_or_falsy v = true -> is_string_or_null (or_else v VNull) = true.
Proof.
  unfold or_else. destruct v as [ | | b | x | s | l | o]; cbn; try reflexivity;
    try discriminate.
  - destruct b; [discriminate|reflexivity].
  - intros H. destruct (Num.truthy x); [discriminate|reflexivity].
  - intros _. destruct (String.eqb s EmptyString) eqn:E; cbn; [reflexivity|].
    rewrite E. reflexivity.
Qed.

Lemma or_default_shape v :
  string_or_falsy v = true ->
  is_nonempty_string (or_else v (VString default_summary)) = true.
Proof.
  unfold or_else. destruct v as [ | | b | x | s | l | o]; cbn; try reflexivity;
    try discriminate.
  - destruct b; [discriminate|reflexivity].
  - intros H. destruct (Num.truthy x); [discriminate|reflexivity].
  - intros _. destruct (String.eqb s EmptyString) eqn:E; cbn; [reflexivity|].
    rewrite E. reflexivity.
Qed.

Lemma or_else_truthy a d : truthy d = true -> truthy (or_else a d) = true.
Proof. unfold or_else. destruct (truthy a) eqn:E; congruence. Qed.

Lemma or_null_not_empty a : or_else a VNull <> VString EmptyString.
Proof.
  unfold or_else. destruct (truthy a) eqn:E; [|discriminate].
  intros ->. discriminate.
Qed.

Lemma array_or_empty_is_array v :
  Array_isArray (if Array_isArray v then v else VArray []) = true.
Proof. destruct (Array_isArray v) eqn:E; [exact E|reflexivity]. Qed.

End Normalizer.

(** C2: the Summary Response Normalizer is idempotent: normalizing the
    result of normalizing any candidate object gives exactly the result of
    normalizing it once. *)
Theorem normalizer_idempotent (C : obj) :
  Summarize.validateAndNormalizeSummary
    (Summarize.validateAndNormalizeSummary C)
  = Summarize.validateAndNormalizeSummary C.
Proof.
  unfold Summarize.validateAndNormalizeSummary at 1.
  rewrite prop_N_short_summary, prop_N_confidence.
  rewrite (prop_N_array C "parties"), (prop_N_array C "important_dates"),
    (prop_N_array C "obligations"), (prop_N_array C "risk_flags"),
    (prop_N_array C "suggested_redactions") by (simpl; tauto).
  rewrite (prop_N_nullable C "payment_terms"),
    (prop_N_nullable C "termination_clauses"),
    (prop_N_nullable C "governing_law") by (simpl; tauto).
  rewrite !or_else_idem, !array_or_empty_idem.
  unfold Summarize.validateAndNormalizeSummary.
  assert (Hhalf : clamp (Num.decimal 5 1) = Num.decimal 5 1)
    by (vm_compute; reflexivity).
  do 9 f_equal. do 2 f_equal.
  destruct (prop C "confidence_score") as [ | | b | x | s | l | o];
    f_equal; try exact Hhalf.
  apply clamp_idempotent.
Qed.

(** C1 as stated fails: a candidate whose [short_summary] is the number 42
    and whose [governing_law] is [true] keeps both values, so the result
    has a [short_summary] that is not a string and a [governing_law] that is
    neither a string nor [null]. *)
Lemma normalizer_keeps_wrong_typed_strings :
  let C := [ ("short_summary", VNumber (Num.of_Z 42));
             ("governing_law", VBool true) ] in
  prop (Summarize.validateAndNormalizeSummary C) "short_summary"
    = VNumber (Num.of_Z 42)
  /\ prop (Summarize.validateAndNormalizeSummary C) "governing_law"
    = VBool true
  /\ summary_invariant (Summarize.validateAndNormalizeSummary C) = false.
Proof. repeat split; vm_compute; reflexivity. Qed.

(** Each string field is judged on the candidate's own value of that
    field: the result has the right shape exactly when that value is a
    string or falsy. *)
Lemma or_null_exact v :
  is_string_or_null (or_else v VNull) = string_or_falsy v.
Proof.
  unfold or_else. destruct v as [ | | b | x | s | l | o]; cbn [truthy];
    try reflexivity.
  - destruct b; reflexivity.
  - unfold string_or_falsy. cbn [truthy].
    destruct (Num.truthy x); reflexivity.
  - cbn [string_or_falsy].
    destruct (String.eqb s EmptyString) eqn:E; cbn; [reflexivity|].
    rewrite E. reflexivity.
Qed.

Lemma or_default_exact v :
  is_nonempty_string (or_else v (VString Summarize.default_summary))
  = string_or_falsy v.
Proof.
  unfold or_else. destruct v as [ | | b | x | s | l | o]; cbn [truthy];
    try reflexivity.
  - destruct b; reflexivity.
  - unfold string_or_falsy. cbn [truthy].
    destruct (Num.truthy x); reflexivity.
  - cbn [string_or_falsy].
    destruct (String.eqb s EmptyString) eqn:E; cbn; [reflexivity|].
    rewrite E. reflexivity.
Qed.

Lemma clamped_score_exact v :
  is_unit_number
    match v with
    | VNumber x => VNumber (clamp x)
    | _ => VNumber (Num.decimal 5 1)
    end
  = not_nan v.
Proof.
  assert (Hhalf : Num.in_unit (Num.decimal 5 1) = true)
    by (vm_compute; reflexivity).
  destruct v as [ | | b | x | s | l | o]; try exact Hhalf.
  cbn [is_unit_number not_nan]. destruct (Num.is_nan x) eqn:Hn.
  - destruct x; try discriminate Hn. reflexivity.
  - apply clamp_in_unit. exact Hn.
Qed.

(** C1, amended: every field of the result depends on the candidate's
    value of that field alone.  The five list fields are always sequences
    (the candidate's own when it is one, the empty one otherwise).  The
    score is always a number, and lies in [[0,1]] unless the candidate's
    is NaN.  A string field keeps a truthy candidate value, whatever its
    type, and takes its default ([null], or the default summary) for a
    falsy one; so it never is the empty string, and it is a non-empty
    string (or [null]) exactly when the candidate's value is a string or
    falsy.  Together: the result satisfies the invariants of a Summary
    Result exactly when each of the four string fields of the candidate is
    a string or falsy and its score is not NaN. *)
Theorem normalizer_invariants (C : obj) :
  let R := Summarize.validateAndNormalizeSummary C in
  (forall k, In k array_fields ->
     Array_isArray (prop R k) = true
     /\ (Array_isArray (prop C k) = true -> prop R k = prop C k)
     /\ (Array_isArray (prop C k) = false -> prop R k = VArray []))
  /\ (typeof_number (prop R "confidence_score") = true
      /\ is_unit_number (prop R "confidence_score")
         = not_nan (prop C "confidence_score"))
  /\ (forall k, In k nullable_fields ->
        prop R k <> VString EmptyString
        /\ (truthy (prop C k) = true -> prop R k = prop C k)
        /\ (truthy (prop C k) = false -> prop R k = VNull)
        /\ is_string_or_null (prop R k) = string_or_falsy (prop C k))
  /\ (truthy (prop R "short_summary") = true
      /\ (truthy (prop C "short_summary") = true ->
          prop R "short_summary" = prop C "short_summary")
      /\ (truthy (prop C "short_summary") = false ->
          prop R "short_summary" = VString Summarize.default_summary)
      /\ is_nonempty_string (prop R "short_summary")
         = string_or_falsy (prop C "short_summary"))
  /\ summary_invariant R
     = forallb (fun k => string_or_falsy (prop C k))
         ("short_summary" :: nullable_fields)
       && not_nan (prop C "confidence_score").
Proof.
  cbv zeta. split; [|split; [|split; [|split]]].
  - intros k Hk. rewrite (prop_N_array C k Hk).
    split; [apply array_or_empty_is_array|].
    split; intros ->; reflexivity.
  - rewrite prop_N_confidence. split; [|apply clamped_score_exact].
    destruct (prop C "confidence_score"); reflexivity.
  - intros k Hk. rewrite (prop_N_nullable C k Hk).
    split; [apply or_null_not_empty|].
    split; [|split]; [| |apply or_null_exact];
      unfold or_else; intros ->; reflexivity.
  - rewrite prop_N_short_summary.
    split; [apply or_else_truthy; reflexivity|].
    split; [|split]; [| |apply or_default_exact];
      unfold or_else; intros ->; reflexivity.
  - unfold summary_invariant, array_fields, nullable_fields.
    cbn [forallb].
    rewrite prop_N_short_summary, prop_N_confidence.
    rewrite (prop_N_array C "parties"), (prop_N_array C "important_dates"),
      (prop_N_array C "obligations"), (prop_N_array C "risk_flags"),
      (prop_N_array C "suggested_redactions") by (simpl; tauto).
    rewrite (prop_N_nullable C "payment_terms"),
      (prop_N_nullable C "termination_clauses"),
      (prop_N_nullable C "governing_law") by (simpl; tauto).
    rewrite !array_or_empty_is_array, or_default_exact, !or_null_exact,
      clamped_score_exact.
    cbn [andb]. rewrite !andb_true_r. reflexivity.
Qed.

(** A wrong type in one string field costs nothing elsewhere: with
    [short_summary: 42], the score 1.5 is still clamped to 1 and the
    payment terms are still kept as a non-empty string. *)
Lemma normalizer_invariants_witness :
  let C := [ ("short_summary", VNumber (Num.of_Z 42));
             ("payment_terms", VString "Net 30");
             ("confidence_score", VNumber (Num.decimal 15 1)) ] in
  let R := Summarize.validateAndNormalizeSummary C in
  is_unit_number (prop R "confidence_score") = true
  /\ prop R "payment_terms" = VString "Net 30"
  /\ is_string_or_null (prop R "payment_terms") = true
  /\ prop R "short_summary" = VNumber (Num.of_Z 42)
  /\ is_nonempty_string (prop R "short_summary") = false
  /\ Array_isArray (prop R "parties") = true.
Proof.
  intros C R.
  destruct (normalizer_invariants C)
    as (Ha & (_ & Hc) & Hn & (_ & Hs & _ & Hss) & _).
  fold R in Ha, Hc, Hn, Hs, Hss.
  destruct (Hn "payment_terms") as (_ & Hp & _ & Hps); [simpl; tauto|].
  destruct (Ha "parties") as (Hparr & _); [simpl; tauto|].
  split; [rewrite Hc; vm_compute; reflexivity|].
  split; [apply Hp; reflexivity|].
  split; [rewrite Hps; reflexivity|].
  split; [apply Hs; vm_compute; reflexivity|].
  split; [rewrite Hss; reflexivity|exact Hparr].
Defined.

(** C3: [confidence_score] is accepted only when it is a number and is then
    clamped into [[0,1]], otherwise it defaults to 0.5; so 1.5 gives 1,
    -0.5 gives 0, 0.75 gives 0.75 and an absent score gives 0.5.  (The
    numbers meant are those a parsed JSON text can hold: every double and
    the infinities, not NaN.) *)
Theorem confidence_score_clamped :
  (forall C, typeof_number (prop C "confidence_score") = false ->
     prop (Summarize.validateAndNormalizeSummary C) "confidence_score"
     = VNumber (Num.decimal 5 1))
  /\ (forall C x, prop C "confidence_score" = VNumber x ->
       Num.is_nan x = false ->
       exists r,
         prop (Summarize.validateAndNormalizeSummary C) "confidence_score"
         = VNumber r
         /\ Num.in_unit r = true
         /\ (Num.ltb x Num.zero = true -> r = Num.zero)
         /\ (Num.ltb Num.one x = true -> r = Num.one)
         /\ (Num.in_unit x = true ->
             r = x \/ (x = Num.neg_zero /\ r = Num.zero)))
  /\ prop (Summarize.validateAndNormalizeSummary
             [("confidence_score", VNumber (Num.decimal 15 1))])
          "confidence_score" = VNumber Num.one
  /\ prop (Summarize.validateAndNormalizeSummary
             [("confidence_score", VNumber (Num.decimal (-5) 1))])
          "confidence_score" = VNumber Num.zero
  /\ prop (Summarize.validateAndNormalizeSummary
             [("confidence_score", VNumber (Num.decimal 75 2))])
          "confidence_score" = VNumber (Num.decimal 75 2)
  /\ prop (Summarize.validateAndNormalizeSummary []) "confidence_score"
     = VNumber (Num.decimal 5 1).
Proof.
  split; [|split; [|repeat split; vm_compute; reflexivity]].
  - intros C H. rewrite prop_N_confidence.
    destruct (prop C "confidence_score"); try reflexivity. discriminate.
  - intros C x Hx Hn. rewrite prop_N_confidence, Hx.
    exists (clamp x). split; [reflexivity|]. apply clamp_spec. exact Hn.
Qed.

Lemma confidence_score_clamped_witness :
  exists r,
    prop (Summarize.validateAndNormalizeSummary
            [("confidence_score", VNumber (Num.decimal 75 2))])
         "confidence_score" = VNumber r
    /\ Num.in_unit r = true.
Proof.
  destruct confidence_score_clamped as (_ & H & _).
  destruct (H [("confidence_score", VNumber (Num.decimal 75 2))]
              (Num.decimal 75 2))
    as (r & Hr & Hu & _).
  - reflexivity.
  - vm_compute. reflexivity.
  - exists r. split; assumption.
Defined.

(** The mock summary is a fixed point of the normalizer and satisfies the
    invariants of a Summary Result. *)
Lemma mock_fixed_point :
  Summarize.validateAndNormalizeSummary Summarize.getMockSummary
  = Summarize.getMockSummary.
Proof. vm_compute. reflexivity. Qed.

Lemma mock_invariant : summary_invariant Summarize.getMockSummary = true.
Proof. vm_compute. reflexivity. Qed.

(** ** The summarize route *)

Lemma get_field body k v :
  get body k = Ok v -> forall k', get body k' = Ok (field body k').
Proof.
  destruct body; try discriminate; intros _ k'; reflexivity.
Qed.

Lemma get_value body k v : get body k = Ok v -> v = field body k.
Proof. destruct body; try discriminate; cbn; congruence. Qed.

Lemma has_meta_and_ocr_object v :
  has_meta_and_ocr v = true ->
  exists o, v = VObject o /\ truthy (prop o "meta") = true
            /\ truthy (prop o "ocr") = true.
Proof.
  destruct v as [ | | b | x | s | l | o]; try discriminate.
  cbn. intros H. apply andb_prop in H. exists o. tauto.
Qed.

(** An OCR Result of the OCR route, read back from JSON, passes the
    structural check of the summarize route. *)
Lemma OCRResult_value_valid r : has_meta_and_ocr (Ocr.OCRResult_value r) = true.
Proof. reflexivity. Qed.

(** The request builder on well-formed pages. *)
Lemma page_input_capped page :
  has_block_array page = true ->
  Summarize.page_input page = Ok (capped_page page).
Proof.
  destruct page as [ | | b | x | s | l | o]; try discriminate.
  unfold Summarize.page_input, capped_page, blocks_of.
  cbn [has_block_array get bind field].
  destruct (prop o "blocks"); try discriminate. reflexivity.
Qed.

Lemma mapM_page_input pages :
  forallb has_block_array pages = true ->
  mapM Summarize.page_input pages = Ok (map capped_page pages).
Proof.
  induction pages as [|page pages IH]; [reflexivity|].
  cbn [forallb]. intros H. apply andb_prop in H. destruct H as [Hp Hps].
  cbn [mapM map]. rewrite (page_input_capped page Hp). cbn [bind].
  rewrite (IH Hps). reflexivity.
Qed.

Lemma build_input_capped ocrData ui pages :
  field ocrData "ocr" = VArray pages ->
  forallb has_block_array pages = true ->
  Summarize.build_input ocrData ui
  = Ok (VObject [ ("meta", field ocrData "meta");
                  ("ocr", VArray (map capped_page pages));
                  ("user_instructions",
                     or_else ui (VString Summarize.default_instructions)) ]).
Proof.
  intros Ho Hp.
  destruct ocrData as [ | | b | x | s | l | o]; try discriminate.
  unfold Summarize.build_input. cbn [get bind field] in *. rewrite Ho.
  rewrite (mapM_page_input pages Hp). reflexivity.
Qed.

Lemma capped_page_spec page :
  blocks_of (capped_page page) = firstn 50 (blocks_of page)
  /\ List.length (blocks_of (capped_page page)) <= 50
  /\ (List.length (blocks_of page) <= 50 ->
      blocks_of (capped_page page) = blocks_of page)
  /\ (50 < List.length (blocks_of page) ->
      List.length (blocks_of (capped_page page)) = 50)
  /\ field (capped_page page) "entities" = field page "entities".
Proof.
  assert (E : blocks_of (capped_page page) = firstn 50 (blocks_of page))
    by reflexivity.
  rewrite E. repeat split.
  - apply firstn_le_length.
  - intros H. apply firstn_all2. exact H.
  - intros H. rewrite length_firstn. lia.
Qed.

(** The pages of an OCR Result are objects with an array of blocks, so the
    request builder never fails on one. *)
Lemma OCRResult_pages_wellformed ps :
  forallb has_block_array (map Ocr.OCRPageResult_value ps) = true.
Proof. induction ps as [|p ps IH]; [reflexivity|exact IH]. Qed.

Lemma blocks_of_page_value p :
  blocks_of (Ocr.OCRPageResult_value p)
  = map Ocr.OCRBlock_value (Ocr.OCRPageResult.blocks p).
Proof. reflexivity. Qed.

Lemma build_input_of_OCRResult r ui :
  Summarize.build_input (Ocr.OCRResult_value r) ui
  = Ok (VObject
          [ ("meta", field (Ocr.OCRResult_value r) "meta");
            ("ocr",
               VArray (map capped_page
                         (map Ocr.OCRPageResult_value (Ocr.OCRResult.ocr r))));
            ("user_instructions",
               or_else ui (VString Summarize.default_instructions)) ]).
Proof.
  apply build_input_capped; [reflexivity|apply OCRResult_pages_wellformed].
Qed.

Lemma append_assoc (a b c : string) : (a ++ b) ++ c = a ++ (b ++ c).
Proof. induction a as [|d a IH]; [reflexivity|]. cbn. rewrite IH. reflexivity. Qed.

Section SummarizeRoute.

Variable SYSTEM_PROMPT : string.
Variable JSON_stringify : value -> string.
Variable JSON_parse : string -> option obj.
Variable generateContent : string -> string -> result string.

Local Notation POST_try :=
  (Summarize.POST_try SYSTEM_PROMPT JSON_stringify JSON_parse generateContent).
Local Notation POST :=
  (Summarize.POST SYSTEM_PROMPT JSON_stringify JSON_parse generateContent).

Lemma POST_of_try e rq log r :
  POST_try e rq = (log, Ok r) -> POST e rq = (log, r).
Proof. unfold Summarize.POST. intros ->. reflexivity. Qed.

(** A missing or falsy [ocr_result] is refused before anything else. *)
Lemma POST_try_no_ocr_result e body v :
  get body "ocr_result" = Ok v -> truthy v = false ->
  POST_try e (Ok body)
  = ([], Ok (json_with
               (VObject [("error", VString "No OCR result provided")]) 400)).
Proof.
  intros Hg Ht. unfold Summarize.POST_try.
  rewrite Hg, (get_field _ _ _ Hg "user_instructions"), Ht. reflexivity.
Qed.

(** The skip flag answers with the mock right after that first check. *)
Lemma POST_try_skip e body v :
  get body "ocr_result" = Ok v -> truthy v = true ->
  Summarize.skip_llm e = true ->
  POST_try e (Ok body) = ([], Ok (json (VObject Summarize.getMockSummary))).
Proof.
  intros Hg Ht Hs. unfold Summarize.POST_try.
  rewrite Hg, (get_field _ _ _ Hg "user_instructions"), Ht, Hs. reflexivity.
Qed.

(** Without the flag and without the credential, a structurally valid OCR
    result is answered with the mock, after one warning. *)
Lemma POST_try_no_key e body v :
  get body "ocr_result" = Ok v -> has_meta_and_ocr v = true ->
  Summarize.skip_llm e = false ->
  str_truthy (e "GEMINI_API_KEY") = false ->
  POST_try e (Ok body)
  = ([ConsoleWarn Summarize.missing_warning],
     Ok (json (VObject Summarize.getMockSummary))).
Proof.
  intros Hg Hv Hs Hk.
  destruct (has_meta_and_ocr_object _ Hv) as (o & -> & Hm & Ho).
  unfold Summarize.POST_try.
  rewrite Hg, (get_field _ _ _ Hg "user_instructions"), Hs.
  cbn [truthy negb get bind]. rewrite Hm, Ho. cbn [negb].
  destruct (e "GEMINI_API_KEY") as [k|]; [|reflexivity].
  cbn in Hk. destruct (String.eqb k EmptyString); [reflexivity|discriminate].
Qed.

(** With the credential, a structurally valid OCR result whose request
    object can be built reaches the language model with that object. *)
Lemma POST_try_calls_backend e body v apiKey input :
  get body "ocr_result" = Ok v -> has_meta_and_ocr v = true ->
  Summarize.skip_llm e = false ->
  e "GEMINI_API_KEY" = Some apiKey -> String.eqb apiKey EmptyString = false ->
  Summarize.build_input v (field body "user_instructions") = Ok input ->
  exists rest,
    fst (POST_try e (Ok body))
    = GenerateContent apiKey
        (Summarize.prompt_of SYSTEM_PROMPT JSON_stringify input) :: rest.
Proof.
  intros Hg Hv Hs Hk Hne Hb.
  destruct (has_meta_and_ocr_object _ Hv) as (o & -> & Hm & Ho).
  unfold Summarize.POST_try.
  rewrite Hg, (get_field _ _ _ Hg "user_instructions"), Hs.
  cbn [truthy negb get bind]. rewrite Hm, Ho. cbn [negb].
  rewrite Hk, Hne, Hb.
  destruct (generateContent apiKey _) as [text|x]; [|eexists; reflexivity].
  destruct (Summarize.parse_summary JSON_parse text); eexists; reflexivity.
Qed.

Lemma mock_mode_cases e :
  mock_mode e = true ->
  Summarize.skip_llm e = true
  \/ (Summarize.skip_llm e = false /\ str_truthy (e "GEMINI_API_KEY") = false).
Proof.
  unfold mock_mode. destruct (Summarize.skip_llm e); [left; reflexivity|].
  cbn. intros H. right. split; [reflexivity|].
  destruct (str_truthy (e "GEMINI_API_KEY")); [discriminate|reflexivity].
Qed.

(** C6: in mock mode (skip flag set or credential absent) summarizing any
    structurally valid OCR Result answers 200 with the fixed mock Summary
    Result, whose confidence_score is 0.95 and whose parties list is not
    empty, and no call to the language model is made; the mock satisfies the
    Summary Result invariants and the normalizer returns it unchanged. *)
Theorem mock_mode_returns_mock e body ocr_result :
  mock_mode e = true ->
  get body "ocr_result" = Ok ocr_result ->
  has_meta_and_ocr ocr_result = true ->
  snd (POST e (Ok body)) = json (VObject Summarize.getMockSummary)
  /\ existsb is_backend_call (fst (POST e (Ok body))) = false
  /\ prop Summarize.getMockSummary "confidence_score"
     = VNumber (Num.decimal 95 2)
  /\ (exists p ps, prop Summarize.getMockSummary "parties" = VArray (p :: ps))
  /\ summary_invariant Summarize.getMockSummary = true
  /\ Summarize.validateAndNormalizeSummary Summarize.getMockSummary
     = Summarize.getMockSummary.
Proof.
  intros Hm Hg Hv.
  assert (Ht : truthy ocr_result = true).
  { destruct (has_meta_and_ocr_object _ Hv) as (o & -> & _). reflexivity. }
  assert (HP : exists log, POST e (Ok body)
                 = (log, json (VObject Summarize.getMockSummary))
               /\ existsb is_backend_call log = false).
  { destruct (mock_mode_cases e Hm) as [Hs|[Hs Hk]].
    - exists []. split; [|reflexivity].
      apply POST_of_try, (POST_try_skip e body ocr_result); assumption.
    - exists [ConsoleWarn Summarize.missing_warning]. split; [|reflexivity].
      apply POST_of_try, (POST_try_no_key e body ocr_result); assumption. }
  destruct HP as (log & -> & Hlog).
  split; [reflexivity|]. split; [exact Hlog|]. split; [reflexivity|].
  split; [eexists; eexists; reflexivity|].
  split; [exact mock_invariant | exact mock_fixed_point].
Qed.

(** C10: with the skip flag set the mock is returned before the structural
    validation: every truthy [ocr_result], even one without [meta] or
    [ocr], is answered 200 with the mock and without any call to the
    language model; only a missing or falsy [ocr_result] is answered 400. *)
Theorem skip_flag_precedes_validation e body ocr_result :
  Summarize.skip_llm e = true ->
  get body "ocr_result" = Ok ocr_result ->
  (truthy ocr_result = true ->
     POST e (Ok body) = ([], json (VObject Summarize.getMockSummary)))
  /\ (truthy ocr_result = false ->
     POST e (Ok body)
     = ([], json_with
              (VObject [("error", VString "No OCR result provided")]) 400)).
Proof.
  intros Hs Hg. split; intros Ht; apply POST_of_try.
  - apply (POST_try_skip e body ocr_result); assumption.
  - apply (POST_try_no_ocr_result e body ocr_result); assumption.
Qed.

(** Without the flag, the same request that lacks [meta] is refused. *)
Lemma validation_without_skip_flag e body o :
  Summarize.skip_llm e = false ->
  get body "ocr_result" = Ok (VObject o) ->
  truthy (prop o "meta") = false ->
  POST e (Ok body)
  = ([], json_with
           (VObject [("error", VString "Invalid OCR result structure")]) 400).
Proof.
  intros Hs Hg Hm. apply POST_of_try. unfold Summarize.POST_try.
  rewrite Hg, (get_field _ _ _ Hg "user_instructions"), Hs.
  cbn [truthy negb get bind]. rewrite Hm. reflexivity.
Qed.

Lemma POST_log_head e rq ev rest :
  fst (POST_try e rq) = ev :: rest ->
  exists rest', fst (POST e rq) = ev :: rest'.
Proof.
  unfold Summarize.POST. destruct (POST_try e rq) as [log [r|x]]; cbn.
  - intros ->. eexists; reflexivity.
  - intros ->. eexists; reflexivity.
Qed.

(** C8: the request object built from an OCR Result carries, for every
    page, the first 50 blocks of the page (all of them when the page has at
    most 50) and the page's entities untouched; and what is sent to the
    language model is the system prompt, the heading [Document Data:], the
    serialization of exactly this object and the closing instruction, so
    the serialized object occurs in the prompt. *)
Theorem request_caps_blocks_keeps_entities e body ocrData pages apiKey :
  get body "ocr_result" = Ok ocrData ->
  truthy (field ocrData "meta") = true ->
  field ocrData "ocr" = VArray pages ->
  forallb has_block_array pages = true ->
  let input :=
    VObject [ ("meta", field ocrData "meta");
              ("ocr", VArray (map capped_page pages));
              ("user_instructions",
                 or_else (field body "user_instructions")
                   (VString Summarize.default_instructions)) ] in
  Summarize.build_input ocrData (field body "user_instructions") = Ok input
  /\ (Summarize.skip_llm e = false ->
      e "GEMINI_API_KEY" = Some apiKey ->
      String.eqb apiKey EmptyString = false ->
      exists prompt rest,
        fst (POST e (Ok body)) = GenerateContent apiKey prompt :: rest
        /\ prompt
           = SYSTEM_PROMPT ++ nl ++ nl ++ "Document Data:" ++ nl
               ++ JSON_stringify input ++ nl ++ nl
               ++ "Analyze this document and respond with ONLY valid JSON matching the specified format."
        /\ carries prompt (JSON_stringify input))
  /\ Forall
       (fun page =>
          blocks_of (capped_page page) = firstn 50 (blocks_of page)
          /\ List.length (blocks_of (capped_page page)) <= 50
          /\ (List.length (blocks_of page) <= 50 ->
              blocks_of (capped_page page) = blocks_of page)
          /\ (50 < List.length (blocks_of page) ->
              List.length (blocks_of (capped_page page)) = 50)
          /\ field (capped_page page) "entities" = field page "entities")
       pages.
Proof.
  intros Hg Hm Ho Hp input.
  assert (Hb : Summarize.build_input ocrData (field body "user_instructions")
               = Ok input).
  { apply build_input_capped; assumption. }
  split; [exact Hb|]. split.
  - intros Hs Hk Hne.
    assert (Hv : has_meta_and_ocr ocrData = true).
    { destruct ocrData as [ | | b | x | s | l | o]; try discriminate.
      cbn in Hm, Ho |- *. rewrite Hm, Ho. reflexivity. }
    destruct (POST_try_calls_backend e body ocrData apiKey input
                Hg Hv Hs Hk Hne Hb) as (rest & Hrest).
    destruct (POST_log_head e (Ok body) _ rest Hrest) as (rest' & Hlog).
    exists (Summarize.prompt_of SYSTEM_PROMPT JSON_stringify input), rest'.
    split; [exact Hlog|]. split; [reflexivity|].
    exists (SYSTEM_PROMPT ++ nl ++ nl ++ "Document Data:" ++ nl).
    exists (nl ++ nl ++ "Analyze this document and respond with ONLY valid JSON matching the specified format.").
    unfold Summarize.prompt_of. rewrite !append_assoc. reflexivity.
  - apply Forall_forall. intros page _. apply capped_page_spec.
Qed.

End SummarizeRoute.

Lemma mock_mode_returns_mock_witness :
  mock_mode (env_of []) = true
  /\ has_meta_and_ocr (Ocr.OCRResult_value sample_result) = true
  /\ snd (Summarize.POST EmptyString no_stringify no_parse no_backend
            (env_of []) (Ok sample_body))
     = json (VObject Summarize.getMockSummary).
Proof.
  split; [reflexivity|]. split; [reflexivity|].
  destruct (mock_mode_returns_mock EmptyString no_stringify no_parse no_backend
              (env_of []) sample_body (Ocr.OCRResult_value sample_result))
    as (H & _).
  - reflexivity.
  - reflexivity.
  - reflexivity.
  - exact H.
Defined.

Lemma skip_flag_precedes_validation_witness :
  Summarize.skip_llm (env_of [("SKIP_LLM", "true")]) = true
  /\ Summarize.POST EmptyString no_stringify no_parse no_backend
       (env_of [("SKIP_LLM", "true")])
       (Ok (VObject [("ocr_result", VObject [])]))
     = ([], json (VObject Summarize.getMockSummary)).
Proof.
  split; [reflexivity|].
  destruct (skip_flag_precedes_validation EmptyString no_stringify no_parse
              no_backend (env_of [("SKIP_LLM", "true")])
              (VObject [("ocr_result", VObject [])]) (VObject []))
    as (H & _).
  - reflexivity.
  - reflexivity.
  - apply H. reflexivity.
Defined.

Lemma request_caps_blocks_keeps_entities_witness :
  let pages := map Ocr.OCRPageResult_value (Ocr.OCRResult.ocr sample_result) in
  let e := env_of [("GEMINI_API_KEY", "key")] in
  forallb has_block_array pages = true
  /\ Forall (fun page => 50 < List.length (blocks_of page)) pages
  /\ Forall (fun page => List.length (blocks_of (capped_page page)) = 50
                         /\ field (capped_page page) "entities"
                            = field page "entities") pages
  /\ exists rest,
       fst (Summarize.POST "SYSTEM" count_blocks no_parse no_backend e
              (Ok sample_body))
       = GenerateContent "key"
           ("SYSTEM" ++ nl ++ nl ++ "Document Data:" ++ nl ++ "50" ++ nl ++ nl
              ++ "Analyze this document and respond with ONLY valid JSON matching the specified format.")
           :: rest.
Proof.
  intros pages e. split; [reflexivity|].
  split; [repeat constructor|].
  pose proof (request_caps_blocks_keeps_entities "SYSTEM" count_blocks
                no_parse no_backend e sample_body
                (Ocr.OCRResult_value sample_result) pages "key"
                eq_refl eq_refl eq_refl eq_refl) as H.
  cbv zeta in H. destruct H as (_ & Hsent & H). split.
  - rewrite Forall_forall in H |- *. intros page Hin.
    destruct (H page Hin) as (_ & _ & _ & H50 & He). split; [|exact He].
    apply H50. subst pages. cbn in Hin. destruct Hin as [<-|[]].
    vm_compute. apply le_n.
  - destruct (Hsent eq_refl eq_refl eq_refl) as (prompt & rest & Hlog & -> & _).
    exists rest. rewrite Hlog. reflexivity.
Defined.

(** ** The OCR adapters *)

Lemma confidence_sum_snoc bs b :
  confidence_sum (bs ++ [b])
  = Num.add (confidence_sum bs) (Ocr.OCRBlock.confidence b).
Proof.
  unfold confidence_sum. rewrite map_app, fold_left_app. reflexivity.
Qed.

Lemma coherent_acc0 : coherent Ocr.acc0.
Proof. split; reflexivity. Qed.

Lemma coherent_push a b : coherent a -> coherent (Ocr.push a b).
Proof.
  intros [Ht Hc]. split; cbn [Ocr.push Ocr.totalConfidence Ocr.blocks
                                Ocr.confidenceCount].
  - rewrite confidence_sum_snoc, Ht. reflexivity.
  - rewrite length_app, Hc. cbn. lia.
Qed.

Lemma coherent_fold {A} (step : Ocr.acc -> A -> Ocr.acc) :
  (forall a x, coherent a -> coherent (step a x)) ->
  forall l a, coherent a -> coherent (fold_left step l a).
Proof.
  intros Hstep l. induction l as [|x l IH]; intros a Ha; [exact Ha|].
  cbn [fold_left]. apply IH, Hstep, Ha.
Qed.

Lemma coherent_google_push prefix bt i fullText a block :
  coherent a -> coherent (Ocr.google_push prefix bt i fullText a block).
Proof.
  intros Ha. unfold Ocr.google_push.
  destruct (Ocr.Google.layout block); [apply coherent_push|]; exact Ha.
Qed.

Lemma coherent_google_collect doc i : coherent (Ocr.google_collect doc i).
Proof.
  unfold Ocr.google_collect.
  set (a1 := match Ocr.google_nth_page doc i with
             | Some {| Ocr.Google.blocks := Some bs |} => _
             | _ => Ocr.acc0
             end).
  assert (H1 : coherent a1).
  { subst a1. destruct (Ocr.google_nth_page doc i) as [[[bs|] ls]|];
      try apply coherent_acc0.
    apply coherent_fold; [|apply coherent_acc0].
    intros a x. apply coherent_google_push. }
  destruct (Nat.eqb (List.length (Ocr.blocks a1)) 0); [|exact H1].
  destruct (Ocr.google_nth_page doc i) as [[bs [ls|]]|]; try exact H1.
  apply coherent_fold; [|exact H1].
  intros a x. apply coherent_google_push.
Qed.

Lemma coherent_aws_push a block : coherent a -> coherent (Ocr.aws_push_line a block).
Proof.
  intros Ha. unfold Ocr.aws_push_line.
  destruct (_ && _)%bool; [apply coherent_push|]; exact Ha.
Qed.

Lemma coherent_aws_collect bs : coherent (Ocr.aws_collect bs).
Proof.
  apply coherent_fold; [|apply coherent_acc0].
  intros a x. apply coherent_aws_push.
Qed.

(** On a coherent state the confidence of the page is the mean, in double
    precision, of the confidences of its blocks. *)
Lemma mean_confidence_coherent a :
  coherent a -> Ocr.mean_confidence a = float_mean (Ocr.blocks a).
Proof.
  intros [Ht Hc]. unfold Ocr.mean_confidence, float_mean.
  rewrite Hc, Ht. destruct (Ocr.blocks a); reflexivity.
Qed.

Lemma google_page_mean doc i : page_confidence_is_mean (Ocr.google_page doc i).
Proof.
  unfold page_confidence_is_mean. cbn.
  apply mean_confidence_coherent, coherent_google_collect.
Qed.

Lemma float_mean_nil_zero p :
  page_confidence_is_mean p -> Ocr.OCRPageResult.blocks p = [] ->
  Ocr.OCRPageResult.confidence p = Num.zero.
Proof. unfold page_confidence_is_mean. intros -> ->. reflexivity. Qed.

(** A blank document makes every page loop end where it started. *)
Lemma google_collect_blank d i :
  google_document_blank d = true -> Ocr.google_collect d i = Ocr.acc0.
Proof.
  unfold google_document_blank, Ocr.google_collect, Ocr.google_nth_page.
  destruct (Ocr.Google.pages d) as [ps|]; [|reflexivity].
  intros Hb. destruct (nth_error ps i) as [p|] eqn:Hp; [|reflexivity].
  assert (Hblank : google_page_blank p = true).
  { rewrite forallb_forall in Hb. apply Hb. eapply nth_error_In. exact Hp. }
  destruct p as [[[|b bs]|] [[|l ls]|]]; try discriminate; reflexivity.
Qed.

Lemma google_page_blank_empty d i :
  google_document_blank d = true -> empty_page (Ocr.google_page d i).
Proof.
  intros Hb. unfold empty_page, Ocr.google_page.
  rewrite (google_collect_blank d i Hb). repeat split.
Qed.

Lemma google_pageCount_positive d : 1 <= Ocr.google_pageCount d.
Proof.
  unfold Ocr.google_pageCount. destruct (Ocr.Google.pages d) as [ps|]; [|lia].
  destruct ps; cbn; lia.
Qed.




(** ** The OCR route *)

Section OcrRoute.

Variable Buffer : Type.
Variable Buffer_from : value -> option Buffer.
Variable processDocument
  : Ocr.Google.Request Buffer -> result Ocr.Google.Response.
Variable send : string -> Buffer -> result Ocr.Aws.Response.
Variable now : string.

Local Notation google :=
  (Ocr.processWithGoogleDocumentAI processDocument now).
Local Notation aws := (Ocr.processWithAWSTextract send now).
Local Notation adapter := (Ocr.adapter processDocument send now).
Local Notation POST :=
  (Ocr.POST Buffer_from processDocument send now).

(** Once the document is decoded, the answer of the route is the outcome
    of the adapter: its result, or a 500 carrying its error message. *)
Lemma POST_adapter e body document buf :
  get body "document" = Ok document -> truthy document = true ->
  Buffer_from document = Some buf ->
  POST e (Ok body)
  = ocr_answer (adapter e buf
                  (or_else (field body "filename") (VString "document.pdf"))
                  (or_else (field body "mimeType")
                     (VString "application/pdf"))).
Proof.
  intros Hg Ht Hb. unfold Ocr.POST, Ocr.POST_try. cbn [bind].
  rewrite Hg, (get_field _ _ _ Hg "filename"), (get_field _ _ _ Hg "mimeType").
  cbn [bind]. rewrite Ht, Hb. cbn [negb].
  destruct (adapter e buf _ _); reflexivity.
Qed.

Lemma adapter_google e buf filename mimeType :
  String.eqb (Ocr.OCR_PROVIDER e) "aws" = false ->
  adapter e buf filename mimeType = google e buf filename mimeType.
Proof. unfold Ocr.adapter. intros ->. reflexivity. Qed.

Lemma adapter_aws e buf filename mimeType :
  String.eqb (Ocr.OCR_PROVIDER e) "aws" = true ->
  adapter e buf filename mimeType = aws e buf filename mimeType.
Proof. unfold Ocr.adapter. intros ->. reflexivity. Qed.

Lemma google_when_configured e buf filename mimeType :
  google_configured e = true ->
  google e buf filename mimeType
  = (response <- processDocument (Ocr.google_request e buf mimeType) ;;
     match Ocr.Google.document response with
     | None => Throw (JsError Ocr.no_document)
     | Some document =>
         Ok {| Ocr.OCRResult.meta :=
                 {| Ocr.Meta.filename := filename;
                    Ocr.Meta.pages := Ocr.google_pageCount document;
                    Ocr.Meta.provider := "google-document-ai";
                    Ocr.Meta.processedAt := now |};
               Ocr.OCRResult.ocr :=
                 map (Ocr.google_page document)
                   (seq 0 (Ocr.google_pageCount document)) |}
     end).
Proof.
  unfold google_configured, Ocr.processWithGoogleDocumentAI. intros H.
  repeat (apply andb_prop in H; destruct H as [H ?]).
  repeat match goal with E : str_truthy _ = true |- _ => rewrite E; clear E end.
  reflexivity.
Qed.

Lemma google_when_unconfigured e buf filename mimeType :
  google_configured e = false ->
  exists m,
    (m = Ocr.missing_configuration \/ m = Ocr.missing_credentials)
    /\ google e buf filename mimeType = Throw (JsError m).
Proof.
  unfold google_configured, Ocr.processWithGoogleDocumentAI. intros H.
  destruct (str_truthy (e "GOOGLE_CLOUD_PROJECT_ID"));
    [|eexists; split; [left|]; reflexivity].
  destruct (str_truthy (e "GOOGLE_CLOUD_LOCATION"));
    [|eexists; split; [left|]; reflexivity].
  destruct (str_truthy (e "GOOGLE_DOCUMENT_AI_PROCESSOR_ID"));
    [|eexists; split; [left|]; reflexivity].
  destruct (str_truthy (e "GOOGLE_SERVICE_ACCOUNT_EMAIL"));
    [|eexists; split; [right|]; reflexivity].
  destruct (str_truthy (e "GOOGLE_PRIVATE_KEY"));
    [discriminate|eexists; split; [right|]; reflexivity].
Qed.

Lemma google_pages_mean e buf filename mimeType r :
  google e buf filename mimeType = Ok r ->
  Forall page_confidence_is_mean (Ocr.OCRResult.ocr r).
Proof.
  unfold Ocr.processWithGoogleDocumentAI.
  destruct (_ || _ || _)%bool; [discriminate|].
  destruct (_ || _)%bool; [discriminate|].
  destruct (processDocument _) as [response|x]; [|discriminate]. cbn [bind].
  destruct (Ocr.Google.document response) as [d|]; [|discriminate].
  intros H. injection H as <-. cbn [Ocr.OCRResult.ocr].
  apply Forall_forall. intros p Hp. apply in_map_iff in Hp.
  destruct Hp as (i & <- & _). apply google_page_mean.
Qed.

Lemma aws_pages_mean e buf filename mimeType r :
  aws e buf filename mimeType = Ok r ->
  Forall page_confidence_is_mean (Ocr.OCRResult.ocr r).
Proof.
  unfold Ocr.processWithAWSTextract.
  destruct (send _ _) as [response|x]; [|discriminate]. cbn [bind].
  destruct (Ocr.Aws.Blocks response) as [bs|]; [|discriminate].
  intros H. injection H as <-. cbn [Ocr.OCRResult.ocr].
  constructor; [|constructor].
  unfold page_confidence_is_mean. cbn.
  apply mean_confidence_coherent, coherent_aws_collect.
Qed.

(** C5, amended: on every page that either adapter assembles, the page
    confidence is the running double-precision sum of the confidences of
    the page's blocks, in block order, divided by their number, and it is
    exactly 0 when the page has no block; for the confidences 0.9, 0.8, 0.7
    this mean is the double next above 0.8. *)
Theorem page_confidence_float_mean e buf filename mimeType r :
  adapter e buf filename mimeType = Ok r ->
  Forall
    (fun p =>
       Ocr.OCRPageResult.confidence p
       = float_mean (Ocr.OCRPageResult.blocks p)
       /\ (Ocr.OCRPageResult.blocks p = [] ->
           Ocr.OCRPageResult.confidence p = Num.zero))
    (Ocr.OCRResult.ocr r)
  /\ Ocr.OCRPageResult.confidence (Ocr.google_page three_blocks 0)
     = SFsucc Num.prec Num.emax (Num.decimal 8 1).
Proof.
  intros H. split; [|vm_compute; reflexivity].
  assert (Hm : Forall page_confidence_is_mean (Ocr.OCRResult.ocr r)).
  { unfold Ocr.adapter in H.
    destruct (String.eqb (Ocr.OCR_PROVIDER e) "aws").
    - exact (aws_pages_mean _ _ _ _ _ H).
    - exact (google_pages_mean _ _ _ _ _ H). }
  eapply Forall_impl; [|exact Hm].
  intros p Hp. split; [exact Hp|]. apply float_mean_nil_zero. exact Hp.
Qed.

(** C4, amended: an adapter raises its own error only when the response
    lacks the document (Document AI) or the block list (Textract)
    altogether, and the route then answers 500 [OCR processing failed] with
    that message; when the document or the block list is there, the route
    answers 200 with an OCR Result of at least one page, whose pages are
    empty (no block, empty text, confidence 0) when the response holds no
    block or line at all. *)
Theorem adapters_fail_only_without_document_or_blocks e body document buf :
  get body "document" = Ok document -> truthy document = true ->
  Buffer_from document = Some buf ->
  let filename := or_else (field body "filename") (VString "document.pdf") in
  let mimeType :=
    or_else (field body "mimeType") (VString "application/pdf") in
  (String.eqb (Ocr.OCR_PROVIDER e) "aws" = false ->
   google_configured e = true ->
   forall response,
     processDocument (Ocr.google_request e buf mimeType) = Ok response ->
     match Ocr.Google.document response with
     | None =>
         POST e (Ok body)
         = ([ConsoleErrorExn "OCR processing error:" (JsError Ocr.no_document)],
            {| Ocr.ocr_status := 500;
               Ocr.ocr_body :=
                 Ocr.Failure "OCR processing failed" (Some Ocr.no_document) |})
     | Some d =>
         exists r,
           POST e (Ok body)
           = ([], {| Ocr.ocr_status := 200; Ocr.ocr_body := Ocr.Result r |})
           /\ 1 <= List.length (Ocr.OCRResult.ocr r)
           /\ List.length (Ocr.OCRResult.ocr r) = Ocr.google_pageCount d
           /\ (google_document_blank d = true ->
               Forall empty_page (Ocr.OCRResult.ocr r))
     end)
  /\ (String.eqb (Ocr.OCR_PROVIDER e) "aws" = true ->
      forall response,
        send (Ocr.str_or (e "AWS_REGION") "us-east-1") buf = Ok response ->
        match Ocr.Aws.Blocks response with
        | None =>
            POST e (Ok body)
            = ([ConsoleErrorExn "OCR processing error:" (JsError Ocr.no_blocks)],
               {| Ocr.ocr_status := 500;
                  Ocr.ocr_body :=
                    Ocr.Failure "OCR processing failed" (Some Ocr.no_blocks) |})
        | Some bs =>
            exists r p,
              POST e (Ok body)
              = ([], {| Ocr.ocr_status := 200; Ocr.ocr_body := Ocr.Result r |})
              /\ Ocr.OCRResult.ocr r = [p]
              /\ (bs = [] -> empty_page p)
        end).
Proof.
  intros Hg Ht Hb filename mimeType.
  rewrite (POST_adapter e body document buf Hg Ht Hb).
  fold filename mimeType. split.
  - intros Hp Hc response Hr. rewrite (adapter_google _ _ _ _ Hp).
    rewrite (google_when_configured _ _ _ _ Hc), Hr. cbn [bind].
    destruct (Ocr.Google.document response) as [d|]; [|reflexivity].
    eexists. split; [reflexivity|]. cbn [Ocr.OCRResult.ocr].
    rewrite length_map, length_seq.
    split; [apply google_pageCount_positive|]. split; [reflexivity|].
    intros Hblank. apply Forall_forall. intros p Hin.
    apply in_map_iff in Hin. destruct Hin as (i & <- & _).
    apply google_page_blank_empty. exact Hblank.
  - intros Hp response Hr. rewrite (adapter_aws _ _ _ _ Hp).
    unfold Ocr.processWithAWSTextract. rewrite Hr. cbn [bind].
    destruct (Ocr.Aws.Blocks response) as [bs|]; [|reflexivity].
    eexists. eexists. split; [reflexivity|]. split; [reflexivity|].
    intros ->. repeat split.
Qed.

End OcrRoute.

(** C4 as stated fails for both adapters: a Document AI response whose
    document has no page at all, and a Textract response whose block list
    is empty, are each answered 200 with an OCR Result of one empty page. *)
Lemma blank_responses_succeed :
  google_document_blank blank_document = true
  /\ Ocr.POST string_buffer (google_answers (Some blank_document))
       (aws_answers None) some_time google_env (Ok base64_body)
     = ([], {| Ocr.ocr_status := 200;
               Ocr.ocr_body :=
                 Ocr.Result
                   {| Ocr.OCRResult.meta :=
                        {| Ocr.Meta.filename := VString "a.pdf";
                           Ocr.Meta.pages := 1;
                           Ocr.Meta.provider := "google-document-ai";
                           Ocr.Meta.processedAt := some_time |};
                      Ocr.OCRResult.ocr :=
                        [ {| Ocr.OCRPageResult.page := 1;
                             Ocr.OCRPageResult.text := EmptyString;
                             Ocr.OCRPageResult.blocks := [];
                             Ocr.OCRPageResult.entities := [];
                             Ocr.OCRPageResult.confidence := Num.zero |} ] |} |})
  /\ Ocr.POST string_buffer (google_answers None) (aws_answers (Some []))
       some_time aws_env (Ok base64_body)
     = ([], {| Ocr.ocr_status := 200;
               Ocr.ocr_body :=
                 Ocr.Result
                   {| Ocr.OCRResult.meta :=
                        {| Ocr.Meta.filename := VString "a.pdf";
                           Ocr.Meta.pages := 1;
                           Ocr.Meta.provider := "aws-textract";
                           Ocr.Meta.processedAt := some_time |};
                      Ocr.OCRResult.ocr :=
                        [ {| Ocr.OCRPageResult.page := 1;
                             Ocr.OCRPageResult.text := EmptyString;
                             Ocr.OCRPageResult.blocks := [];
                             Ocr.OCRPageResult.entities := [];
                             Ocr.OCRPageResult.confidence := Num.zero |} ] |} |}).
Proof. repeat split; vm_compute; reflexivity. Qed.

Lemma adapters_fail_only_without_document_or_blocks_witness :
  Ocr.POST string_buffer (google_answers None) (aws_answers None) some_time
    google_env (Ok base64_body)
  = ([ConsoleErrorExn "OCR processing error:" (JsError Ocr.no_document)],
     {| Ocr.ocr_status := 500;
        Ocr.ocr_body :=
          Ocr.Failure "OCR processing failed" (Some Ocr.no_document) |})
  /\ Ocr.POST string_buffer (google_answers None) (aws_answers None) some_time
       aws_env (Ok base64_body)
     = ([ConsoleErrorExn "OCR processing error:" (JsError Ocr.no_blocks)],
        {| Ocr.ocr_status := 500;
           Ocr.ocr_body :=
             Ocr.Failure "OCR processing failed" (Some Ocr.no_blocks) |}).
Proof.
  split.
  - pose proof (adapters_fail_only_without_document_or_blocks
                  string string_buffer (google_answers None) (aws_answers None)
                  some_time google_env base64_body (VString "JVBERi0=")
                  "JVBERi0=" eq_refl eq_refl eq_refl) as H.
    cbv zeta in H. destruct H as [H _].
    exact (H eq_refl eq_refl {| Ocr.Google.document := None |} eq_refl).
  - pose proof (adapters_fail_only_without_document_or_blocks
                  string string_buffer (google_answers None) (aws_answers None)
                  some_time aws_env base64_body (VString "JVBERi0=")
                  "JVBERi0=" eq_refl eq_refl eq_refl) as H.
    cbv zeta in H. destruct H as [_ H].
    exact (H eq_refl {| Ocr.Aws.Blocks := None |} eq_refl).
Defined.

(** C5 as stated fails on its own example: for three blocks of confidence
    0.9, 0.8 and 0.7 the page confidence computed by the adapter is not
    the double 0.8 but the next one above it (0.8000000000000002). *)
Lemma mean_of_example_is_not_0_8 :
  map Ocr.OCRBlock.confidence
    (Ocr.OCRPageResult.blocks (Ocr.google_page three_blocks 0))
  = [Num.decimal 9 1; Num.decimal 8 1; Num.decimal 7 1]
  /\ Ocr.OCRPageResult.confidence (Ocr.google_page three_blocks 0)
     = S754_finite false 7205759403792795 (-53)
  /\ Num.decimal 8 1 = S754_finite false 7205759403792794 (-53)
  /\ Num.eqb (Ocr.OCRPageResult.confidence (Ocr.google_page three_blocks 0))
       (Num.decimal 8 1) = false
  /\ Ocr.OCRPageResult.confidence (Ocr.google_page three_blocks 0)
     <> Num.decimal 8 1.
Proof.
  repeat split; try (vm_compute; reflexivity).
  intros H.
  assert (E : Num.eqb (Ocr.OCRPageResult.confidence
                         (Ocr.google_page three_blocks 0))
                (Num.decimal 8 1) = false) by (vm_compute; reflexivity).
  rewrite H in E. vm_compute in E. discriminate E.
Qed.

Lemma page_confidence_float_mean_witness :
  Forall
    (fun p =>
       Ocr.OCRPageResult.confidence p
       = float_mean (Ocr.OCRPageResult.blocks p)
       /\ (Ocr.OCRPageResult.blocks p = [] ->
           Ocr.OCRPageResult.confidence p = Num.zero))
    (map (Ocr.google_page three_blocks) (seq 0 1)).
Proof.
  destruct (page_confidence_float_mean string
              (google_answers (Some three_blocks))
              (aws_answers None) some_time google_env "JVBERi0="
              (VString "a.pdf") (VString "application/pdf")
              {| Ocr.OCRResult.meta :=
                   {| Ocr.Meta.filename := VString "a.pdf";
                      Ocr.Meta.pages := 1;
                      Ocr.Meta.provider := "google-document-ai";
                      Ocr.Meta.processedAt := some_time |};
                 Ocr.OCRResult.ocr :=
                   map (Ocr.google_page three_blocks) (seq 0 1) |})
    as [H _].
  - reflexivity.
  - exact H.
Defined.

(** ** The two routes side by side *)

Section Routes.

Variable SYSTEM_PROMPT : string.
Variable JSON_stringify : value -> string.
Variable JSON_parse : string -> option obj.
Variable generateContent : string -> string -> result string.
Variable Buffer : Type.
Variable Buffer_from : value -> option Buffer.
Variable processDocument
  : Ocr.Google.Request Buffer -> result Ocr.Google.Response.
Variable send : string -> Buffer -> result Ocr.Aws.Response.
Variable now : string.

(** C9: without the summarization credential the summarize route does not
    fail on a structurally valid OCR Result: it answers 200 with the mock
    Summary Result, calls no backend, and (unless the skip flag already
    chose the mock) logs one warning; the OCR route with the Document AI
    adapter instead answers 500 when any of its settings is missing, with
    the message of the configuration error. *)
Theorem missing_credential_asymmetry :
  (forall e body ocr_result,
     str_truthy (e "GEMINI_API_KEY") = false ->
     get body "ocr_result" = Ok ocr_result ->
     has_meta_and_ocr ocr_result = true ->
     let answer :=
       Summarize.POST SYSTEM_PROMPT JSON_stringify JSON_parse generateContent
         e (Ok body) in
     snd answer = json (VObject Summarize.getMockSummary)
     /\ status (snd answer) = 200
     /\ existsb is_backend_call (fst answer) = false
     /\ (Summarize.skip_llm e = false ->
         fst answer = [ConsoleWarn Summarize.missing_warning]))
  /\ (forall e body document buf,
        String.eqb (Ocr.OCR_PROVIDER e) "aws" = false ->
        google_configured e = false ->
        get body "document" = Ok document -> truthy document = true ->
        Buffer_from document = Some buf ->
        exists m,
          (m = Ocr.missing_configuration \/ m = Ocr.missing_credentials)
          /\ Ocr.POST Buffer_from processDocument send now e (Ok body)
             = ([ConsoleErrorExn "OCR processing error:" (JsError m)],
                {| Ocr.ocr_status := 500;
                   Ocr.ocr_body :=
                     Ocr.Failure "OCR processing failed" (Some m) |})).
Proof.
  split.
  - intros e body ocr_result Hk Hg Hv answer.
    assert (Ht : truthy ocr_result = true).
    { destruct (has_meta_and_ocr_object _ Hv) as (o & -> & _). reflexivity. }
    destruct (Summarize.skip_llm e) eqn:Hs.
    + assert (Ha : answer = ([], json (VObject Summarize.getMockSummary))).
      { apply POST_of_try, (POST_try_skip _ _ _ _ e body ocr_result);
          assumption. }
      rewrite Ha. repeat split. discriminate.
    + assert (Ha : answer = ([ConsoleWarn Summarize.missing_warning],
                             json (VObject Summarize.getMockSummary))).
      { apply POST_of_try, (POST_try_no_key _ _ _ _ e body ocr_result);
          assumption. }
      rewrite Ha. repeat split.
  - intros e body document buf Hp Hc Hg Ht Hb.
    rewrite (POST_adapter Buffer Buffer_from processDocument send now
               e body document buf Hg Ht Hb).
    rewrite (adapter_google _ _ _ _ _ _ _ _ Hp).
    destruct (google_when_unconfigured Buffer processDocument now e buf
                (or_else (field body "filename") (VString "document.pdf"))
                (or_else (field body "mimeType") (VString "application/pdf"))
                Hc) as (m & Hm & ->).
    exists m. split; [exact Hm|reflexivity].
Qed.

End Routes.

Lemma missing_credential_asymmetry_witness :
  snd (Summarize.POST EmptyString no_stringify no_parse no_backend
         (env_of []) (Ok sample_body))
  = json (VObject Summarize.getMockSummary)
  /\ fst (Summarize.POST EmptyString no_stringify no_parse no_backend
            (env_of []) (Ok sample_body))
     = [ConsoleWarn Summarize.missing_warning]
  /\ Ocr.POST string_buffer (google_answers (Some three_blocks))
       (aws_answers None) some_time (env_of []) (Ok base64_body)
     = ([ConsoleErrorExn "OCR processing error:"
           (JsError Ocr.missing_configuration)],
        {| Ocr.ocr_status := 500;
           Ocr.ocr_body :=
             Ocr.Failure "OCR processing failed"
               (Some Ocr.missing_configuration) |}).
Proof.
  destruct (missing_credential_asymmetry EmptyString no_stringify no_parse
              no_backend string string_buffer
              (google_answers (Some three_blocks))
              (aws_answers None) some_time) as [Hs Ho].
  pose proof (Hs (env_of []) sample_body (Ocr.OCRResult_value sample_result)
                eq_refl eq_refl eq_refl) as H1.
  cbv zeta in H1. destruct H1 as (Hr & _ & _ & Hw).
  split; [exact Hr|]. split; [exact (Hw eq_refl)|].
  destruct (Ho (env_of []) base64_body (VString "JVBERi0=") "JVBERi0="
              eq_refl eq_refl eq_refl eq_refl eq_refl) as (m & _ & Hm).
  rewrite Hm.
  assert (Em : m = Ocr.missing_configuration).
  { vm_compute in Hm. injection Hm. intros. subst m. reflexivity. }
  rewrite Em. reflexivity.
Defined.

(** * Further properties of the code *)

(** ** The normalizer, field by field *)

(** The result of the normalizer has exactly the ten fields of a Summary
    Result, in a fixed order; every other key of the candidate is dropped,
    among them [key_highlights] and [detailed_summary], which the review
    component reads. *)
Theorem normalizer_keeps_ten_fields (C : obj) :
  map fst (Summarize.validateAndNormalizeSummary C) = summary_fields
  /\ (forall k, ~ In k summary_fields ->
      prop (Summarize.validateAndNormalizeSummary C) k = VUndefined)
  /\ prop (Summarize.validateAndNormalizeSummary C) "key_highlights"
     = VUndefined
  /\ prop (Summarize.validateAndNormalizeSummary C) "detailed_summary"
     = VUndefined.
Proof.
  split; [reflexivity|]. split; [|split; reflexivity].
  intros k Hk. unfold Summarize.validateAndNormalizeSummary. cbn [prop].
  repeat match goal with
  | |- context [String.eqb ?a k] =>
      destruct (String.eqb_spec a k) as [E|_];
      [exfalso; apply Hk; rewrite <- E; unfold summary_fields; simpl; tauto|]
  end.
  reflexivity.
Qed.

Lemma in_unit_not_nan x : Num.in_unit x = true -> Num.is_nan x = false.
Proof. destruct x; try reflexivity. discriminate. Qed.

Lemma or_else_kept v d : truthy v = true -> or_else v d = v.
Proof. unfold or_else. intros ->. reflexivity. Qed.

Lemma nonempty_string_truthy v : is_nonempty_string v = true -> truthy v = true.
Proof. destruct v; try discriminate. intros H. exact H. Qed.

Lemma string_or_null_kept v :
  is_string_or_null v = true -> or_else v VNull = v.
Proof.
  destruct v; try discriminate; [reflexivity|].
  intros H. apply or_else_kept. exact H.
Qed.

(** A candidate that already satisfies the invariants of a Summary Result
    keeps the value of each of the ten fields (the score [-0] apart, which
    the clamp turns into [+0]). *)
Theorem normalizer_preserves_valid (C : obj) (k : string) :
  summary_invariant C = true ->
  prop C "confidence_score" <> VNumber Num.neg_zero ->
  In k summary_fields ->
  prop (Summarize.validateAndNormalizeSummary C) k = prop C k.
Proof.
  unfold summary_invariant, array_fields, nullable_fields. cbn [forallb].
  intros H Hz Hk.
  repeat (apply andb_prop in H; destruct H as [H ?]).
  repeat match goal with
  | E : (_ && true)%bool = true |- _ => rewrite andb_true_r in E
  | E : (_ && _)%bool = true |- _ => apply andb_prop in E; destruct E
  end.
  unfold summary_fields in Hk. cbn [In] in Hk.
  repeat (destruct Hk as [<-|Hk]); try contradiction.
  - rewrite prop_N_short_summary. apply or_else_kept, nonempty_string_truthy.
    assumption.
  - rewrite (prop_N_array C "parties") by (simpl; tauto).
    match goal with E : Array_isArray (prop C "parties") = true |- _ =>
      rewrite E end. reflexivity.
  - rewrite (prop_N_array C "important_dates") by (simpl; tauto).
    match goal with E : Array_isArray (prop C "important_dates") = true |- _ =>
      rewrite E end. reflexivity.
  - rewrite (prop_N_array C "obligations") by (simpl; tauto).
    match goal with E : Array_isArray (prop C "obligations") = true |- _ =>
      rewrite E end. reflexivity.
  - rewrite (prop_N_nullable C "payment_terms") by (simpl; tauto).
    apply string_or_null_kept. assumption.
  - rewrite (prop_N_nullable C "termination_clauses") by (simpl; tauto).
    apply string_or_null_kept. assumption.
  - rewrite (prop_N_nullable C "governing_law") by (simpl; tauto).
    apply string_or_null_kept. assumption.
  - rewrite (prop_N_array C "risk_flags") by (simpl; tauto).
    match goal with E : Array_isArray (prop C "risk_flags") = true |- _ =>
      rewrite E end. reflexivity.
  - rewrite (prop_N_array C "suggested_redactions") by (simpl; tauto).
    match goal with
      E : Array_isArray (prop C "suggested_redactions") = true |- _ =>
      rewrite E end. reflexivity.
  - rewrite prop_N_confidence.
    destruct (prop C "confidence_score") as [ | | b | x | s | l | o];
      try discriminate.
    match goal with E : is_unit_number (VNumber x) = true |- _ =>
      cbn [is_unit_number] in E;
      destruct (clamp_spec x (in_unit_not_nan x E)) as (_ & _ & _ & Hc);
      destruct (Hc E) as [->|[-> _]] end.
    + reflexivity.
    + exfalso. apply Hz. reflexivity.
Qed.

Lemma normalizer_preserves_valid_witness :
  prop (Summarize.validateAndNormalizeSummary Summarize.getMockSummary)
       "risk_flags"
  = prop Summarize.getMockSummary "risk_flags".
Proof.
  apply (normalizer_preserves_valid Summarize.getMockSummary "risk_flags").
  - vm_compute. reflexivity.
  - vm_compute. discriminate.
  - simpl. tauto.
Defined.

(** ** Finding the JSON object in the answer of the language model *)








(** ** The answers of the summarize route *)



Section SummarizeAnswers.

Variable SYSTEM_PROMPT : string.
Variable JSON_stringify : value -> string.
Variable JSON_parse : string -> option obj.
Variable generateContent : string -> string -> result string.

Local Notation POST_try :=
  (Summarize.POST_try SYSTEM_PROMPT JSON_stringify JSON_parse generateContent).
Local Notation POST :=
  (Summarize.POST SYSTEM_PROMPT JSON_stringify JSON_parse generateContent).
Local Notation prompt_of := (Summarize.prompt_of SYSTEM_PROMPT JSON_stringify).

Lemma POST_try_outcome e rq : summarize_outcome (POST_try e rq).
Proof.
  unfold Summarize.POST_try.
  destruct rq as [body|x]; [|constructor].
  destruct (get body "ocr_result") as [ocr_result|x]; [|constructor].
  destruct (get body "user_instructions") as [ui|x]; [|constructor].
  destruct (negb (truthy ocr_result)); [constructor; left; reflexivity|].
  destruct (Summarize.skip_llm e); [constructor; left; reflexivity|].
  destruct (bind (get ocr_result "meta") _) as [[|]|x];
    [|constructor; right; reflexivity|constructor].
  destruct (e "GEMINI_API_KEY") as [apiKey|];
    [|constructor; right; reflexivity].
  destruct (String.eqb apiKey EmptyString); [constructor; right; reflexivity|].
  destruct (Summarize.build_input ocr_result ui) as [input|x]; [|constructor].
  cbv zeta.
  destruct (generateContent apiKey _) as [text|x]; [|constructor].
  destruct (Summarize.parse_summary JSON_parse text); constructor.
Qed.

(** The summarize route answers 200 with a summary, 400 with one of its two
    validation messages, or 500 [Summarization failed] with a detail
    string, and nothing else. *)
Theorem summarize_answers e rq :
  let r := snd (POST e rq) in
  (status r = 200
   /\ (body r = VObject Summarize.getMockSummary
       \/ exists C,
            body r = VObject (Summarize.validateAndNormalizeSummary C)))
  \/ (status r = 400
      /\ (body r = error_body "No OCR result provided"
          \/ body r = error_body "Invalid OCR result structure"))
  \/ (status r = 500
      /\ exists d, body r = failure_body "Summarization failed" d).
Proof.
  unfold Summarize.POST.
  destruct (POST_try_outcome e rq); cbn.
  - right. right. split; [reflexivity|]. eexists. reflexivity.
  - right. left. split; [reflexivity|].
    destruct H as [->| ->]; [left|right]; reflexivity.
  - left. split; [reflexivity|]. left. reflexivity.
  - right. right. split; [reflexivity|]. eexists. reflexivity.
  - right. right. split; [reflexivity|]. eexists. reflexivity.
  - left. split; [reflexivity|]. right. eexists. reflexivity.
Qed.

(** One request makes at most one call to the language model (there is no
    retry), and none at all when it is answered 400 or in mock mode. *)
Theorem at_most_one_backend_call e rq :
  backend_calls (fst (POST e rq)) <= 1
  /\ (status (snd (POST e rq)) = 400 -> backend_calls (fst (POST e rq)) = 0)
  /\ (mock_mode e = true -> backend_calls (fst (POST e rq)) = 0).
Proof.
  split; [|split].
  - unfold Summarize.POST.
    destruct (POST_try_outcome e rq); cbn; try lia.
    destruct H as [->| ->]; cbn; lia.
  - unfold Summarize.POST.
    destruct (POST_try_outcome e rq); cbn; try discriminate; reflexivity.
  - intros Hm. unfold Summarize.POST, Summarize.POST_try.
    destruct rq as [body|x]; [|reflexivity].
    destruct (get body "ocr_result") as [ocr_result|x]; [|reflexivity].
    destruct (get body "user_instructions") as [ui|x]; [|reflexivity].
    destruct (negb (truthy ocr_result)); [reflexivity|].
    destruct (mock_mode_cases e Hm) as [Hs|[Hs Hk]]; rewrite Hs;
      [reflexivity|].
    destruct (bind (get ocr_result "meta") _) as [[|]|x]; try reflexivity.
    destruct (e "GEMINI_API_KEY") as [apiKey|]; [|reflexivity].
    cbn in Hk. destruct (String.eqb apiKey EmptyString);
      [reflexivity|discriminate].
Qed.

Lemma mock_array_fields k :
  In k array_fields ->
  Array_isArray (prop Summarize.getMockSummary k) = true.
Proof.
  intros H. repeat (destruct H as [H|H]; [subst k; reflexivity|]). destruct H.
Qed.

(** Whatever path produced it, a 200 answer of the summarize route is an
    object with exactly the ten Summary Result fields, whose five list
    fields are arrays and whose confidence_score is a number, so a reader
    may take their [length] and [map] over them. *)
Theorem successful_answers_have_sequences e rq :
  status (snd (POST e rq)) = 200 ->
  exists o,
    body (snd (POST e rq)) = VObject o
    /\ map fst o = summary_fields
    /\ (forall k, In k array_fields -> Array_isArray (prop o k) = true)
    /\ typeof_number (prop o "confidence_score") = true.
Proof.
  unfold Summarize.POST.
  destruct (POST_try_outcome e rq); cbn; try discriminate; intros _.
  - exists Summarize.getMockSummary. split; [reflexivity|].
    split; [reflexivity|]. split; [apply mock_array_fields|reflexivity].
  - exists (Summarize.validateAndNormalizeSummary C). split; [reflexivity|].
    split; [reflexivity|]. split.
    + intros k Hk. rewrite (prop_N_array C k Hk).
      apply array_or_empty_is_array.
    + rewrite prop_N_confidence.
      destruct (prop C "confidence_score"); reflexivity.
Qed.

(** A request whose body cannot be read (the JSON parser throws, or the
    body is [null]) is answered 500 with the message of the error, and the
    language model is not called. *)
Theorem unreadable_request_is_500 e :
  (forall x,
     POST e (Throw x)
     = ([ConsoleErrorExn "Summarization error:" x],
        json_with (failure_body "Summarization failed" (details_of x)) 500))
  /\ (exists x,
        POST e (Ok VNull)
        = ([ConsoleErrorExn "Summarization error:" (JsError x)],
           json_with (failure_body "Summarization failed" x) 500)).
Proof.
  split.
  - intros x. reflexivity.
  - eexists. reflexivity.
Qed.

(** Once the request is valid and the credential is set, the outcome of
    the single call decides the answer: an error of the call, or an answer
    without a parsable JSON object, gives 500 with the error's message
    (the unparsable text is logged); a parsed object gives 200 with its
    normalization. *)
Theorem backend_stage e body ocr_result apiKey input :
  get body "ocr_result" = Ok ocr_result ->
  has_meta_and_ocr ocr_result = true ->
  Summarize.skip_llm e = false ->
  e "GEMINI_API_KEY" = Some apiKey ->
  String.eqb apiKey EmptyString = false ->
  Summarize.build_input ocr_result (field body "user_instructions")
    = Ok input ->
  POST e (Ok body)
  = match generateContent apiKey (prompt_of input) with
    | Throw x =>
        ([GenerateContent apiKey (prompt_of input);
          ConsoleErrorExn "Summarization error:" x],
         json_with (failure_body "Summarization failed" (details_of x)) 500)
    | Ok text =>
        match Summarize.parse_summary JSON_parse text with
        | None =>
            ([GenerateContent apiKey (prompt_of input);
              ConsoleErrorText "Failed to parse Gemini response:" text;
              ConsoleErrorExn "Summarization error:"
                (JsError "Failed to parse summary response")],
             json_with
               (failure_body "Summarization failed"
                  "Failed to parse summary response") 500)
        | Some C =>
            ([GenerateContent apiKey (prompt_of input)],
             json (VObject (Summarize.validateAndNormalizeSummary C)))
        end
    end.
Proof.
  intros Hg Hv Hs Hk Hne Hb.
  destruct (has_meta_and_ocr_object _ Hv) as (o & -> & Hm & Ho).
  unfold Summarize.POST, Summarize.POST_try.
  rewrite Hg, (get_field _ _ _ Hg "user_instructions"), Hs.
  cbn [truthy negb get bind]. rewrite Hm, Ho. cbn [negb].
  rewrite Hk, Hne, Hb. cbv zeta.
  destruct (generateContent apiKey _) as [text|x]; [|reflexivity].
  destruct (Summarize.parse_summary JSON_parse text); reflexivity.
Qed.


End SummarizeAnswers.

Lemma backend_stage_witness :
  Summarize.POST EmptyString no_stringify no_parse no_backend
    (env_of [("GEMINI_API_KEY", "key")]) (Ok sample_body)
  = ([GenerateContent "key"
        (Summarize.prompt_of EmptyString no_stringify
           (VObject
              [ ("meta", field (Ocr.OCRResult_value sample_result) "meta");
                ("ocr",
                   VArray (map capped_page
                             (map Ocr.OCRPageResult_value
                                (Ocr.OCRResult.ocr sample_result))));
                ("user_instructions",
                   VString Summarize.default_instructions) ]));
      ConsoleErrorExn "Summarization error:" (JsError "backend unavailable")],
     json_with (failure_body "Summarization failed" "backend unavailable") 500).
Proof.
  rewrite (backend_stage EmptyString no_stringify no_parse no_backend
             (env_of [("GEMINI_API_KEY", "key")]) sample_body
             (Ocr.OCRResult_value sample_result) "key"
             (VObject
                [ ("meta", field (Ocr.OCRResult_value sample_result) "meta");
                  ("ocr",
                     VArray (map capped_page
                               (map Ocr.OCRPageResult_value
                                  (Ocr.OCRResult.ocr sample_result))));
                  ("user_instructions",
                     VString Summarize.default_instructions) ])
             eq_refl eq_refl eq_refl eq_refl eq_refl
             (build_input_of_OCRResult sample_result VUndefined)).
  reflexivity.
Defined.

Lemma successful_answers_have_sequences_witness :
  exists o,
    body (snd (Summarize.POST EmptyString no_stringify no_parse no_backend
                 (env_of []) (Ok sample_body))) = VObject o
    /\ map fst o = summary_fields.
Proof.
  destruct (successful_answers_have_sequences EmptyString no_stringify
              no_parse no_backend (env_of []) (Ok sample_body) eq_refl)
    as (o & Ho & Hf & _).
  exists o. split; assumption.
Defined.


(** ** Pages, blocks and their identifiers *)

Lemma fold_left_invariant {A S} (P : S -> Prop) (step : S -> A -> S) :
  (forall a x, P a -> P (step a x)) ->
  forall l a, P a -> P (fold_left step l a).
Proof.
  intros Hstep l. induction l as [|x l IH]; intros a Ha; [exact Ha|].
  cbn [fold_left]. apply IH, Hstep, Ha.
Qed.

Lemma show_nat_injective n m : Ocr.show_nat n = Ocr.show_nat m -> n = m.
Proof.
  unfold Ocr.show_nat. intros H.
  assert (E : Some (Nat.to_uint n) = Some (Nat.to_uint m)).
  { rewrite <- !NilEmpty.usu. rewrite H. reflexivity. }
  injection E as E.
  rewrite <- (Unsigned.of_to n), <- (Unsigned.of_to m), E. reflexivity.
Qed.

Lemma append_cancel (a x y : string) : a ++ x = a ++ y -> x = y.
Proof.
  induction a as [|c a IH]; [trivial|]. cbn. intros H. injection H as H.
  exact (IH H).
Qed.

Lemma block_id_injective prefix i k k' :
  block_id prefix i k = block_id prefix i k' -> k = k'.
Proof.
  unfold block_id. intros H.
  apply append_cancel in H. apply append_cancel in H.
  apply append_cancel in H. apply append_cancel in H.
  apply show_nat_injective. exact H.
Qed.

Lemma block_ids_NoDup prefix i n :
  NoDup (map (block_id prefix i) (seq 0 n)).
Proof.
  apply NoDup_map_NoDup_ForallPairs; [|apply seq_NoDup].
  intros k k' _ _. apply block_id_injective.
Qed.

(** A loop that pushes one block for each kept item maps the kept items,
    in order, onto the new blocks. *)
Lemma fold_push_map {A B} (proj : Ocr.OCRBlock.t -> B)
    (step : Ocr.acc -> A -> Ocr.acc) (keep : A -> bool) (g : A -> B) :
  (forall a x, keep x = true ->
     exists b, step a x = Ocr.push a b /\ proj b = g x) ->
  (forall a x, keep x = false -> step a x = a) ->
  forall l a,
    map proj (Ocr.blocks (fold_left step l a))
    = (map proj (Ocr.blocks a) ++ map g (filter keep l))%list.
Proof.
  intros Hk Hs l. induction l as [|x l IH]; intros a; cbn [fold_left filter].
  - cbn. rewrite app_nil_r. reflexivity.
  - rewrite IH. destruct (keep x) eqn:E.
    + destruct (Hk a x E) as (b & -> & Hb). cbn [Ocr.push Ocr.blocks map].
      rewrite map_app. cbn [map]. rewrite Hb, <- app_assoc. reflexivity.
    + rewrite (Hs a x E). reflexivity.
Qed.

Lemma google_push_kept prefix bt i fullText a x :
  has_layout x = true ->
  exists b,
    Ocr.google_push prefix bt i fullText a x = Ocr.push a b
    /\ Ocr.OCRBlock.text b = item_text fullText x
    /\ Ocr.OCRBlock.confidence b = item_confidence x
    /\ Ocr.OCRBlock.blockType b = bt
    /\ Ocr.OCRBlock.id b = block_id prefix i (List.length (Ocr.blocks a)).
Proof.
  unfold has_layout, Ocr.google_push, item_text, item_confidence.
  destruct (Ocr.Google.layout x) as [l|]; [|discriminate]. intros _.
  eexists. split; [reflexivity|]. repeat split.
Qed.

Lemma google_push_skipped prefix bt i fullText a x :
  has_layout x = false -> Ocr.google_push prefix bt i fullText a x = a.
Proof.
  unfold has_layout, Ocr.google_push.
  destruct (Ocr.Google.layout x); [discriminate|reflexivity].
Qed.

Lemma google_fold_ids prefix bt i fullText l a :
  map Ocr.OCRBlock.id
    (Ocr.blocks (fold_left (Ocr.google_push prefix bt i fullText) l a))
  = (map Ocr.OCRBlock.id (Ocr.blocks a)
     ++ map (block_id prefix i)
          (seq (List.length (Ocr.blocks a))
             (List.length (filter has_layout l))))%list.
Proof.
  revert a. induction l as [|x l IH]; intros a; cbn [fold_left filter].
  - cbn. rewrite app_nil_r. reflexivity.
  - rewrite IH. destruct (has_layout x) eqn:E.
    + destruct (google_push_kept prefix bt i fullText a x E)
        as (b & -> & _ & _ & _ & Hid).
      cbn [Ocr.push Ocr.blocks List.length seq map].
      rewrite map_app, length_app, Nat.add_1_r. cbn [map List.length].
      rewrite Hid, <- app_assoc. reflexivity.
    + rewrite (google_push_skipped _ _ _ _ _ _ E). reflexivity.
Qed.

(** The blocks of a Document AI page, read off its units. *)
Lemma google_page_units d i :
  let '(items, bt, prefix) := google_units d i in
  let bs := Ocr.OCRPageResult.blocks (Ocr.google_page d i) in
  let fullText := Ocr.str_or (Ocr.Google.text d) EmptyString in
  map Ocr.OCRBlock.text bs = map (item_text fullText) items
  /\ map Ocr.OCRBlock.confidence bs = map item_confidence items
  /\ map Ocr.OCRBlock.blockType bs = repeat bt (List.length items)
  /\ map Ocr.OCRBlock.id bs
     = map (block_id prefix i) (seq 0 (List.length items)).
Proof.
  unfold google_units, google_page_blocks, google_page_lines, google_items.
  cbn [Ocr.google_page Ocr.OCRPageResult.blocks]. unfold Ocr.google_collect.
  set (fullText := Ocr.str_or (Ocr.Google.text d) EmptyString).
  set (page := Ocr.google_nth_page d i).
  set (bl := match match page with
                   | Some p => Ocr.Google.blocks p
                   | None => None
                   end with Some l => l | None => [] end).
  set (ln := match match page with
                   | Some p => Ocr.Google.lines p
                   | None => None
                   end with Some l => l | None => [] end).
  set (a1 := match page with
             | Some {| Ocr.Google.blocks := Some bs |} => _
             | _ => Ocr.acc0
             end).
  assert (Ea1 : a1 = fold_left (Ocr.google_push "block" Ocr.PARAGRAPH i fullText)
                       bl Ocr.acc0).
  { subst a1 bl. destruct page as [[[bs|] ls]|]; reflexivity. }
  assert (Ea2 : match page with
                | Some {| Ocr.Google.lines := Some ls |} =>
                    fold_left (Ocr.google_push "line" Ocr.LINE i fullText) ls a1
                | _ => a1
                end
                = fold_left (Ocr.google_push "line" Ocr.LINE i fullText) ln a1).
  { subst ln. destruct page as [[bs [ls|]]|]; reflexivity. }
  rewrite Ea2. clear Ea2.
  assert (Hlen : List.length (Ocr.blocks a1)
                 = List.length (filter has_layout bl)).
  { rewrite <- (length_map Ocr.OCRBlock.id), Ea1, google_fold_ids.
    cbn. rewrite length_map, length_seq. reflexivity. }
  destruct (filter has_layout bl) as [|b0 items] eqn:Ef.
  - cbn in Hlen. rewrite Hlen. cbn [Nat.eqb].
    assert (Hnil : Ocr.blocks a1 = []).
    { destruct (Ocr.blocks a1); [reflexivity|discriminate]. }
    repeat split.
    + rewrite (fold_push_map Ocr.OCRBlock.text _ has_layout (item_text fullText)).
      * rewrite Hnil. reflexivity.
      * intros a x E.
        destruct (google_push_kept "line" Ocr.LINE i fullText a x E)
          as (b & Hb & Ht & _). exists b. split; assumption.
      * intros a x E. apply google_push_skipped. exact E.
    + rewrite (fold_push_map Ocr.OCRBlock.confidence _ has_layout
                 item_confidence).
      * rewrite Hnil. reflexivity.
      * intros a x E.
        destruct (google_push_kept "line" Ocr.LINE i fullText a x E)
          as (b & Hb & _ & Hc & _). exists b. split; assumption.
      * intros a x E. apply google_push_skipped. exact E.
    + rewrite (fold_push_map Ocr.OCRBlock.blockType _ has_layout
                 (fun _ => Ocr.LINE)).
      * rewrite Hnil. cbn [map app]. rewrite map_const. reflexivity.
      * intros a x E.
        destruct (google_push_kept "line" Ocr.LINE i fullText a x E)
          as (b & Hb & _ & _ & Hbt & _). exists b. split; assumption.
      * intros a x E. apply google_push_skipped. exact E.
    + rewrite google_fold_ids, Hnil. reflexivity.
  - rewrite Hlen. cbn [List.length Nat.eqb]. rewrite Ea1. repeat split.
    + rewrite (fold_push_map Ocr.OCRBlock.text _ has_layout (item_text fullText)).
      * rewrite Ef. reflexivity.
      * intros a x E.
        destruct (google_push_kept "block" Ocr.PARAGRAPH i fullText a x E)
          as (b & Hb & Ht & _). exists b. split; assumption.
      * intros a x E. apply google_push_skipped. exact E.
    + rewrite (fold_push_map Ocr.OCRBlock.confidence _ has_layout
                 item_confidence).
      * rewrite Ef. reflexivity.
      * intros a x E.
        destruct (google_push_kept "block" Ocr.PARAGRAPH i fullText a x E)
          as (b & Hb & _ & Hc & _). exists b. split; assumption.
      * intros a x E. apply google_push_skipped. exact E.
    + rewrite (fold_push_map Ocr.OCRBlock.blockType _ has_layout
                 (fun _ => Ocr.PARAGRAPH)).
      * rewrite Ef. cbn [map app Ocr.acc0 Ocr.blocks]. rewrite map_const.
        reflexivity.
      * intros a x E.
        destruct (google_push_kept "block" Ocr.PARAGRAPH i fullText a x E)
          as (b & Hb & _ & _ & Hbt & _). exists b. split; assumption.
      * intros a x E. apply google_push_skipped. exact E.
    + rewrite google_fold_ids, Ef. reflexivity.
Qed.

(** Granularity fallback of the Document AI adapter: the blocks of a page
    are its paragraph blocks that carry a layout, in document order, with
    their text and confidence; when there is none (no block, or only blocks
    without layout) they are its lines that carry a layout instead, typed
    LINE. *)
Theorem google_granularity_fallback (d : Ocr.Google.Document) (i : nat) :
  let '(items, bt, _) := google_units d i in
  let bs := Ocr.OCRPageResult.blocks (Ocr.google_page d i) in
  map Ocr.OCRBlock.text bs
  = map (item_text (Ocr.str_or (Ocr.Google.text d) EmptyString)) items
  /\ map Ocr.OCRBlock.confidence bs = map item_confidence items
  /\ map Ocr.OCRBlock.blockType bs = repeat bt (List.length items)
  /\ List.length bs = List.length items.
Proof.
  pose proof (google_page_units d i) as H.
  destruct (google_units d i) as [[items bt] prefix]. cbv zeta in H |- *.
  destruct H as (Ht & Hc & Hb & _). repeat split; try assumption.
  rewrite <- (length_map Ocr.OCRBlock.text), Ht, length_map. reflexivity.
Qed.

(** Within a page of the Document AI adapter the block identifiers are
    pairwise distinct: the [k]-th block of page index [i] is named
    [block-i-k], or [line-i-k] after the fallback to lines. *)
Theorem google_block_ids_unique (d : Ocr.Google.Document) (i : nat) :
  let bs := Ocr.OCRPageResult.blocks (Ocr.google_page d i) in
  NoDup (map Ocr.OCRBlock.id bs)
  /\ exists prefix,
       (prefix = "block" \/ prefix = "line")
       /\ map Ocr.OCRBlock.id bs
          = map (block_id prefix i) (seq 0 (List.length bs)).
Proof.
  pose proof (google_page_units d i) as H. cbv zeta.
  assert (Hp : snd (google_units d i) = "block"
               \/ snd (google_units d i) = "line").
  { unfold google_units. destruct (google_page_blocks d i); [right|left];
      reflexivity. }
  destruct (google_units d i) as [[items bt] prefix]. cbv zeta in H.
  destruct H as (Ht & _ & _ & Hid).
  assert (Hl : List.length (Ocr.OCRPageResult.blocks (Ocr.google_page d i))
               = List.length items).
  { rewrite <- (length_map Ocr.OCRBlock.text), Ht, length_map. reflexivity. }
  split.
  - rewrite Hid. apply block_ids_NoDup.
  - exists prefix. split; [exact Hp|]. rewrite Hl. exact Hid.
Qed.

(** ** The page text *)

Lemma lines_of_snoc bs b :
  lines_of (bs ++ [b]) = lines_of bs ++ Ocr.OCRBlock.text b ++ nl.
Proof.
  induction bs as [|c bs IH]; cbn [lines_of app].
  - reflexivity.
  - rewrite IH, !append_assoc. reflexivity.
Qed.

Lemma text_coherent_push a b :
  text_coherent a -> text_coherent (Ocr.push a b).
Proof.
  unfold text_coherent. cbn [Ocr.push Ocr.pageText Ocr.blocks].
  intros ->. rewrite lines_of_snoc. reflexivity.
Qed.

Lemma text_coherent_google_collect d i : text_coherent (Ocr.google_collect d i).
Proof.
  assert (Hp : forall prefix bt t a x,
             text_coherent a ->
             text_coherent (Ocr.google_push prefix bt i t a x)).
  { intros prefix bt t a x Ha. unfold Ocr.google_push.
    destruct (Ocr.Google.layout x); [apply text_coherent_push|]; exact Ha. }
  unfold Ocr.google_collect.
  set (a1 := match Ocr.google_nth_page d i with
             | Some {| Ocr.Google.blocks := Some bs |} => _
             | _ => Ocr.acc0
             end).
  assert (H1 : text_coherent a1).
  { subst a1. destruct (Ocr.google_nth_page d i) as [[[bs|] ls]|];
      try reflexivity.
    apply fold_left_invariant; [apply Hp|reflexivity]. }
  destruct (Nat.eqb (List.length (Ocr.blocks a1)) 0); [|exact H1].
  destruct (Ocr.google_nth_page d i) as [[bs [ls|]]|]; try exact H1.
  apply fold_left_invariant; [apply Hp|exact H1].
Qed.

Lemma text_coherent_aws_collect bs : text_coherent (Ocr.aws_collect bs).
Proof.
  unfold Ocr.aws_collect.
  apply (fold_left_invariant text_coherent); [|reflexivity].
  intros a x Ha. unfold Ocr.aws_push_line.
  destruct (_ && _)%bool; [apply text_coherent_push|]; exact Ha.
Qed.

Section OcrPages.

Variable Buffer : Type.
Variable processDocument
  : Ocr.Google.Request Buffer -> result Ocr.Google.Response.
Variable send : string -> Buffer -> result Ocr.Aws.Response.
Variable now : string.

Local Notation google :=
  (Ocr.processWithGoogleDocumentAI processDocument now).
Local Notation aws := (Ocr.processWithAWSTextract send now).
Local Notation adapter := (Ocr.adapter processDocument send now).

(** What a successful run of either adapter returns. *)
Lemma adapter_result e buf filename mimeType r :
  adapter e buf filename mimeType = Ok r ->
  (exists d,
     r = {| Ocr.OCRResult.meta :=
              {| Ocr.Meta.filename := filename;
                 Ocr.Meta.pages := Ocr.google_pageCount d;
                 Ocr.Meta.provider := "google-document-ai";
                 Ocr.Meta.processedAt := now |};
            Ocr.OCRResult.ocr :=
              map (Ocr.google_page d) (seq 0 (Ocr.google_pageCount d)) |})
  \/ (exists bs,
        r = {| Ocr.OCRResult.meta :=
                 {| Ocr.Meta.filename := filename;
                    Ocr.Meta.pages := 1;
                    Ocr.Meta.provider := "aws-textract";
                    Ocr.Meta.processedAt := now |};
               Ocr.OCRResult.ocr :=
                 [ {| Ocr.OCRPageResult.page := 1;
                      Ocr.OCRPageResult.text :=
                        JsString.trim (Ocr.pageText (Ocr.aws_collect bs));
                      Ocr.OCRPageResult.blocks :=
                        Ocr.blocks (Ocr.aws_collect bs);
                      Ocr.OCRPageResult.entities :=
                        flat_map (Ocr.aws_entity (Ocr.aws_blockMap bs)) bs;
                      Ocr.OCRPageResult.confidence :=
                        Ocr.mean_confidence (Ocr.aws_collect bs) |} ] |}).
Proof.
  unfold Ocr.adapter.
  destruct (String.eqb (Ocr.OCR_PROVIDER e) "aws").
  - unfold Ocr.processWithAWSTextract.
    destruct (send _ _) as [response|x]; [|discriminate]. cbn [bind].
    destruct (Ocr.Aws.Blocks response) as [bs|]; [|discriminate].
    intros H. injection H as <-. right. exists bs. reflexivity.
  - unfold Ocr.processWithGoogleDocumentAI.
    destruct (_ || _ || _)%bool; [discriminate|].
    destruct (_ || _)%bool; [discriminate|].
    destruct (processDocument _) as [response|x]; [|discriminate].
    cbn [bind].
    destruct (Ocr.Google.document response) as [d|]; [|discriminate].
    intros H. injection H as <-. left. exists d. reflexivity.
Qed.

(** An OCR Result has at least one page, its pages are numbered 1, 2, ...
    in order, and [meta.pages] is their number. *)
Theorem pages_numbered_from_one e buf filename mimeType r :
  adapter e buf filename mimeType = Ok r ->
  map Ocr.OCRPageResult.page (Ocr.OCRResult.ocr r)
  = seq 1 (Ocr.Meta.pages (Ocr.OCRResult.meta r))
  /\ List.length (Ocr.OCRResult.ocr r) = Ocr.Meta.pages (Ocr.OCRResult.meta r)
  /\ 1 <= Ocr.Meta.pages (Ocr.OCRResult.meta r).
Proof.
  intros H. destruct (adapter_result _ _ _ _ _ H) as [(d & ->)|(bs & ->)];
    cbn [Ocr.OCRResult.ocr Ocr.OCRResult.meta Ocr.Meta.pages].
  - split; [|split].
    + rewrite map_map. cbn [Ocr.google_page Ocr.OCRPageResult.page].
      rewrite <- seq_shift. apply map_ext. intros i. apply Nat.add_1_r.
    + rewrite length_map, length_seq. reflexivity.
    + apply google_pageCount_positive.
  - repeat split. apply le_n.
Qed.

(** The text of a page is the texts of its blocks, each followed by a line
    feed, in block order, trimmed at both ends. *)
Theorem page_text_is_joined_lines e buf filename mimeType r :
  adapter e buf filename mimeType = Ok r ->
  Forall
    (fun p =>
       Ocr.OCRPageResult.text p
       = JsString.trim (lines_of (Ocr.OCRPageResult.blocks p)))
    (Ocr.OCRResult.ocr r).
Proof.
  intros H. destruct (adapter_result _ _ _ _ _ H) as [(d & ->)|(bs & ->)];
    cbn [Ocr.OCRResult.ocr].
  - apply Forall_forall. intros p Hp. apply in_map_iff in Hp.
    destruct Hp as (i & <- & _).
    cbn [Ocr.google_page Ocr.OCRPageResult.text Ocr.OCRPageResult.blocks].
    rewrite (text_coherent_google_collect d i). reflexivity.
  - constructor; [|constructor].
    cbn [Ocr.OCRPageResult.text Ocr.OCRPageResult.blocks].
    rewrite (text_coherent_aws_collect bs). reflexivity.
Qed.

(** The Textract adapter keeps exactly the blocks of type LINE that have a
    text, in the order of the response, as LINE blocks with that text and a
    hundredth of the reported confidence. *)
Theorem textract_lines_kept e buf filename mimeType bs :
  send (Ocr.str_or (e "AWS_REGION") "us-east-1") buf
  = Ok {| Ocr.Aws.Blocks := Some bs |} ->
  exists r p,
    aws e buf filename mimeType = Ok r
    /\ Ocr.OCRResult.ocr r = [p]
    /\ map Ocr.OCRBlock.text (Ocr.OCRPageResult.blocks p)
       = map line_text (filter is_text_line bs)
    /\ map Ocr.OCRBlock.confidence (Ocr.OCRPageResult.blocks p)
       = map line_confidence (filter is_text_line bs)
    /\ Forall (fun b => Ocr.OCRBlock.blockType b = Ocr.LINE
                        /\ Ocr.OCRBlock.text b <> EmptyString)
         (Ocr.OCRPageResult.blocks p).
Proof.
  intros Hs. unfold Ocr.processWithAWSTextract. rewrite Hs.
  cbn [bind Ocr.Aws.Blocks]. eexists. eexists. split; [reflexivity|].
  split; [reflexivity|]. cbn [Ocr.OCRPageResult.blocks].
  assert (Hk : forall a x, is_text_line x = true ->
             exists b, Ocr.aws_push_line a x = Ocr.push a b
                       /\ Ocr.OCRBlock.text b = line_text x
                       /\ Ocr.OCRBlock.confidence b = line_confidence x
                       /\ Ocr.OCRBlock.blockType b = Ocr.LINE).
  { intros a x E. unfold Ocr.aws_push_line. unfold is_text_line in E.
    rewrite E. eexists. split; [reflexivity|]. repeat split. }
  assert (Hn : forall a x, is_text_line x = false ->
             Ocr.aws_push_line a x = a).
  { intros a x E. unfold Ocr.aws_push_line. unfold is_text_line in E.
    rewrite E. reflexivity. }
  unfold Ocr.aws_collect. split; [|split].
  - rewrite (fold_push_map Ocr.OCRBlock.text _ is_text_line line_text);
      [reflexivity| |exact Hn].
    intros a x E. destruct (Hk a x E) as (b & Hb & Ht & _).
    exists b. split; assumption.
  - rewrite (fold_push_map Ocr.OCRBlock.confidence _ is_text_line
               line_confidence); [reflexivity| |exact Hn].
    intros a x E. destruct (Hk a x E) as (b & Hb & _ & Hc & _).
    exists b. split; assumption.
  - apply (fold_left_invariant
             (fun a => Forall (fun b => Ocr.OCRBlock.blockType b = Ocr.LINE
                                        /\ Ocr.OCRBlock.text b <> EmptyString)
                         (Ocr.blocks a))); [|constructor].
    intros a x Ha. destruct (is_text_line x) eqn:E.
    + destruct (Hk a x E) as (b & -> & Ht & _ & Hbt).
      cbn [Ocr.push Ocr.blocks]. apply Forall_app. split; [exact Ha|].
      constructor; [|constructor]. split; [exact Hbt|].
      rewrite Ht. unfold line_text. unfold is_text_line in E.
      apply andb_prop in E. destruct E as [_ E].
      destruct (Ocr.Aws.Text x) as [t|]; [|discriminate]. cbn in E |- *.
      intros ->. discriminate.
    + rewrite (Hn a x E). exact Ha.
Qed.

End OcrPages.

Lemma pages_numbered_from_one_witness :
  map Ocr.OCRPageResult.page
    (map (Ocr.google_page three_blocks) (seq 0 1)) = [1].
Proof.
  destruct (pages_numbered_from_one string
              (google_answers (Some three_blocks)) (aws_answers None)
              some_time google_env "JVBERi0=" (VString "a.pdf")
              (VString "application/pdf")
              {| Ocr.OCRResult.meta :=
                   {| Ocr.Meta.filename := VString "a.pdf";
                      Ocr.Meta.pages := 1;
                      Ocr.Meta.provider := "google-document-ai";
                      Ocr.Meta.processedAt := some_time |};
                 Ocr.OCRResult.ocr :=
                   map (Ocr.google_page three_blocks) (seq 0 1) |} eq_refl)
    as (H & _).
  exact H.
Defined.

Lemma page_text_is_joined_lines_witness :
  Forall
    (fun p =>
       Ocr.OCRPageResult.text p
       = JsString.trim (lines_of (Ocr.OCRPageResult.blocks p)))
    (map (Ocr.google_page one_line) (seq 0 1)).
Proof.
  exact (page_text_is_joined_lines string
           (google_answers (Some one_line)) (aws_answers None)
           some_time google_env "JVBERi0=" (VString "a.pdf")
           (VString "application/pdf")
           {| Ocr.OCRResult.meta :=
                {| Ocr.Meta.filename := VString "a.pdf";
                   Ocr.Meta.pages := 1;
                   Ocr.Meta.provider := "google-document-ai";
                   Ocr.Meta.processedAt := some_time |};
              Ocr.OCRResult.ocr :=
                map (Ocr.google_page one_line) (seq 0 1) |} eq_refl).
Defined.

Lemma textract_lines_kept_witness :
  exists r p,
    Ocr.processWithAWSTextract (aws_answers (Some textract_form)) some_time
      aws_env "JVBERi0=" (VString "a.pdf") (VString "application/pdf") = Ok r
    /\ Ocr.OCRResult.ocr r = [p]
    /\ map Ocr.OCRBlock.text (Ocr.OCRPageResult.blocks p) = ["Name Ada"].
Proof.
  destruct (textract_lines_kept string (aws_answers (Some textract_form))
              some_time aws_env "JVBERi0=" (VString "a.pdf")
              (VString "application/pdf") textract_form eq_refl)
    as (r & p & Hr & Hp & Ht & _).
  exists r, p. split; [exact Hr|]. split; [exact Hp|]. exact Ht.
Defined.

(** ** Entities of Document AI *)

Lemma flat_map_filter {A B} (f : A -> bool) (g : A -> B) l :
  flat_map (fun x => if f x then [g x] else []) l = map g (filter f l).
Proof.
  induction l as [|x l IH]; [reflexivity|]. cbn [flat_map filter].
  destruct (f x); cbn; rewrite IH; reflexivity.
Qed.

(** The entities of a page are, in document order, the entities of the
    document whose first page reference is absent or names the index of the
    page; each is stamped with the number of the page, and its type
    defaults to UNKNOWN. *)
Theorem google_entities_of_page (d : Ocr.Google.Document) (i : nat) :
  let here := filter (fun en => Ocr.on_page (Ocr.entityPage en) i)
                (match Ocr.Google.entities d with
                 | Some es => es
                 | None => []
                 end) in
  let out := Ocr.OCRPageResult.entities (Ocr.google_page d i) in
  map Ocr.OCREntity.mentionText out = map Ocr.Google.mentionText here
  /\ map Ocr.OCREntity.type out
     = map (fun en => Ocr.str_or (Ocr.Google.type en) "UNKNOWN") here
  /\ Forall (fun en => Ocr.OCREntity.page en
                       = Ocr.OCRPageResult.page (Ocr.google_page d i)) out
  /\ Forall (fun en => Num.is_nan (Ocr.OCREntity.confidence en) = false) out.
Proof.
  cbv zeta. cbn [Ocr.google_page Ocr.OCRPageResult.entities
                   Ocr.OCRPageResult.page].
  unfold Ocr.google_entities.
  destruct (Ocr.Google.entities d) as [es|];
    [|repeat split; constructor].
  rewrite flat_map_filter. rewrite !map_map. cbn [Ocr.OCREntity.mentionText
    Ocr.OCREntity.type]. repeat split.
  - apply Forall_forall. intros en Hen. apply in_map_iff in Hen.
    destruct Hen as (x & <- & _). reflexivity.
  - apply Forall_forall. intros en Hen. apply in_map_iff in Hen.
    destruct Hen as (x & <- & _). cbn [Ocr.OCREntity.confidence].
    unfold Ocr.num_or_zero.
    destruct (Ocr.Google.entity_confidence x) as [c|]; [|reflexivity].
    destruct c as [s|s| |s m e]; reflexivity.
Qed.

Lemma count_page_index z start n :
  List.length
    (filter (fun i => Z.eqb z (Z.of_nat i)) (seq start n))
  = if (Z.leb (Z.of_nat start) z && Z.ltb z (Z.of_nat (start + n)))%bool
    then 1 else 0.
Proof.
  revert start. induction n as [|n IH]; intros start.
  - cbn [seq filter List.length]. rewrite Nat.add_0_r.
    destruct (Z.leb_spec (Z.of_nat start) z), (Z.ltb_spec z (Z.of_nat start));
      cbn; try reflexivity; lia.
  - cbn [seq filter]. rewrite <- Nat.add_succ_comm.
    destruct (Z.eqb_spec z (Z.of_nat start)) as [E|E]; cbn [List.length];
      rewrite IH;
      destruct (Z.leb_spec (Z.of_nat (S start)) z),
               (Z.leb_spec (Z.of_nat start) z),
               (Z.ltb_spec z (Z.of_nat (S start + n)));
      cbn; try reflexivity; lia.
Qed.

(** Over the [n] pages of a document, an entity without page reference is
    attached to every page, an entity whose reference names a page index of
    the document to that page alone, and an entity whose reference lies
    outside the document to none: it is dropped. *)
Theorem entity_lands_on_pages (p : Ocr.Google.PageIndex) (n : nat) :
  List.length (filter (Ocr.on_page p) (seq 0 n)) = entity_page_count p n.
Proof.
  destruct p as [| |z]; cbn [entity_page_count].
  - assert (E : filter (Ocr.on_page Ocr.Google.PageUndefined) (seq 0 n)
                = seq 0 n).
    { apply forallb_filter_id. apply forallb_forall. reflexivity. }
    rewrite E. apply length_seq.
  - change (Ocr.on_page Ocr.Google.PageNull)
      with (fun i => Z.eqb 0 (Z.of_nat i)).
    rewrite count_page_index. cbn [Nat.add].
    destruct n; reflexivity.
  - change (Ocr.on_page (Ocr.Google.PageNumber z))
      with (fun i => Z.eqb z (Z.of_nat i)).
    rewrite count_page_index. reflexivity.
Qed.

(** ** The block map of Textract *)

Lemma find_snoc {A} (f : A -> bool) l x :
  find f (l ++ [x])
  = match find f l with
    | Some y => Some y
    | None => if f x then Some x else None
    end.
Proof.
  induction l as [|y l IH]; [reflexivity|]. cbn [app find].
  destruct (f y); [reflexivity|exact IH].
Qed.

Lemma blockMap_fold bs m k :
  String.eqb k EmptyString = false ->
  Ocr.Map_get
    (fold_left
       (fun m block =>
          match Ocr.Aws.Id block with
          | Some i => if String.eqb i EmptyString then m
                      else Ocr.Map_set m i block
          | None => m
          end) bs m) k
  = match find (fun b => Ocr.opt_is (Ocr.Aws.Id b) k) (rev bs) with
    | Some b => Some b
    | None => Ocr.Map_get m k
    end.
Proof.
  intros Hk. revert m. induction bs as [|b bs IH]; intros m; [reflexivity|].
  cbn [fold_left rev]. rewrite IH, find_snoc.
  destruct (find _ (rev bs)); [reflexivity|].
  unfold Ocr.opt_is. destruct (Ocr.Aws.Id b) as [i|]; [|reflexivity].
  destruct (String.eqb_spec i EmptyString) as [->|Hi].
  - destruct (String.eqb_spec EmptyString k) as [<-|_]; [discriminate|].
    reflexivity.
  - cbn [Ocr.Map_set Ocr.Map_get]. destruct (String.eqb i k); reflexivity.
Qed.

(** Looking an identifier up in the block map gives the last block of the
    response that carries it (a later block replaces an earlier one with
    the same [Id]), and nothing when no block does. *)
Theorem blockMap_lookup (bs : list Ocr.Aws.Block) (k : string) :
  String.eqb k EmptyString = false ->
  Ocr.Map_get (Ocr.aws_blockMap bs) k
  = find (fun b => Ocr.opt_is (Ocr.Aws.Id b) k) (rev bs).
Proof.
  intros Hk. unfold Ocr.aws_blockMap. rewrite (blockMap_fold bs [] k Hk).
  destruct (find _ (rev bs)); reflexivity.
Qed.

Lemma blockMap_lookup_witness :
  Ocr.Map_get
    (Ocr.aws_blockMap [word "w" "first"; word "x" "other"; word "w" "second"])
    "w"
  = Some (word "w" "second").
Proof.
  rewrite (blockMap_lookup
             [word "w" "first"; word "x" "other"; word "w" "second"] "w"
             eq_refl).
  reflexivity.
Defined.

(** The value block found for a key is a block of the map that a VALUE
    relationship of the key names, and it is a KEY_VALUE_SET block with the
    entity type VALUE. *)
Theorem getValueBlock_sound (keyBlock valueBlock : Ocr.Aws.Block)
    (blockMap : Ocr.BlockMap) :
  Ocr.getValueBlock keyBlock blockMap = Some valueBlock ->
  Ocr.opt_is (Ocr.Aws.BlockType_ valueBlock) "KEY_VALUE_SET" = true
  /\ Ocr.includes (Ocr.Aws.EntityTypes valueBlock) "VALUE" = true
  /\ exists rels rel ids id,
       Ocr.Aws.Relationships keyBlock = Some rels
       /\ In rel rels
       /\ Ocr.Aws.Type_ rel = Some "VALUE"
       /\ Ocr.Aws.Ids rel = Some ids
       /\ In id ids
       /\ Ocr.Map_get blockMap id = Some valueBlock.
Proof.
  unfold Ocr.getValueBlock. intros H.
  match type of H with hd_error ?l = _ =>
    assert (Hin : In valueBlock l)
      by (destruct l; [discriminate|injection H as ->; left; reflexivity])
  end.
  clear H. apply in_flat_map in Hin. destruct Hin as (rel & Hrel & Hin).
  destruct (Ocr.Aws.Ids rel) as [ids|] eqn:Eids; [|destruct Hin].
  destruct (Ocr.opt_is (Ocr.Aws.Type_ rel) "VALUE") eqn:Et; [|destruct Hin].
  apply in_flat_map in Hin. destruct Hin as (id & Hid & Hin).
  destruct (Ocr.Map_get blockMap id) as [vb|] eqn:Eg; [|destruct Hin].
  destruct (_ && _)%bool eqn:Ev; [|destruct Hin].
  destruct Hin as [<-|[]]. apply andb_prop in Ev. destruct Ev as [Ev1 Ev2].
  split; [exact Ev1|]. split; [exact Ev2|].
  destruct (Ocr.Aws.Relationships keyBlock) as [rels|]; [|destruct Hrel].
  exists rels, rel, ids, id. repeat split; try assumption.
  unfold Ocr.opt_is in Et. destruct (Ocr.Aws.Type_ rel) as [t|];
    [|discriminate].
  apply String.eqb_eq in Et. rewrite Et. reflexivity.
Qed.

Lemma getValueBlock_sound_witness :
  Ocr.includes
    (Ocr.Aws.EntityTypes
       (key_value_set "v1" "VALUE" [relationship "CHILD" ["w2"]])) "VALUE"
  = true.
Proof.
  destruct (getValueBlock_sound
              (key_value_set "k1" "KEY"
                 [relationship "CHILD" ["w1"]; relationship "VALUE" ["v1"]])
              (key_value_set "v1" "VALUE" [relationship "CHILD" ["w2"]])
              (Ocr.aws_blockMap textract_form) eq_refl) as (_ & H & _).
  exact H.
Defined.

(** ** Code units and bytes *)

Lemma byte_value n : (n < 256)%N -> N_of_ascii (JsString.byte n) = n.
Proof. intros H. apply N_ascii_embedding. exact H. Qed.

Lemma N_of_ascii_bounded c : (N_of_ascii c < 256)%N.
Proof. apply N_ascii_bounded. Qed.

Lemma units_eq s :
  JsString.units s
  = match s with
    | EmptyString => []
    | String c0 r0 =>
        let b0 := N_of_ascii c0 in
        let alone := b0 :: JsString.units r0 in
        match r0 with
        | EmptyString => alone
        | String c1 r1 =>
            let b1 := N_of_ascii c1 in
            if JsString.two b0 b1 then
              ((b0 - 192) * 64 + (b1 - 128))%N :: JsString.units r1
            else
              match r1 with
              | EmptyString => alone
              | String c2 r2 =>
                  let b2 := N_of_ascii c2 in
                  if JsString.three b0 b1 b2 then
                    ((b0 - 224) * 4096 + (b1 - 128) * 64 + (b2 - 128))%N
                      :: JsString.units r2
                  else
                    match r2 with
                    | EmptyString => alone
                    | String c3 r3 =>
                        let b3 := N_of_ascii c3 in
                        if JsString.four b0 b1 b2 b3 then
                          let cp := JsString.code_point b0 b1 b2 b3 in
                          (55296 + (cp - 65536) / 1024)%N
                            :: (56320 + (cp - 65536) mod 1024)%N
                            :: JsString.units r3
                        else alone
                    end
              end
        end
    end.
Proof. destruct s; reflexivity. Qed.

Ltac bools :=
  repeat match goal with
         | H : (_ && _)%bool = true |- _ => apply andb_prop in H; destruct H
         | H : (_ <=? _)%N = true |- _ => apply N.leb_le in H
         | H : (_ <? _)%N = true |- _ => apply N.ltb_lt in H
         end.

Lemma units_well_formed s : well_formed (JsString.units s).
Proof.
  remember (String.length s) as n eqn:Hn.
  revert s Hn. induction n as [n IH] using lt_wf_ind. intros s Hn.
  assert (Hrec : forall r, String.length r < n -> well_formed (JsString.units r))
    by (intros r Hr; exact (IH _ Hr r eq_refl)).
  clear IH. rewrite units_eq. unfold well_formed in *.
  destruct s as [|c0 r0]; [constructor|]. cbv zeta.
  pose proof (N_of_ascii_bounded c0) as H0.
  assert (Ha : Forall (fun u => (u < 65536)%N)
                 (N_of_ascii c0 :: JsString.units r0)).
  { constructor; [lia|]. apply Hrec. subst n. cbn. lia. }
  destruct r0 as [|c1 r1]; [exact Ha|].
  destruct (JsString.two _ _) eqn:E2.
  { unfold JsString.two, JsString.is_cont in E2. bools.
    constructor; [lia|]. apply Hrec. subst n. cbn. lia. }
  destruct r1 as [|c2 r2]; [exact Ha|].
  destruct (JsString.three _ _ _) eqn:E3.
  { unfold JsString.three, JsString.is_cont in E3. bools.
    constructor; [lia|]. apply Hrec. subst n. cbn. lia. }
  destruct r2 as [|c3 r3]; [exact Ha|].
  destruct (JsString.four _ _ _ _) eqn:E4; [|exact Ha].
  unfold JsString.four in E4. bools.
  set (cp := JsString.code_point _ _ _ _) in *.
  assert (Hd : ((cp - 65536) / 1024 < 1024)%N).
  { apply N.Div0.div_lt_upper_bound. lia. }
  assert (Hm : ((cp - 65536) mod 1024 < 1024)%N) by (apply N.mod_lt; lia).
  constructor; [lia|]. constructor; [lia|]. apply Hrec. subst n. cbn. lia.
Qed.

Ltac hide_div_mod :=
  repeat match goal with
         | |- context [N.modulo ?a ?b] =>
             let m := fresh "m" in set (m := N.modulo a b) in *; clearbody m
         | H : context [N.modulo ?a ?b] |- _ =>
             let m := fresh "m" in set (m := N.modulo a b) in *; clearbody m
         | |- context [N.div ?a ?b] =>
             let d := fresh "d" in set (d := N.div a b) in *; clearbody d
         | H : context [N.div ?a ?b] |- _ =>
             let d := fresh "d" in set (d := N.div a b) in *; clearbody d
         end.

Ltac nlia := hide_div_mod; lia.

Ltac true_bools :=
  repeat (apply andb_true_intro; split);
  first [apply N.leb_le; nlia | apply N.ltb_lt; nlia].

Lemma units_1 u X :
  (u < 128)%N ->
  JsString.units (String (JsString.byte u) X) = u :: JsString.units X.
Proof.
  intros Hu. rewrite units_eq. cbv zeta.
  rewrite (byte_value u) by lia.
  assert (E2 : forall b, JsString.two u b = false).
  { intros b. unfold JsString.two.
    destruct (N.leb_spec 194 u); [lia|reflexivity]. }
  assert (E3 : forall b c, JsString.three u b c = false).
  { intros b c. unfold JsString.three.
    destruct (N.leb_spec 224 u); [lia|reflexivity]. }
  assert (E4 : forall b c d, JsString.four u b c d = false).
  { intros b c d. unfold JsString.four.
    destruct (N.leb_spec 240 u); [lia|reflexivity]. }
  destruct X as [|c1 [|c2 [|c3 r3]]]; rewrite ?E2, ?E3, ?E4; reflexivity.
Qed.

Lemma units_2 u X :
  (128 <= u < 2048)%N ->
  JsString.units
    (String (JsString.byte (192 + u / 64))
       (String (JsString.byte (128 + u mod 64)) X))
  = u :: JsString.units X.
Proof.
  intros Hu. rewrite units_eq. cbv zeta.
  assert (Hd : (2 <= u / 64 < 32)%N).
  { split; [apply N.div_le_lower_bound; lia
           |apply N.Div0.div_lt_upper_bound; lia]. }
  assert (Hm : (u mod 64 < 64)%N) by (apply N.mod_lt; lia).
  rewrite !byte_value by nlia.
  assert (E2 : JsString.two (192 + u / 64) (128 + u mod 64) = true).
  { unfold JsString.two, JsString.is_cont.
    true_bools. }
  rewrite E2. f_equal.
  pose proof (N.div_mod u 64 ltac:(lia)). nlia.
Qed.

Lemma units_3 u X :
  (2048 <= u < 65536)%N ->
  JsString.units
    (String (JsString.byte (224 + u / 4096))
       (String (JsString.byte (128 + (u / 64) mod 64))
          (String (JsString.byte (128 + u mod 64)) X)))
  = u :: JsString.units X.
Proof.
  intros Hu. rewrite units_eq. cbv zeta.
  assert (Hd : (u / 4096 < 16)%N)
    by (apply N.Div0.div_lt_upper_bound; lia).
  assert (Hm1 : ((u / 64) mod 64 < 64)%N) by (apply N.mod_lt; lia).
  assert (Hm : (u mod 64 < 64)%N) by (apply N.mod_lt; lia).
  rewrite !byte_value by nlia.
  assert (E2 : JsString.two (224 + u / 4096) (128 + (u / 64) mod 64) = false).
  { unfold JsString.two.
    destruct (N.ltb_spec (224 + u / 4096) 224); [nlia|].
    rewrite andb_false_r. reflexivity. }
  assert (Hv : ((224 + u / 4096 - 224) * 4096
                + (128 + (u / 64) mod 64 - 128) * 64
                + (128 + u mod 64 - 128) = u)%N).
  { pose proof (N.div_mod u 64 ltac:(lia)) as H1.
    pose proof (N.div_mod (u / 64) 64 ltac:(lia)) as H2.
    rewrite N.Div0.div_div in H2. change (64 * 64)%N with 4096%N in H2.
    nlia. }
  assert (E3 : JsString.three (224 + u / 4096) (128 + (u / 64) mod 64)
                 (128 + u mod 64) = true).
  { unfold JsString.three, JsString.is_cont. rewrite Hv.
    true_bools. }
  rewrite E2, E3, Hv. reflexivity.
Qed.

Lemma units_4 cp X :
  (65536 <= cp < 1114112)%N ->
  JsString.units
    (String (JsString.byte (240 + cp / 262144))
       (String (JsString.byte (128 + (cp / 4096) mod 64))
          (String (JsString.byte (128 + (cp / 64) mod 64))
             (String (JsString.byte (128 + cp mod 64)) X))))
  = (55296 + (cp - 65536) / 1024)%N
      :: (56320 + (cp - 65536) mod 1024)%N :: JsString.units X.
Proof.
  intros Hu. rewrite units_eq. cbv zeta.
  assert (Hd : (cp / 262144 < 5)%N)
    by (apply N.Div0.div_lt_upper_bound; lia).
  assert (Hm2 : ((cp / 4096) mod 64 < 64)%N) by (apply N.mod_lt; lia).
  assert (Hm1 : ((cp / 64) mod 64 < 64)%N) by (apply N.mod_lt; lia).
  assert (Hm : (cp mod 64 < 64)%N) by (apply N.mod_lt; lia).
  rewrite !byte_value by nlia.
  assert (Hcp : JsString.code_point (240 + cp / 262144)
                  (128 + (cp / 4096) mod 64) (128 + (cp / 64) mod 64)
                  (128 + cp mod 64) = cp).
  { unfold JsString.code_point.
    pose proof (N.div_mod cp 64 ltac:(lia)) as H1.
    pose proof (N.div_mod (cp / 64) 64 ltac:(lia)) as H2.
    pose proof (N.div_mod (cp / 4096) 64 ltac:(lia)) as H3.
    rewrite N.Div0.div_div in H2. change (64 * 64)%N with 4096%N in H2.
    rewrite N.Div0.div_div in H3. change (4096 * 64)%N with 262144%N in H3.
    nlia. }
  assert (E2 : JsString.two (240 + cp / 262144) (128 + (cp / 4096) mod 64)
               = false).
  { unfold JsString.two.
    destruct (N.ltb_spec (240 + cp / 262144) 224); [nlia|].
    rewrite andb_false_r. reflexivity. }
  assert (E3 : JsString.three (240 + cp / 262144) (128 + (cp / 4096) mod 64)
                 (128 + (cp / 64) mod 64) = false).
  { unfold JsString.three.
    destruct (N.ltb_spec (240 + cp / 262144) 240); [nlia|].
    rewrite andb_false_r. reflexivity. }
  assert (E4 : JsString.four (240 + cp / 262144) (128 + (cp / 4096) mod 64)
                 (128 + (cp / 64) mod 64) (128 + cp mod 64) = true).
  { unfold JsString.four. rewrite Hcp. unfold JsString.is_cont.
    true_bools. }
  rewrite E2, E3, E4, Hcp. reflexivity.
Qed.

Lemma list_ind2 {A} (P : list A -> Prop) :
  P [] -> (forall u, P [u]) ->
  (forall u v l, P (v :: l) -> P l -> P (u :: v :: l)) ->
  forall l, P l.
Proof.
  intros H0 H1 H2.
  assert (H : forall l, P l /\ forall u, P (u :: l)).
  { induction l as [|v l [IH1 IH2]].
    - split; [exact H0|exact H1].
    - split; [apply IH2|]. intros u. apply H2; [apply IH2|exact IH1]. }
  intros l. apply H.
Qed.

(** Writing code units as a string and reading them back gives them again. *)
Lemma units_of_units l :
  well_formed l -> JsString.units (JsString.of_units l) = l.
Proof.
  induction l as [|u|u v l IHv IHl] using list_ind2; intros Hw.
  - reflexivity.
  - inversion Hw as [|? ? Hu _]; subst. cbn [JsString.of_units].
    destruct (N.ltb_spec u 128); [rewrite units_1 by lia; reflexivity|].
    destruct (N.ltb_spec u 2048); [rewrite units_2 by lia; reflexivity|].
    rewrite units_3 by lia. reflexivity.
  - inversion Hw as [|? ? Hu Hw']; subst.
    inversion Hw' as [|? ? Hv Hw'']; subst.
    specialize (IHv Hw'). specialize (IHl Hw'').
    change (JsString.of_units (u :: v :: l))
      with (if (u <? 128)%N
            then String (JsString.byte u) (JsString.of_units (v :: l))
            else if (u <? 2048)%N then
              String (JsString.byte (192 + u / 64))
                (String (JsString.byte (128 + u mod 64))
                   (JsString.of_units (v :: l)))
            else
              if JsString.is_high u && JsString.is_low v then
                let cp := (65536 + (u - 55296) * 1024 + (v - 56320))%N in
                String (JsString.byte (240 + cp / 262144))
                  (String (JsString.byte (128 + (cp / 4096) mod 64))
                     (String (JsString.byte (128 + (cp / 64) mod 64))
                        (String (JsString.byte (128 + cp mod 64))
                           (JsString.of_units l))))
              else
                String (JsString.byte (224 + u / 4096))
                  (String (JsString.byte (128 + (u / 64) mod 64))
                     (String (JsString.byte (128 + u mod 64))
                        (JsString.of_units (v :: l))))).
    destruct (N.ltb_spec u 128); [rewrite units_1, IHv by lia; reflexivity|].
    destruct (N.ltb_spec u 2048); [rewrite units_2, IHv by lia; reflexivity|].
    destruct (JsString.is_high u && JsString.is_low v) eqn:Ep.
    + unfold JsString.is_high, JsString.is_low in Ep. bools. cbv zeta.
      rewrite units_4 by lia. rewrite IHl.
      replace (65536 + (u - 55296) * 1024 + (v - 56320) - 65536)%N
        with ((u - 55296) * 1024 + (v - 56320))%N by lia.
      rewrite <- (N.div_unique ((u - 55296) * 1024 + (v - 56320)) 1024
                    (u - 55296) (v - 56320)) by lia.
      rewrite <- (N.mod_unique ((u - 55296) * 1024 + (v - 56320)) 1024
                    (u - 55296) (v - 56320)) by lia.
      f_equal; [lia|]. f_equal. lia.
    + rewrite units_3, IHv by lia. reflexivity.
Qed.

(** ** Trimmed texts *)

Lemma trimStart_first l : first_is_space (JsString.trimStart l) = false.
Proof.
  induction l as [|u l IH]; [reflexivity|]. cbn [JsString.trimStart].
  destruct (JsString.is_space u) eqn:E; [exact IH|]. cbn. exact E.
Qed.

Lemma trimEnd_last l : last_is_space (JsString.trimEnd l) = false.
Proof.
  induction l as [|u l IH]; [reflexivity|]. cbn [JsString.trimEnd].
  destruct (JsString.trimEnd l) as [|k ks].
  - destruct (JsString.is_space u) eqn:E; [reflexivity|]. cbn. exact E.
  - exact IH.
Qed.

Lemma trimEnd_first l :
  first_is_space l = false -> first_is_space (JsString.trimEnd l) = false.
Proof.
  destruct l as [|u l]; [reflexivity|]. cbn [first_is_space JsString.trimEnd].
  intros E. destruct (JsString.trimEnd l); [rewrite E|]; cbn; exact E.
Qed.

Lemma trimStart_id l : first_is_space l = false -> JsString.trimStart l = l.
Proof. destruct l as [|u l]; [reflexivity|]. cbn. intros ->. reflexivity. Qed.

Lemma trimEnd_id l : last_is_space l = false -> JsString.trimEnd l = l.
Proof.
  induction l as [|u l IH]; [reflexivity|].
  cbn [last_is_space JsString.trimEnd].
  destruct l as [|v l].
  - cbn. intros ->. reflexivity.
  - intros H. rewrite (IH H). reflexivity.
Qed.

Lemma trimStart_well_formed l :
  well_formed l -> well_formed (JsString.trimStart l).
Proof.
  unfold well_formed. induction l as [|u l IH]; [intros; constructor|].
  intros H. cbn [JsString.trimStart].
  destruct (JsString.is_space u); [|exact H].
  apply IH. inversion H; assumption.
Qed.

Lemma trimEnd_well_formed l :
  well_formed l -> well_formed (JsString.trimEnd l).
Proof.
  unfold well_formed. induction l as [|u l IH]; [intros; constructor|].
  intros H. inversion H as [|? ? Hu Hl]; subst. specialize (IH Hl).
  cbn [JsString.trimEnd]. destruct (JsString.trimEnd l) as [|k ks].
  - destruct (JsString.is_space u); constructor; [exact Hu|constructor].
  - constructor; assumption.
Qed.

(** The code units of a trimmed text are those of the text without the
    white space at its two ends. *)
Lemma units_trim s :
  JsString.units (JsString.trim s)
  = JsString.trimEnd (JsString.trimStart (JsString.units s)).
Proof.
  unfold JsString.trim. apply units_of_units.
  apply trimEnd_well_formed, trimStart_well_formed, units_well_formed.
Qed.

(** A trimmed text neither starts nor ends with white space, and trimming
    it again changes nothing. *)
Lemma trim_spec s :
  first_is_space (JsString.units (JsString.trim s)) = false
  /\ last_is_space (JsString.units (JsString.trim s)) = false
  /\ JsString.trim (JsString.trim s) = JsString.trim s.
Proof.
  rewrite units_trim.
  assert (Hf : first_is_space
                 (JsString.trimEnd (JsString.trimStart (JsString.units s)))
               = false)
    by (apply trimEnd_first, trimStart_first).
  assert (Hl : last_is_space
                 (JsString.trimEnd (JsString.trimStart (JsString.units s)))
               = false) by apply trimEnd_last.
  repeat split; try assumption.
  unfold JsString.trim at 1. rewrite units_trim.
  rewrite (trimStart_id _ Hf), (trimEnd_id _ Hl). reflexivity.
Qed.

Section TextractEntities.

Variable Buffer : Type.
Variable send : string -> Buffer -> result Ocr.Aws.Response.
Variable now : string.

(** Every entity of the Textract adapter is a KEY_VALUE entity of page 1
    whose text is a key, a colon and a space, and a value; the key is never
    empty and its code units neither start nor end with white space, in
    the full sense of [trim] (no-break space, byte order mark and the
    Unicode spaces included). *)
Theorem textract_entities e buf filename mimeType r :
  Ocr.processWithAWSTextract send now e buf filename mimeType = Ok r ->
  Forall
    (fun p =>
       Forall
         (fun en =>
            Ocr.OCREntity.type en = "KEY_VALUE"
            /\ Ocr.OCREntity.page en = 1
            /\ exists key value,
                 Ocr.OCREntity.text en = key ++ ": " ++ value
                 /\ key <> EmptyString
                 /\ first_is_space (JsString.units key) = false
                 /\ last_is_space (JsString.units key) = false)
         (Ocr.OCRPageResult.entities p))
    (Ocr.OCRResult.ocr r).
Proof.
  unfold Ocr.processWithAWSTextract.
  destruct (send _ _) as [response|x]; [|discriminate]. cbn [bind].
  destruct (Ocr.Aws.Blocks response) as [bs|]; [|discriminate].
  intros H. injection H as <-. cbn [Ocr.OCRResult.ocr].
  constructor; [|constructor]. cbn [Ocr.OCRPageResult.entities].
  apply Forall_forall. intros en Hen. apply in_flat_map in Hen.
  destruct Hen as (b & _ & Hen). unfold Ocr.aws_entity in Hen.
  destruct (_ && _)%bool; [|destruct Hen].
  destruct (String.eqb_spec
              (Ocr.getTextFromRelationships b (Ocr.aws_blockMap bs) "CHILD")
              EmptyString) as [_|Hkey]; [destruct Hen|].
  destruct Hen as [<-|[]]. split; [reflexivity|]. split; [reflexivity|].
  eexists. eexists. split; [reflexivity|]. split; [exact Hkey|].
  unfold Ocr.getTextFromRelationships.
  split; [apply trim_spec | apply trim_spec].
Qed.

End TextractEntities.

Lemma textract_entities_witness :
  Forall
    (fun p =>
       Forall (fun en => Ocr.OCREntity.type en = "KEY_VALUE")
         (Ocr.OCRPageResult.entities p))
    [ {| Ocr.OCRPageResult.page := 1;
         Ocr.OCRPageResult.text :=
           JsString.trim (Ocr.pageText (Ocr.aws_collect textract_form));
         Ocr.OCRPageResult.blocks := Ocr.blocks (Ocr.aws_collect textract_form);
         Ocr.OCRPageResult.entities :=
           flat_map (Ocr.aws_entity (Ocr.aws_blockMap textract_form))
             textract_form;
         Ocr.OCRPageResult.confidence :=
           Ocr.mean_confidence (Ocr.aws_collect textract_form) |} ].
Proof.
  pose proof (textract_entities string (aws_answers (Some textract_form))
                some_time aws_env "JVBERi0=" (VString "a.pdf")
                (VString "application/pdf") _ eq_refl) as H.
  cbn [Ocr.OCRResult.ocr] in H.
  eapply Forall_impl; [|exact H]. cbv beta. intros p Hp.
  eapply Forall_impl; [|exact Hp]. cbv beta. intros en Hen. apply Hen.
Defined.

(** ** The private key *)

Lemma has_escape_cons c u :
  has_escape u = false ->
  (Ascii.eqb c (ascii_of_nat 92) && head_is_n u)%bool = false ->
  has_escape (String c u) = false.
Proof.
  destruct u as [|x u]; [reflexivity|]. cbn [has_escape head_is_n].
  intros -> ->. reflexivity.
Qed.

Lemma unescape_step c d r :
  Ocr.unescape_newlines (String c (String d r))
  = if (Ascii.eqb c (ascii_of_nat 92) && Ascii.eqb d "n")%bool
    then String (ascii_of_nat 10) (Ocr.unescape_newlines r)
    else String c (Ocr.unescape_newlines (String d r)).
Proof. reflexivity. Qed.

Lemma unescape_invariant n :
  forall s, String.length s <= n ->
    has_escape (Ocr.unescape_newlines s) = false
    /\ (head_is_n (Ocr.unescape_newlines s) = true -> head_is_n s = true).
Proof.
  induction n as [|n IH]; intros s Hn.
  - destruct s; [|cbn in Hn; lia]. split; [reflexivity|trivial].
  - destruct s as [|c [|d r]]; [split; [reflexivity|trivial]..|].
    rewrite unescape_step.
    destruct (Ascii.eqb c (ascii_of_nat 92) && Ascii.eqb d "n")%bool eqn:E.
    + destruct (IH r) as [H1 _]; [cbn in Hn; lia|]. split.
      * apply has_escape_cons; [exact H1|reflexivity].
      * cbn [head_is_n]. discriminate.
    + destruct (IH (String d r)) as [H1 H2]; [cbn in Hn |- *; lia|].
      remember (Ocr.unescape_newlines (String d r)) as u eqn:Eu.
      split.
      * apply has_escape_cons; [exact H1|].
        destruct (head_is_n u) eqn:Eh; [|apply andb_false_r].
        specialize (H2 eq_refl). cbn [head_is_n] in H2.
        rewrite H2 in E. exact E.
      * cbn [head_is_n]. trivial.
Qed.

(** The private key handed to the Document AI client holds no escaped line
    feed any more: every backslash followed by [n] of the configured key
    has become a line feed. *)
Theorem private_key_unescaped (Buffer : Type) (e : env) (buf : Buffer)
    (mimeType : value) :
  has_escape (Ocr.Google.private_key (Ocr.google_request e buf mimeType))
  = false.
Proof.
  cbn [Ocr.google_request Ocr.Google.private_key].
  eapply unescape_invariant. apply le_n.
Qed.

(** ** The answers of the OCR route *)

Section OcrAnswers.

Variable Buffer : Type.
Variable Buffer_from : value -> option Buffer.
Variable processDocument
  : Ocr.Google.Request Buffer -> result Ocr.Google.Response.
Variable send : string -> Buffer -> result Ocr.Aws.Response.
Variable now : string.

Local Notation POST :=
  (Ocr.POST Buffer_from processDocument send now).

(** The OCR route answers 200 with an OCR Result, 400 with one of its two
    validation messages, or 500 [OCR processing failed] with a detail
    string; only the 500 answer logs anything. *)
Theorem ocr_answers e rq :
  let log := fst (POST e rq) in
  let r := snd (POST e rq) in
  (Ocr.ocr_status r = 200 /\ log = []
   /\ exists res, Ocr.ocr_body r = Ocr.Result res)
  \/ (Ocr.ocr_status r = 400 /\ log = []
      /\ (Ocr.ocr_body r = Ocr.Failure "No document provided" None
          \/ Ocr.ocr_body r = Ocr.Failure "Invalid base64 document" None))
  \/ (Ocr.ocr_status r = 500
      /\ exists x,
           log = [ConsoleErrorExn "OCR processing error:" x]
           /\ Ocr.ocr_body r
              = Ocr.Failure "OCR processing failed" (Some (details_of x))).
Proof.
  cbv zeta. unfold Ocr.POST, Ocr.POST_try.
  destruct rq as [body|x]; cbn [bind];
    [|right; right; split; [reflexivity|]; eexists; split; reflexivity].
  destruct (get body "document") as [document|x]; cbn [bind];
    [|right; right; split; [reflexivity|]; eexists; split; reflexivity].
  destruct (get body "filename") as [filename|x]; cbn [bind];
    [|right; right; split; [reflexivity|]; eexists; split; reflexivity].
  destruct (get body "mimeType") as [mimeType|x]; cbn [bind];
    [|right; right; split; [reflexivity|]; eexists; split; reflexivity].
  destruct (negb (truthy document)).
  { right. left. cbn. repeat split. left. reflexivity. }
  destruct (Buffer_from document) as [buf|].
  - destruct (Ocr.adapter _ _ _ _ _ _ _) as [res|x]; cbn [bind].
    + left. cbn. repeat split. eexists. reflexivity.
    + right. right. split; [reflexivity|]. eexists. split; reflexivity.
  - right. left. cbn. repeat split. right. reflexivity.
Qed.

(** Validation comes first: a missing or falsy document, and a document
    that cannot be decoded, are answered 400 whatever the provider, its
    configuration and its backend. *)
Theorem ocr_validation_precedes_backend e body document :
  get body "document" = Ok document ->
  (truthy document = false ->
   POST e (Ok body)
   = ([], {| Ocr.ocr_status := 400;
             Ocr.ocr_body := Ocr.Failure "No document provided" None |}))
  /\ (truthy document = true -> Buffer_from document = None ->
      POST e (Ok body)
      = ([], {| Ocr.ocr_status := 400;
                Ocr.ocr_body :=
                  Ocr.Failure "Invalid base64 document" None |})).
Proof.
  intros Hg. unfold Ocr.POST, Ocr.POST_try. cbn [bind].
  rewrite Hg, (get_field _ _ _ Hg "filename"), (get_field _ _ _ Hg "mimeType").
  cbn [bind]. split.
  - intros ->. reflexivity.
  - intros -> ->. reflexivity.
Qed.

(** An error of the provider's call is not retried and not hidden: the
    route answers 500 and the detail is the message of that error, or
    [Unknown error] when what was thrown is not an Error. *)
Theorem ocr_backend_failure e body document buf x :
  get body "document" = Ok document -> truthy document = true ->
  Buffer_from document = Some buf ->
  (if String.eqb (Ocr.OCR_PROVIDER e) "aws"
   then send (Ocr.str_or (e "AWS_REGION") "us-east-1") buf = Throw x
   else google_configured e = true
        /\ processDocument
             (Ocr.google_request e buf
                (or_else (field body "mimeType") (VString "application/pdf")))
           = Throw x) ->
  POST e (Ok body)
  = ([ConsoleErrorExn "OCR processing error:" x],
     {| Ocr.ocr_status := 500;
        Ocr.ocr_body :=
          Ocr.Failure "OCR processing failed"
            (Some match x with
                  | JsError message => message
                  | Thrown _ => "Unknown error"
                  end) |}).
Proof.
  intros Hg Ht Hb H.
  rewrite (POST_adapter Buffer Buffer_from processDocument send now
             e body document buf Hg Ht Hb).
  unfold Ocr.adapter.
  destruct (String.eqb (Ocr.OCR_PROVIDER e) "aws").
  - unfold Ocr.processWithAWSTextract. rewrite H. reflexivity.
  - destruct H as [Hc H].
    rewrite (google_when_configured Buffer processDocument now _ _ _ _ Hc), H.
    reflexivity.
Qed.

End OcrAnswers.

Lemma ocr_validation_precedes_backend_witness :
  Ocr.POST string_buffer (google_answers None) (aws_answers None) some_time
    (env_of []) (Ok (VObject [("filename", VString "a.pdf")]))
  = ([], {| Ocr.ocr_status := 400;
            Ocr.ocr_body := Ocr.Failure "No document provided" None |})
  /\ Ocr.POST string_buffer (google_answers None) (aws_answers None) some_time
       (env_of []) (Ok (VObject [("document", VNumber (Num.of_Z 7))]))
     = ([], {| Ocr.ocr_status := 400;
               Ocr.ocr_body := Ocr.Failure "Invalid base64 document" None |}).
Proof.
  split.
  - destruct (ocr_validation_precedes_backend string string_buffer
                (google_answers None) (aws_answers None) some_time
                (env_of []) (VObject [("filename", VString "a.pdf")])
                VUndefined eq_refl) as [H _].
    exact (H eq_refl).
  - destruct (ocr_validation_precedes_backend string string_buffer
                (google_answers None) (aws_answers None) some_time
                (env_of []) (VObject [("document", VNumber (Num.of_Z 7))])
                (VNumber (Num.of_Z 7)) eq_refl) as [_ H].
    exact (H eq_refl eq_refl).
Defined.

Lemma ocr_backend_failure_witness :
  Ocr.POST string_buffer
    (fun _ => Throw (Thrown (VString "quota")))
    (aws_answers None) some_time google_env (Ok base64_body)
  = ([ConsoleErrorExn "OCR processing error:" (Thrown (VString "quota"))],
     {| Ocr.ocr_status := 500;
        Ocr.ocr_body :=
          Ocr.Failure "OCR processing failed" (Some "Unknown error") |}).
Proof.
  apply (ocr_backend_failure string string_buffer
           (fun _ => Throw (Thrown (VString "quota")))
           (aws_answers None) some_time google_env base64_body
           (VString "JVBERi0=") "JVBERi0=" (Thrown (VString "quota"))
           eq_refl eq_refl eq_refl).
  split; reflexivity.
Defined.

(** ** The upload handler of the page *)

Section HomeProperties.

Variable Number_toString : Num.number -> string.
Variable readAsDataURL : Client.File -> option string.
Variable fetch : string -> value -> result Client.http.

Local Notation handleFileSelect :=
  (Client.handleFileSelect Number_toString readAsDataURL fetch).
Local Notation fileToBase64 := (Client.fileToBase64 readAsDataURL).

(** A file of another type than PDF, PNG, JPEG or TIFF, or of more than
    10 MB, is refused on the spot: the only change is the error message
    and no request is sent. *)
Theorem rejected_files_make_no_request st file :
  existsb (String.eqb (Client.type file)) Client.validTypes = false
  \/ (10 * 1024 * 1024 < Client.size file)%N ->
  fst (handleFileSelect st (Some file)) = []
  /\ exists m,
       snd (handleFileSelect st (Some file)) = Client.setError st (Some m)
       /\ (m = "Invalid file type. Please upload a PDF or image file."
           \/ m = "File too large. Maximum size is 10MB.").
Proof.
  intros H. unfold Client.handleFileSelect.
  destruct (existsb (String.eqb (Client.type file)) Client.validTypes) eqn:Et;
    cbn [negb].
  - destruct H as [H|H]; [discriminate|].
    apply N.ltb_lt in H. rewrite H. split; [reflexivity|].
    eexists. split; [reflexivity|]. right. reflexivity.
  - split; [reflexivity|]. eexists. split; [reflexivity|]. left. reflexivity.
Qed.

(** For an accepted file the handler ends either complete (progress 100,
    both results stored, review shown, after exactly the OCR request and
    then the summarize request built from the OCR answer) or in the error
    state with a message, the earlier results untouched, and a progress
    that tells how far it came: 10 when the file could not be read (no
    request sent), 40 when the OCR request failed (the summarize request is
    not sent), 70 when the summarize request failed. *)
Theorem pipeline_outcome st file :
  existsb (String.eqb (Client.type file)) Client.validTypes = true ->
  (Client.size file <= 10 * 1024 * 1024)%N ->
  let log := fst (handleFileSelect st (Some file)) in
  let st' := snd (handleFileSelect st (Some file)) in
  (exists base64 o s,
     Client.processingState st' = Client.ProcessingState.complete
     /\ Client.progress st' = 100
     /\ Client.error st' = None
     /\ Client.showReview st' = true
     /\ Client.results st'
        = {| Client.ocrResult := Some o; Client.summaryResult := Some s |}
     /\ log = [ Client.Fetch "/api/ocr" (Client.ocr_request file base64);
                Client.Fetch "/api/summarize" (Client.summarize_request o) ])
  \/ (failed_at st st' 10 /\ filter Client.is_fetch log = [])
  \/ (exists base64,
        failed_at st st' 40
        /\ filter Client.is_fetch log
           = [Client.Fetch "/api/ocr" (Client.ocr_request file base64)])
  \/ (exists base64 o,
        failed_at st st' 70
        /\ filter Client.is_fetch log
           = [ Client.Fetch "/api/ocr" (Client.ocr_request file base64);
               Client.Fetch "/api/summarize" (Client.summarize_request o) ]).
Proof.
  intros Ht Hs. cbv zeta. unfold Client.handleFileSelect.
  rewrite Ht. cbn [negb].
  assert (Hs' : N.ltb (10 * 1024 * 1024) (Client.size file) = false)
    by (apply N.ltb_ge; exact Hs).
  rewrite Hs'. unfold Client.try_block, Client.fileToBase64.
  destruct (readAsDataURL file) as [url|];
    [|right; left; repeat split; discriminate].
  cbv zeta.
  destruct (fetch "/api/ocr" _) as [r1|x];
    [|right; right; left; eexists; repeat split; discriminate].
  destruct (negb (Client.ok r1));
    [right; right; left; eexists; repeat split; discriminate|].
  destruct (Client.json r1) as [o|x];
    [|right; right; left; eexists; repeat split; discriminate].
  destruct (fetch "/api/summarize" _) as [r2|x];
    [|right; right; right; eexists; eexists; repeat split; discriminate].
  destruct (negb (Client.ok r2));
    [right; right; right; eexists; eexists; repeat split; discriminate|].
  destruct (Client.json r2) as [s|x];
    [|right; right; right; eexists; eexists; repeat split; discriminate].
  left. eexists. eexists. eexists. repeat split.
Qed.


End HomeProperties.

Lemma rejected_files_make_no_request_witness :
  Client.handleFileSelect stand_in_toString data_url
    (fun _ _ => Throw (JsError "Failed to fetch")) Client.initial
    (Some {| Client.name := "notes.txt"; Client.type := "text/plain";
             Client.size := 12 |})
  = ([], Client.setError Client.initial
           (Some "Invalid file type. Please upload a PDF or image file.")).
Proof.
  destruct (rejected_files_make_no_request stand_in_toString data_url
              (fun _ _ => Throw (JsError "Failed to fetch")) Client.initial
              {| Client.name := "notes.txt"; Client.type := "text/plain";
                 Client.size := 12 |} (or_introl eq_refl)) as (_ & _).
  reflexivity.
Defined.

Lemma pipeline_outcome_witness :
  failed_at Client.initial
    (snd (Client.handleFileSelect stand_in_toString data_url
            (fun _ _ => Throw (JsError "Failed to fetch")) Client.initial
            (Some pdf_file))) 40.
Proof.
  destruct (pipeline_outcome stand_in_toString data_url
              (fun _ _ => Throw (JsError "Failed to fetch")) Client.initial
              pdf_file eq_refl)
    as [(b & o & s & H & _)|[(H & _)|[(b & H & _)|(b & o & H & _)]]].
  - vm_compute. discriminate.
  - discriminate H.
  - destruct H as (_ & H & _). discriminate H.
  - exact H.
  - destruct H as (_ & H & _). discriminate H.
Defined.


(** ** The page and the two routes together *)

Lemma valid_type_truthy file d :
  existsb (String.eqb (Client.type file)) Client.validTypes = true ->
  or_else (VString (Client.type file)) d = VString (Client.type file).
Proof.
  intros H. apply or_else_kept. cbn [truthy].
  apply existsb_exists in H. destruct H as (t & Hin & Ht).
  apply String.eqb_eq in Ht. rewrite Ht.
  cbn in Hin. repeat (destruct Hin as [<-|Hin]; [reflexivity|]). destruct Hin.
Qed.

Section Pipeline.

Variable SYSTEM_PROMPT : string.
Variable JSON_stringify : value -> string.
Variable JSON_parse : string -> option obj.
Variable generateContent : string -> string -> result string.
Variable Buffer : Type.
Variable Buffer_from : value -> option Buffer.
Variable processDocument
  : Ocr.Google.Request Buffer -> result Ocr.Google.Response.
Variable send : string -> Buffer -> result Ocr.Aws.Response.
Variable now : string.
Variable Number_toString : Num.number -> string.
Variable readAsDataURL : Client.File -> option string.
Variable e : env.

Local Notation fetch :=
  (routes_fetch SYSTEM_PROMPT JSON_stringify JSON_parse generateContent
     Buffer_from processDocument send now e).
Local Notation handleFileSelect :=
  (Client.handleFileSelect Number_toString readAsDataURL fetch).
Local Notation ocr_POST := (Ocr.POST Buffer_from processDocument send now).

(** The status that goes with each body of the OCR route. *)
Lemma ocr_status_of_reply rq :
  let r := snd (ocr_POST e rq) in
  (Ocr.ocr_status r = 200 /\ exists res, Ocr.ocr_body r = Ocr.Result res)
  \/ (Ocr.ocr_status r = 400
      /\ (Ocr.ocr_body r = Ocr.Failure "No document provided" None
          \/ Ocr.ocr_body r = Ocr.Failure "Invalid base64 document" None))
  \/ (Ocr.ocr_status r = 500
      /\ exists d,
           Ocr.ocr_body r = Ocr.Failure "OCR processing failed" (Some d)).
Proof.
  cbv zeta. unfold Ocr.POST, Ocr.POST_try.
  destruct rq as [body|x]; cbn [bind];
    [|right; right; split; [reflexivity|]; eexists; reflexivity].
  destruct (get body "document") as [document|x]; cbn [bind];
    [|right; right; split; [reflexivity|]; eexists; reflexivity].
  destruct (get body "filename") as [filename|x]; cbn [bind];
    [|right; right; split; [reflexivity|]; eexists; reflexivity].
  destruct (get body "mimeType") as [mimeType|x]; cbn [bind];
    [|right; right; split; [reflexivity|]; eexists; reflexivity].
  destruct (negb (truthy document)).
  { right. left. cbn. split; [reflexivity|]. left. reflexivity. }
  destruct (Buffer_from document) as [buf|].
  - destruct (Ocr.adapter _ _ _ _ _ _ _) as [res|x]; cbn [bind].
    + left. cbn. split; [reflexivity|]. eexists. reflexivity.
    + right. right. split; [reflexivity|]. eexists. reflexivity.
  - right. left. cbn. split; [reflexivity|]. right. reflexivity.
Qed.

Lemma accepted_file_runs st file :
  existsb (String.eqb (Client.type file)) Client.validTypes = true ->
  (Client.size file <= 10 * 1024 * 1024)%N ->
  handleFileSelect st (Some file)
  = match Client.try_block Number_toString readAsDataURL fetch
            (Client.setProgress
               (Client.setProcessingState (Client.setError st None)
                  Client.ProcessingState.uploading) 10) file with
    | (log, st', Ok _) => (log, st')
    | (log, st', Throw err) =>
        ((log ++ [Client.ConsoleError "Processing error:" err])%list,
         Client.setProcessingState
           (Client.setError st'
              (Some match err with
                    | JsError message => message
                    | Thrown _ => "Processing failed"
                    end))
           Client.ProcessingState.error)
    end.
Proof.
  intros Ht Hs. unfold Client.handleFileSelect. rewrite Ht. cbn [negb].
  assert (Hs' : N.ltb (10 * 1024 * 1024) (Client.size file) = false)
    by (apply N.ltb_ge; exact Hs).
  rewrite Hs'. reflexivity.
Qed.

(** Whatever the OCR route refuses or fails on, the page ends in the error
    state at progress 40 showing the route's own message, which is one of
    [No document provided], [Invalid base64 document] and [OCR processing
    failed]; the detail of a failure does not reach the user. *)
Theorem pipeline_shows_route_error st file url message details :
  existsb (String.eqb (Client.type file)) Client.validTypes = true ->
  (Client.size file <= 10 * 1024 * 1024)%N ->
  readAsDataURL file = Some url ->
  Ocr.ocr_body
    (snd (ocr_POST e
            (Ok (wire (Client.ocr_request file (Client.split_comma_1 url))))))
  = Ocr.Failure message details ->
  let st' := snd (handleFileSelect st (Some file)) in
  Client.processingState st' = Client.ProcessingState.error
  /\ Client.progress st' = 40
  /\ Client.error st' = Some message
  /\ (message = "No document provided"
      \/ message = "Invalid base64 document"
      \/ message = "OCR processing failed").
Proof.
  intros Ht Hs Hu Hb. cbv zeta.
  pose proof (ocr_status_of_reply
                (Ok (wire (Client.ocr_request file
                             (Client.split_comma_1 url))))) as Ha.
  cbv zeta in Ha.
  assert (Hm : (message = "No document provided"
                \/ message = "Invalid base64 document"
                \/ message = "OCR processing failed")
               /\ Nat.leb 200 (Ocr.ocr_status (snd (ocr_POST e
                    (Ok (wire (Client.ocr_request file
                                 (Client.split_comma_1 url)))))))
                  && Nat.leb (Ocr.ocr_status (snd (ocr_POST e
                    (Ok (wire (Client.ocr_request file
                                 (Client.split_comma_1 url))))))) 299
                  = false).
  { rewrite Hb in Ha.
    destruct Ha as [(_ & res & Hr)|[(H4 & Hr)|(H5 & x & Hr)]].
    - discriminate.
    - rewrite H4. split; [|reflexivity].
      destruct Hr as [Hr|Hr]; injection Hr as -> _; tauto.
    - rewrite H5. split; [|reflexivity]. injection Hr as -> _. tauto. }
  destruct Hm as [Hm Hok]. clear Ha.
  assert (E : Client.try_block Number_toString readAsDataURL fetch
                (Client.setProgress
                   (Client.setProcessingState (Client.setError st None)
                      Client.ProcessingState.uploading) 10) file
              = ([Client.Fetch "/api/ocr"
                    (Client.ocr_request file (Client.split_comma_1 url))],
                 Client.setProgress
                   (Client.setProcessingState
                      (Client.setProgress
                         (Client.setProgress
                            (Client.setProcessingState
                               (Client.setError st None)
                               Client.ProcessingState.uploading) 10) 30)
                      Client.ProcessingState.ocr) 40,
                 Throw (JsError message))).
  { unfold Client.try_block, Client.fileToBase64. rewrite Hu. cbv zeta.
    unfold routes_fetch. cbn [String.eqb Ascii.eqb Bool.eqb].
    unfold Client.ok. cbn [Client.status Client.json]. rewrite Hok.
    cbn [negb]. unfold Client.api_error. cbn [Client.json]. rewrite Hb.
    assert (Hg : get (reply_value (Ocr.Failure message details)) "error"
                 = Ok (VString message)).
    { destruct details; reflexivity. }
    rewrite Hg.
    assert (Hor : or_else (VString message) (VString "OCR processing failed")
                  = VString message).
    { apply or_else_kept. destruct Hm as [->|[->| ->]]; reflexivity. }
    rewrite Hor. reflexivity. }
  rewrite (accepted_file_runs st file Ht Hs), E.
  split; [reflexivity|]. split; [reflexivity|]. split; [reflexivity|exact Hm].
Qed.

(** The whole pipeline in mock mode: when the OCR route answers an accepted
    file with an OCR Result and the summarize route runs in mock mode (skip
    flag set, or no credential), the page makes exactly the two requests,
    the second carrying the OCR Result as received, and ends complete at
    progress 100 with the review opened, holding that OCR Result and the
    fixed mock Summary Result. *)
Theorem pipeline_completes_in_mock_mode st file url res :
  existsb (String.eqb (Client.type file)) Client.validTypes = true ->
  (Client.size file <= 10 * 1024 * 1024)%N ->
  readAsDataURL file = Some url ->
  Ocr.ocr_body
    (snd (ocr_POST e
            (Ok (wire (Client.ocr_request file (Client.split_comma_1 url))))))
  = Ocr.Result res ->
  mock_mode e = true ->
  let out := handleFileSelect st (Some file) in
  fst out
  = [Client.Fetch "/api/ocr"
       (Client.ocr_request file (Client.split_comma_1 url));
     Client.Fetch "/api/summarize"
       (Client.summarize_request (Ocr.OCRResult_value res))]
  /\ Client.processingState (snd out) = Client.ProcessingState.complete
  /\ Client.progress (snd out) = 100
  /\ Client.error (snd out) = None
  /\ Client.showReview (snd out) = true
  /\ Client.results (snd out)
     = {| Client.ocrResult := Some (Ocr.OCRResult_value res);
          Client.summaryResult := Some (VObject Summarize.getMockSummary) |}.
Proof.
  intros Ht Hs Hu Hb Hm. cbv zeta.
  pose proof (ocr_status_of_reply
                (Ok (wire (Client.ocr_request file
                             (Client.split_comma_1 url))))) as Ha.
  cbv zeta in Ha. rewrite Hb in Ha.
  assert (Hst : Ocr.ocr_status
                  (snd (ocr_POST e
                          (Ok (wire (Client.ocr_request file
                                       (Client.split_comma_1 url))))))
                = 200).
  { destruct Ha as [(H & _)|[(_ & [H|H])|(_ & x & H)]];
      [exact H|discriminate H..]. }
  clear Ha.
  assert (HP : snd (Summarize.POST SYSTEM_PROMPT JSON_stringify JSON_parse
                      generateContent e
                      (Ok (wire (Client.summarize_request
                                   (Ocr.OCRResult_value res)))))
               = json (VObject Summarize.getMockSummary)).
  { assert (Hg : get (wire (Client.summarize_request
                               (Ocr.OCRResult_value res))) "ocr_result"
                 = Ok (wire (Ocr.OCRResult_value res))) by reflexivity.
    assert (Hv : has_meta_and_ocr (wire (Ocr.OCRResult_value res)) = true)
      by reflexivity.
    assert (Hy : truthy (wire (Ocr.OCRResult_value res)) = true)
      by reflexivity.
    destruct (mock_mode_cases e Hm) as [Hk|[Hk Hn]].
    - rewrite (POST_of_try SYSTEM_PROMPT JSON_stringify JSON_parse
                 generateContent e _ _ _
                 (POST_try_skip SYSTEM_PROMPT JSON_stringify JSON_parse
                    generateContent e _ _ Hg Hy Hk)).
      reflexivity.
    - rewrite (POST_of_try SYSTEM_PROMPT JSON_stringify JSON_parse
                 generateContent e _ _ _
                 (POST_try_no_key SYSTEM_PROMPT JSON_stringify JSON_parse
                    generateContent e _ _ Hg Hv Hk Hn)).
      reflexivity. }
  assert (Hw : wire (VObject Summarize.getMockSummary)
               = VObject Summarize.getMockSummary)
    by (vm_compute; reflexivity).
  assert (E : Client.try_block Number_toString readAsDataURL fetch
                (Client.setProgress
                   (Client.setProcessingState (Client.setError st None)
                      Client.ProcessingState.uploading) 10) file
              = ([Client.Fetch "/api/ocr"
                    (Client.ocr_request file (Client.split_comma_1 url));
                  Client.Fetch "/api/summarize"
                    (Client.summarize_request (Ocr.OCRResult_value res))],
                 {| Client.processingState := Client.ProcessingState.complete;
                    Client.progress := 100;
                    Client.error := None;
                    Client.results :=
                      {| Client.ocrResult := Some (Ocr.OCRResult_value res);
                         Client.summaryResult :=
                           Some (VObject Summarize.getMockSummary) |};
                    Client.showReview := true |},
                 Ok tt)).
  { unfold Client.try_block, Client.fileToBase64. rewrite Hu. cbv zeta.
    unfold routes_fetch. cbn [String.eqb Ascii.eqb Bool.eqb].
    unfold Client.ok. cbn [Client.status Client.json]. rewrite Hst, Hb.
    cbn [Nat.leb andb negb reply_value]. rewrite HP.
    cbn [json status body Nat.leb andb negb]. rewrite Hw. reflexivity. }
  rewrite (accepted_file_runs st file Ht Hs), E.
  repeat (split; [reflexivity|]). reflexivity.
Qed.

End Pipeline.

Lemma pipeline_shows_route_error_witness :
  let st' :=
    snd (Client.handleFileSelect stand_in_toString data_url
           (routes_fetch EmptyString no_stringify no_parse no_backend
              string_buffer (google_answers None) (aws_answers None)
              some_time (env_of []))
           Client.initial (Some pdf_file)) in
  Client.processingState st' = Client.ProcessingState.error
  /\ Client.progress st' = 40
  /\ Client.error st' = Some "OCR processing failed".
Proof.
  destruct (pipeline_shows_route_error EmptyString no_stringify no_parse
              no_backend string string_buffer (google_answers None)
              (aws_answers None) some_time stand_in_toString data_url
              (env_of []) Client.initial pdf_file
              "data:application/pdf;base64,JVBERi0=" "OCR processing failed"
              (Some ("Missing Google Cloud configuration. Please set "
                     ++ "GOOGLE_CLOUD_PROJECT_ID, GOOGLE_CLOUD_LOCATION, and "
                     ++ "GOOGLE_DOCUMENT_AI_PROCESSOR_ID in your environment "
                     ++ "variables.")))
    as (H1 & H2 & H3 & _);
    [reflexivity|vm_compute; discriminate|reflexivity|reflexivity|].
  cbv zeta. split; [exact H1|]. split; [exact H2|exact H3].
Defined.

Lemma pipeline_completes_in_mock_mode_witness :
  let out :=
    Client.handleFileSelect stand_in_toString data_url
      (routes_fetch EmptyString no_stringify no_parse no_backend
         string_buffer (google_answers (Some one_line)) (aws_answers None)
         some_time google_env)
      Client.initial (Some pdf_file) in
  map Client.is_fetch (fst out) = [true; true]
  /\ Client.processingState (snd out) = Client.ProcessingState.complete
  /\ Client.progress (snd out) = 100
  /\ Client.summaryResult (Client.results (snd out))
     = Some (VObject Summarize.getMockSummary).
Proof.
  edestruct (pipeline_completes_in_mock_mode EmptyString no_stringify no_parse
               no_backend string string_buffer (google_answers (Some one_line))
               (aws_answers None) some_time stand_in_toString data_url
               google_env Client.initial pdf_file
               "data:application/pdf;base64,JVBERi0=")
    as (H1 & H2 & H3 & _ & _ & H6);
    [reflexivity|vm_compute; discriminate|reflexivity|vm_compute; reflexivity
    |reflexivity|].
  cbv zeta. rewrite H1, H2, H3, H6. repeat split; reflexivity.
Defined.

(** ** The name of the exported file *)

Lemma strip_extension_cases s :
  (exists stem ext,
      s = stem ++ String "." ext /\ Review.is_extension ext = true
      /\ Review.strip_extension s = stem)
  \/ ((forall stem ext,
          s = stem ++ String "." ext -> Review.is_extension ext = false)
      /\ Review.strip_extension s = s).
Proof.
  induction s as [|c rest IH].
  - right. split; [|reflexivity].
    intros [|d stem] ext H; discriminate H.
  - cbn [Review.strip_extension].
    destruct (Ascii.eqb c "." && Review.is_extension rest)%bool eqn:Hc.
    + apply andb_prop in Hc. destruct Hc as [Hd He].
      apply Ascii.eqb_eq in Hd. subst c.
      left. exists EmptyString, rest. repeat split; [exact He].
    + destruct IH as [(stem & ext & -> & He & Hr)|[Hn Hr]].
      * left. exists (String c stem), ext. rewrite Hr.
        repeat split; [exact He].
      * right. rewrite Hr. split; [|reflexivity].
        intros [|d stem] ext H; cbn in H; injection H as Hd Hrest.
        -- subst c rest. rewrite Ascii.eqb_refl in Hc. exact Hc.
        -- exact (Hn stem ext Hrest).
Qed.

(** The analysis is exported under the name of the document without its
    extension, followed by [-analysis.json]: what is removed is the last
    dot and what follows it, when that is not empty and holds no slash; a
    name with no such ending is kept whole. *)
Theorem export_name_spec filename :
  (exists stem ext,
      filename = stem ++ String "." ext /\ Review.is_extension ext = true
      /\ Review.export_name filename = stem ++ "-analysis.json")
  \/ ((forall stem ext,
          filename = stem ++ String "." ext ->
          Review.is_extension ext = false)
      /\ Review.export_name filename = filename ++ "-analysis.json").
Proof.
  unfold Review.export_name.
  destruct (strip_extension_cases filename)
    as [(stem & ext & Hf & He & Hr)|[Hn Hr]]; rewrite Hr.
  - left. exists stem, ext. repeat split; assumption.
  - right. split; [exact Hn|reflexivity].
Qed.

(** ** The tests' helper and the route's normalizer *)

(** The summary tests do not call the normalizer of the route but a helper
    of their own. The two agree on every field but [short_summary], and on
    that one exactly when the candidate's is truthy: for a missing or falsy
    [short_summary] the helper answers [Unable to generate summary] where
    the route answers a longer default, so the two results differ. *)
Theorem test_helper_and_normalizer (C : obj) :
  (forall k, k <> "short_summary" ->
     prop (SummaryTests.validateSummary C) k
     = prop (Summarize.validateAndNormalizeSummary C) k)
  /\ (truthy (prop C "short_summary") = true ->
      SummaryTests.validateSummary C = Summarize.validateAndNormalizeSummary C)
  /\ (truthy (prop C "short_summary") = false ->
      prop (SummaryTests.validateSummary C) "short_summary"
      = VString "Unable to generate summary"
      /\ prop (Summarize.validateAndNormalizeSummary C) "short_summary"
         = VString "Unable to generate summary - document analysis incomplete"
      /\ SummaryTests.validateSummary C
         <> Summarize.validateAndNormalizeSummary C).
Proof.
  assert (Ht : prop (SummaryTests.validateSummary C) "short_summary"
               = or_else (prop C "short_summary")
                   (VString "Unable to generate summary")) by reflexivity.
  assert (Hn : prop (Summarize.validateAndNormalizeSummary C) "short_summary"
               = or_else (prop C "short_summary")
                   (VString Summarize.default_summary)) by reflexivity.
  split; [|split].
  - intros k Hk.
    unfold SummaryTests.validateSummary, Summarize.validateAndNormalizeSummary.
    change (prop ((?a, ?v) :: ?r) k)
      with (if String.eqb a k then v else prop r k).
    destruct (String.eqb_spec "short_summary" k) as [E|_];
      [symmetry in E; contradiction|reflexivity].
  - intros H.
    unfold SummaryTests.validateSummary, Summarize.validateAndNormalizeSummary,
      or_else.
    rewrite H. reflexivity.
  - intros H. rewrite Ht, Hn. unfold or_else. rewrite H.
    split; [reflexivity|]. split; [reflexivity|].
    intros E. apply (f_equal (fun o => prop o "short_summary")) in E.
    rewrite Ht, Hn in E. unfold or_else in E. rewrite H in E. discriminate E.
Qed.
